(** * Dirty-page tracking VFS (vfs_tracking.c): model and verification

    A shallow embedding of [vfs_tracking.c] / [vfs_tracking.h].

    - [uint32_t], [int] and [int64_t] values are integers of [Z]; unsigned
      wrap-around is written out with [wrap32], signed overflow and
      division by zero are undefined behaviour ([Undefined]).
    - A C string is a [string] (without the NUL character); a [char*] that
      may be NULL is an [option string].
    - The bitmap [uint32_t* dirtyBitmap] is [option (list Z)]: [None] is the
      NULL pointer, [Some ws] an allocated block of [length ws] words.  An
      access outside the block is [Undefined].
    - The linked list [g_state.files] is a list, newest node first; the
      [next] field of a node is the tail of the list after it.  A
      [FileTracker*] into the list is the rank of the node counted from
      the tail, which does not change while the list lives because nodes
      are only pushed at the head.  Two equal pointers are the same node
      of the shared store.  [vfs_tracking_init] and
      [vfs_tracking_shutdown] drop the whole list, the first without
      freeing its nodes: [deref] and [store] resolve a pointer in the list
      it points into, and the section on sequences of calls keeps the
      dropped lists, so that a pointer is never resolved in a later list.
    - The allocator is an oracle consulted by each call: it says whether
      [calloc], [strdup], [realloc] and [malloc] succeed and what the
      indeterminate content of freshly allocated words is.  Sizes are
      counted in 32-bit words: the byte count [n * sizeof(uint32_t)] is
      taken to fit [size_t].
    - The wrapped backend is a record of functions (its method tables);
      only the methods the tracking code calls with an effect on tracking
      are modelled.  Diagnostic output ([printf], [fprintf]) is left out. *)

From Stdlib Require Import ZArith Lia List String Ascii Bool Sorted.
From stdpp Require Import base tactics option list list_numbers.

Local Open Scope Z_scope.

(** ** Outcomes of a call *)

Inductive outcome (A : Type) : Type :=
| Ok (a : A)        (* the call returns *)
| Undefined         (* undefined behaviour: invalid access, overflow, x/0 *)
| Diverges.         (* the call never returns *)

Arguments Ok {A} a.
Arguments Undefined {A}.
Arguments Diverges {A}.

Definition bind {A B : Type} (m : outcome A) (k : A -> outcome B) : outcome B :=
  match m with
  | Ok a => k a
  | Undefined => Undefined
  | Diverges => Diverges
  end.

Notation "x <- m ;; k" := (bind m (fun x => k))
  (at level 100, m at next level, right associativity).

(** ** Machine integers *)

Definition SQLITE_OK : Z := 0.
Definition SQLITE_ERROR : Z := 1.
Definition SQLITE_NOMEM : Z := 7.
Definition SQLITE_NOTFOUND : Z := 12.      (* sqlite3.h; not used by the code *)
Definition DEFAULT_PAGE_SIZE : Z := 4096.

Definition INT64_MAX : Z := 2 ^ 63 - 1.
Definition INT64_MIN : Z := - 2 ^ 63.

(** Conversion to [uint32_t]. *)
Definition wrap32 (z : Z) : Z := z mod 2 ^ 32.

(** [int64_t] arithmetic: overflow is undefined. *)
Definition in_int64 (z : Z) : bool := (INT64_MIN <=? z) && (z <=? INT64_MAX).

Definition add64 (a b : Z) : outcome Z :=
  if in_int64 (a + b) then Ok (a + b) else Undefined.

Definition sub64 (a b : Z) : outcome Z :=
  if in_int64 (a - b) then Ok (a - b) else Undefined.

(** [a / b] on [int64_t] with [b] a converted [uint32_t] (so [b >= 0]):
    truncating division, undefined for [b = 0]. *)
Definition div64 (a b : Z) : outcome Z :=
  if b =? 0 then Undefined else Ok (Z.quot a b).

(** ** The allocator oracle *)

Record Allocator : Type := mkAllocator {
  calloc_ok : bool;
  strdup_ok : bool;
  realloc_ok : bool;
  malloc_ok : bool;
  fresh_word : nat -> Z     (* indeterminate content of fresh storage *)
}.

Definition fresh_words (a : Allocator) (n : nat) : list Z :=
  map (fun k => wrap32 (fresh_word a k)) (seq 0 n).

(** [realloc(old, nwords * sizeof(uint32_t))]: on success the new block
    starts with the old content and continues with indeterminate words; on
    failure the result is NULL and the old block is untouched. *)
Definition realloc (a : Allocator) (old : option (list Z)) (nwords : Z)
  : option (list Z) :=
  if realloc_ok a then
    let n := Z.to_nat nwords in
    Some (take n (default [] old ++ fresh_words a n))
  else None.

(** [malloc(nwords * sizeof(uint32_t))]. *)
Definition malloc (a : Allocator) (nwords : Z) : option (list Z) :=
  if malloc_ok a then Some (fresh_words a (Z.to_nat nwords)) else None.

(** [memset(block + from, 0, count * sizeof(uint32_t))]. *)
Definition memset_zero (ws : list Z) (from count : Z) : outcome (list Z) :=
  if (0 <=? from) && (0 <=? count) && (from + count <=? Z.of_nat (length ws)) then
    Ok (take (Z.to_nat from) ws ++ replicate (Z.to_nat count) 0
          ++ drop (Z.to_nat (from + count)) ws)
  else Undefined.

(** ** Data model (vfs_tracking.h) *)

Record FileTracker : Type := mkFileTracker {
  filename : option string;        (* char*: None is NULL *)
  dirtyBitmap : option (list Z);   (* uint32_t*: None is NULL *)
  bitmapSize : Z;                  (* size of the bitmap in words *)
  totalPages : Z;
  pageSize : Z;
  isOpen : Z
}.

(** ** Loops over a [uint32_t] counter

    [for (i = i0; cond(i); i++) body] with state [s].  The counter wraps
    around; the loop stops with [Diverges] when the fuel is used up. *)
Fixpoint for_u32 {S : Type} (fuel : nat) (i : Z) (cond : Z -> bool)
    (body : Z -> S -> outcome S) (s : S) : outcome S :=
  match fuel with
  | O => Diverges
  | Datatypes.S fuel' =>
      if cond i then
        s' <- body i s ;;
        for_u32 fuel' (wrap32 (i + 1)) cond body s'
      else Ok s
  end.

(** ** Bit access *)

(** [bitmap[i / 32] |= (1U << (i % 32))]. *)
Definition set_bit (i : Z) (bm : option (list Z)) : outcome (option (list Z)) :=
  let wordIndex := i / 32 in
  let bitIndex := i mod 32 in
  match bm with
  | None => Undefined
  | Some ws =>
      match ws !! Z.to_nat wordIndex with
      | None => Undefined
      | Some w =>
          Ok (Some (<[Z.to_nat wordIndex := Z.lor w (Z.shiftl 1 bitIndex)]> ws))
      end
  end.

(** [bitmap[i / 32] & (1U << (i % 32))] as a truth value. *)
Definition test_bit (i : Z) (bm : option (list Z)) : outcome bool :=
  let wordIndex := i / 32 in
  let bitIndex := i mod 32 in
  match bm with
  | None => Undefined
  | Some ws =>
      match ws !! Z.to_nat wordIndex with
      | None => Undefined
      | Some w => Ok (negb (Z.land w (Z.shiftl 1 bitIndex) =? 0))
      end
  end.

(** ** vfs_tracking_mark_dirty *)

Definition startPage_of (t : FileTracker) (offset : Z) : outcome Z :=
  q <- div64 offset (pageSize t) ;;
  Ok (wrap32 q).

Definition endPage_of (t : FileTracker) (offset amount : Z) : outcome Z :=
  s <- add64 offset amount ;;
  s1 <- sub64 s 1 ;;
  q <- div64 s1 (pageSize t) ;;
  Ok (wrap32 q).

(** The block "Ensure bitmap is large enough".  [Ok None] is the early
    return after a failed [realloc]. *)
Definition ensure_capacity (a : Allocator) (t : FileTracker) (requiredPages : Z)
  : outcome (option FileTracker) :=
  if totalPages t <? requiredPages then
    let newBitmapSize := wrap32 (requiredPages + 31) / 32 in
    if bitmapSize t <? newBitmapSize then
      match realloc a (dirtyBitmap t) newBitmapSize with
      | None => Ok None
      | Some newBitmap =>
          zeroed <- memset_zero newBitmap (bitmapSize t)
                      (newBitmapSize - bitmapSize t) ;;
          Ok (Some (mkFileTracker (filename t) (Some zeroed) newBitmapSize
                      requiredPages (pageSize t) (isOpen t)))
      end
    else
      Ok (Some (mkFileTracker (filename t) (dirtyBitmap t) (bitmapSize t)
                  requiredPages (pageSize t) (isOpen t)))
  else Ok (Some t).

(** The body of [vfs_tracking_mark_dirty] behind the guard
    [tracker == NULL || amount <= 0], on the record the pointer refers to. *)
Definition mark_dirty_tracker (a : Allocator) (t : FileTracker) (offset amount : Z)
  : outcome FileTracker :=
  startPage <- startPage_of t offset ;;
  endPage <- endPage_of t offset amount ;;
  let requiredPages := wrap32 (endPage + 1) in
  grown <- ensure_capacity a t requiredPages ;;
  match grown with
  | None => Ok t
  | Some t1 =>
      bm <- for_u32 (S (Z.to_nat (endPage - startPage + 1))) startPage
              (fun i => i <=? endPage) set_bit (dirtyBitmap t1) ;;
      Ok (mkFileTracker (filename t1) bm (bitmapSize t1) (totalPages t1)
            (pageSize t1) (isOpen t1))
  end.

(** ** The wrapped backend

    The decorator calls the real file through [p->pReal->pMethods] and the
    real VFS through [pVfs->pAppData].  [F] is the state of a real file
    handle; every method returns its result code first. *)

Record sqlite3_io_methods (F : Type) : Type := mk_io_methods {
  xClose : F -> Z * F;
  xWrite : F -> list Z -> Z -> Z -> Z * F;      (* zBuf, iAmt, iOfst *)
  xTruncate : F -> Z -> Z * F
}.

Arguments xClose {F}.
Arguments xWrite {F}.
Arguments xTruncate {F}.

Record sqlite3_vfs (F : Type) : Type := mk_vfs {
  szOsFile : Z;
  mxPathname : Z;
  (* zName, flags -> rc, the opened real file, *pOutFlags *)
  xOpen : option string -> Z -> Z * F * Z;
  pMethods : sqlite3_io_methods F
}.

Arguments szOsFile {F}.
Arguments mxPathname {F}.
Arguments xOpen {F}.
Arguments pMethods {F}.

(** What the SQLite library answers to [vfs_tracking_init]. *)
Record Sqlite (F : Type) : Type := mk_sqlite {
  sqlite3_vfs_find : option string -> option (sqlite3_vfs F);
  sqlite3_vfs_register : Z;        (* rc of registering the tracking VFS *)
  sizeof_TrackingFile : Z
}.

Arguments sqlite3_vfs_find {F}.
Arguments sqlite3_vfs_register {F}.
Arguments sizeof_TrackingFile {F}.

(** ** Global state *)

Record VfsTrackingState (F : Type) : Type := mkState {
  files : list FileTracker;            (* linked list, newest first *)
  pRealVfs : option (sqlite3_vfs F);
  defaultPageSize : Z
}.

Arguments mkState {F}.
Arguments files {F}.
Arguments pRealVfs {F}.
Arguments defaultPageSize {F}.

(** The configurable fields of the static [trackingVfs]. *)
Record tracking_vfs (F : Type) : Type := mk_tracking_vfs {
  tv_szOsFile : Z;
  tv_mxPathname : Z;
  pAppData : option (sqlite3_vfs F)
}.

Arguments mk_tracking_vfs {F}.
Arguments tv_szOsFile {F}.
Arguments tv_mxPathname {F}.
Arguments pAppData {F}.

Record World (F : Type) : Type := mkWorld {
  g_state : VfsTrackingState F;
  trackingVfs : tracking_vfs F
}.

Arguments mkWorld {F}.
Arguments g_state {F}.
Arguments trackingVfs {F}.

(** [static VfsTrackingState g_state = {0}] and the initial [trackingVfs]. *)
Definition g_state_init {F : Type} : VfsTrackingState F := mkState [] None 0.
Definition world_init {F : Type} : World F :=
  mkWorld g_state_init (mk_tracking_vfs 0 0 None).

(** ** Pointers to trackers

    [deref st p] is the node that [p] points to when [p] is a pointer into
    the list of [st]: a pointer that [vfs_tracking_get_file] returned on
    this list or on one of its shorter predecessors.  A rank beyond the
    list is a pointer to no node; using it is undefined behaviour. *)

Abbreviation tracker_ptr := nat (only parsing).

Definition deref {F : Type} (st : VfsTrackingState F) (p : tracker_ptr)
  : option FileTracker :=
  rev (files st) !! p.

Definition store {F : Type} (st : VfsTrackingState F) (p : tracker_ptr)
    (t : FileTracker) : VfsTrackingState F :=
  mkState (rev (<[p := t]> (rev (files st)))) (pRealVfs st) (defaultPageSize st).

(** ** vfs_tracking_init, vfs_tracking_shutdown *)

Definition vfs_tracking_init {F : Type} (sq : Sqlite F) (w : World F)
    (baseVfsName : option string) (pageSize : Z) : World F * Z :=
  match pRealVfs (g_state w) with
  | Some _ => (w, SQLITE_OK)                       (* already initialized *)
  | None =>
      match sqlite3_vfs_find sq baseVfsName with
      | None => (w, SQLITE_ERROR)
      | Some real =>
          let g := mkState [] (Some real)
                     (if 0 <? pageSize then pageSize else DEFAULT_PAGE_SIZE) in
          let tv := mk_tracking_vfs (sizeof_TrackingFile sq + szOsFile real)
                      (mxPathname real) (Some real) in
          let rc := sqlite3_vfs_register sq in
          if negb (rc =? SQLITE_OK) then (mkWorld g tv, rc)
          else (mkWorld g tv, SQLITE_OK)
      end
  end.

Definition vfs_tracking_shutdown {F : Type} (w : World F) : World F :=
  mkWorld (mkState [] None (defaultPageSize (g_state w))) (trackingVfs w).

(** ** vfs_tracking_get_file *)

(** Strip one leading slash. *)
Definition normalize (name : string) : string :=
  match name with
  | String "/"%char rest => rest
  | _ => name
  end.

(** The search loop; [strcmp] on a NULL [filename] is undefined.  The
    pointer to the head node of [t :: rest] is [length rest]. *)
Fixpoint search (l : list FileTracker) (normalizedName : string)
  : outcome (option tracker_ptr) :=
  match l with
  | [] => Ok None
  | t :: rest =>
      match filename t with
      | None => Undefined
      | Some f =>
          if String.eqb f normalizedName then Ok (Some (length rest))
          else search rest normalizedName
      end
  end.

Definition fresh_tracker (name : option string) (ps : Z) : FileTracker :=
  mkFileTracker name None 0 0 ps 0.

Definition vfs_tracking_get_file {F : Type} (a : Allocator)
    (st : VfsTrackingState F) (name : option string)
  : outcome (VfsTrackingState F * option tracker_ptr) :=
  match name with
  | None => Ok (st, None)
  | Some fn =>
      let normalizedName := normalize fn in
      found <- search (files st) normalizedName ;;
      match found with
      | Some p => Ok (st, Some p)
      | None =>
          if calloc_ok a then
            let pFile :=
              fresh_tracker (if strdup_ok a then Some normalizedName else None)
                (defaultPageSize st) in
            Ok (mkState (pFile :: files st) (pRealVfs st) (defaultPageSize st),
                Some (length (files st)))
          else Ok (st, None)
      end
  end.

(** ** vfs_tracking_mark_dirty on the shared store *)

Definition vfs_tracking_mark_dirty {F : Type} (a : Allocator)
    (st : VfsTrackingState F) (tracker : option tracker_ptr) (offset amount : Z)
  : outcome (VfsTrackingState F) :=
  match tracker with
  | None => Ok st
  | Some p =>
      if amount <=? 0 then Ok st
      else
        match deref st p with
        | None => Undefined
        | Some t =>
            t' <- mark_dirty_tracker a t offset amount ;;
            Ok (store st p t')
        end
  end.

(** ** vfs_tracking_get_dirty_pages *)

(** First loop: count the set bits below [totalPages]. *)
Definition count_step (bm : option (list Z)) (i dirtyCount : Z) : outcome Z :=
  b <- test_bit i bm ;;
  Ok (if b : bool then wrap32 (dirtyCount + 1) else dirtyCount).

Definition count_dirty (t : FileTracker) : outcome Z :=
  for_u32 (S (Z.to_nat (totalPages t))) 0 (fun i => i <? totalPages t)
    (count_step (dirtyBitmap t)) 0.

(** Second loop: [pages[pageIndex++] = i] for every set bit; the state is
    [pageIndex] and the array. *)
Definition fill_step (bm : option (list Z)) (i : Z) (s : Z * list Z)
  : outcome (Z * list Z) :=
  b <- test_bit i bm ;;
  if b : bool then
    if (Z.to_nat (fst s) <? length (snd s))%nat then
      Ok (wrap32 (fst s + 1), <[Z.to_nat (fst s) := i]> (snd s))
    else Undefined
  else Ok s.

Definition fill_pages (t : FileTracker) (pages : list Z) : outcome (Z * list Z) :=
  for_u32 (S (Z.to_nat (totalPages t))) 0 (fun i => i <? totalPages t)
    (fill_step (dirtyBitmap t)) (0, pages).

(** The out-parameters are cells: [None] is a NULL pointer, [Some v] a
    cell that holds [v].  The result gives the state, then the return code
    and both cells after the call. *)
Definition vfs_tracking_get_dirty_pages {F : Type} (a : Allocator)
    (st : VfsTrackingState F) (name : option string)
    (pPageCount : option Z) (ppPages : option (option (list Z)))
  : outcome (VfsTrackingState F * (Z * option Z * option (option (list Z)))) :=
  match name, pPageCount, ppPages with
  | Some fn, Some count0, Some pages0 =>
      r <- vfs_tracking_get_file a st (Some fn) ;;
      let st1 := fst r in
      let empty := Ok (st1, (SQLITE_OK, Some 0, Some None)) in
      match snd r with
      | None => empty
      | Some p =>
          match deref st1 p with
          | None => Undefined
          | Some t =>
              match dirtyBitmap t with
              | None => empty
              | Some _ =>
                  dirtyCount <- count_dirty t ;;
                  if dirtyCount =? 0 then empty
                  else
                    match malloc a dirtyCount with
                    | None => Ok (st1, (SQLITE_NOMEM, Some count0, Some pages0))
                    | Some pages =>
                        filled <- fill_pages t pages ;;
                        Ok (st1, (SQLITE_OK, Some dirtyCount,
                                  Some (Some (snd filled))))
                    end
              end
          end
      end
  | _, _, _ => Ok (st, (SQLITE_ERROR, pPageCount, ppPages))
  end.

(** ** vfs_tracking_reset_dirty *)

Definition vfs_tracking_reset_dirty {F : Type} (a : Allocator)
    (st : VfsTrackingState F) (name : option string)
  : outcome (VfsTrackingState F * Z) :=
  match name with
  | None => Ok (st, SQLITE_ERROR)
  | Some fn =>
      r <- vfs_tracking_get_file a st (Some fn) ;;
      let st1 := fst r in
      match snd r with
      | None => Ok (st1, SQLITE_OK)
      | Some p =>
          match deref st1 p with
          | None => Undefined
          | Some t =>
              match dirtyBitmap t with
              | None => Ok (st1, SQLITE_OK)
              | Some ws =>
                  zeroed <- memset_zero ws 0 (bitmapSize t) ;;
                  Ok (store st1 p
                        (mkFileTracker (filename t) (Some zeroed) (bitmapSize t)
                           (totalPages t) (pageSize t) (isOpen t)),
                      SQLITE_OK)
              end
          end
      end
  end.

(** ** The decorated file handle and the intercepted methods *)

Record TrackingFile (F : Type) : Type := mkTrackingFile {
  base_pMethods : bool;                 (* base.pMethods == &trackingIoMethods *)
  pReal : F;
  pReal_methods : sqlite3_io_methods F;     (* pReal->pMethods *)
  pTracker : option tracker_ptr
}.

Arguments mkTrackingFile {F}.
Arguments base_pMethods {F}.
Arguments pReal {F}.
Arguments pReal_methods {F}.
Arguments pTracker {F}.

Definition set_isOpen (t : FileTracker) (v : Z) : FileTracker :=
  mkFileTracker (filename t) (dirtyBitmap t) (bitmapSize t) (totalPages t)
    (pageSize t) v.

(** [p] is the memory SQLite hands in for the handle; the result gives the
    state, the handle, the return code and [*pOutFlags]. *)
Definition trackingOpen {F : Type} (a : Allocator) (pVfs : tracking_vfs F)
    (st : VfsTrackingState F) (zName : option string) (p : TrackingFile F)
    (flags : Z)
  : outcome (VfsTrackingState F * TrackingFile F * Z * Z) :=
  match pAppData pVfs with
  | None => Undefined
  | Some pRealVfs =>
      let '(rc, real, outFlags) := xOpen pRealVfs zName flags in
      let p1 := mkTrackingFile (base_pMethods p) real (pMethods pRealVfs)
                  (pTracker p) in
      if rc =? SQLITE_OK then
        match zName with
        | Some _ =>
            r <- vfs_tracking_get_file a st zName ;;
            let st1 := fst r in
            let p2 := mkTrackingFile true real (pMethods pRealVfs) (snd r) in
            match snd r with
            | None => Ok (st1, p2, rc, outFlags)
            | Some q =>
                match deref st1 q with
                | None => Undefined
                | Some t => Ok (store st1 q (set_isOpen t 1), p2, rc, outFlags)
                end
            end
        | None =>
            Ok (st, mkTrackingFile true real (pMethods pRealVfs) None, rc, outFlags)
        end
      else Ok (st, p1, rc, outFlags)
  end.

Definition fileClose {F : Type} (st : VfsTrackingState F) (p : TrackingFile F)
  : outcome (VfsTrackingState F * TrackingFile F * Z) :=
  let '(rc, real) := xClose (pReal_methods p) (pReal p) in
  let p1 := mkTrackingFile (base_pMethods p) real (pReal_methods p) (pTracker p) in
  match pTracker p with
  | None => Ok (st, p1, rc)
  | Some q =>
      match deref st q with
      | None => Undefined
      | Some t => Ok (store st q (set_isOpen t 0), p1, rc)
      end
  end.

Definition fileWrite {F : Type} (a : Allocator) (st : VfsTrackingState F)
    (p : TrackingFile F) (zBuf : list Z) (iAmt iOfst : Z)
  : outcome (VfsTrackingState F * TrackingFile F * Z) :=
  let '(rc, real) := xWrite (pReal_methods p) (pReal p) zBuf iAmt iOfst in
  let p1 := mkTrackingFile (base_pMethods p) real (pReal_methods p) (pTracker p) in
  if (rc =? SQLITE_OK) && bool_decide (pTracker p <> None) then
    st1 <- vfs_tracking_mark_dirty a st (pTracker p) iOfst iAmt ;;
    Ok (st1, p1, rc)
  else Ok (st, p1, rc).

Definition fileTruncate {F : Type} (a : Allocator) (st : VfsTrackingState F)
    (p : TrackingFile F) (size : Z)
  : outcome (VfsTrackingState F * TrackingFile F * Z) :=
  let '(rc, real) := xTruncate (pReal_methods p) (pReal p) size in
  let p1 := mkTrackingFile (base_pMethods p) real (pReal_methods p) (pTracker p) in
  if (rc =? SQLITE_OK) && bool_decide (pTracker p <> None) then
    st1 <- vfs_tracking_mark_dirty a st (pTracker p) size 1 ;;
    Ok (st1, p1, rc)
  else Ok (st, p1, rc).

(** ** Observations used by the specification *)

(** Bit [i] of a word array; a word that is not there reads as unset. *)
Definition bit_at (ws : list Z) (i : Z) : bool :=
  match ws !! Z.to_nat (i / 32) with
  | Some w => Z.testbit w (i mod 32)
  | None => false
  end.

(** Page [i] of tracker [t] is dirty: its bit is set within
    [[0, totalPages)]. *)
Definition bitmap_bit (bm : option (list Z)) (i : Z) : bool :=
  match bm with
  | Some ws => bit_at ws i
  | None => false
  end.

Definition dirty (t : FileTracker) (i : Z) : bool :=
  if (0 <=? i) && (i <? totalPages t) then bitmap_bit (dirtyBitmap t) i
  else false.

(** The ascending sequence of dirty pages. *)
Definition enumerateDirty (t : FileTracker) : list Z :=
  List.filter (dirty t) (seqZ 0 (totalPages t)).

(** Representation invariant of a tracker. *)
Definition tracker_wf (t : FileTracker) : Prop :=
  0 <= totalPages t < 2 ^ 32 /\
  totalPages t <= 32 * bitmapSize t /\
  match dirtyBitmap t with
  | None => bitmapSize t = 0
  | Some ws =>
      Z.of_nat (length ws) = bitmapSize t /\
      forall i, totalPages t <= i -> bit_at ws i = false
  end.

(** Every node of the list has a filename and a well-formed bitmap. *)
Definition state_wf {F : Type} (st : VfsTrackingState F) : Prop :=
  Forall (fun t => filename t <> None /\ tracker_wf t) (files st).

(** ** Specification-level definitions *)

(** Preconditions under which a marking call is within the range of the
    page counters. *)
Definition mark_in_range (t : FileTracker) (offset amount : Z) : Prop :=
  0 < pageSize t /\ 0 <= offset /\ 0 < amount /\
  offset + amount <= INT64_MAX /\
  (offset + amount - 1) / pageSize t + 32 < 2 ^ 32.

Definition name_matches (normalizedName : string) (t : FileTracker) : bool :=
  match filename t with
  | Some f => String.eqb f normalizedName
  | None => false
  end.

(** The tracker registered under a filename: the first node, from the head
    of the list, whose name equals the normalized filename. *)
Definition lookup_tracker {F : Type} (st : VfsTrackingState F) (name : string)
  : option FileTracker :=
  List.find (name_matches (normalize name)) (files st).

(** The state after a tracker for [normalizedName] has been pushed. *)
Definition push_fresh {F : Type} (a : Allocator) (st : VfsTrackingState F)
    (normalizedName : string) : VfsTrackingState F :=
  mkState
    (mkFileTracker (if strdup_ok a then Some normalizedName else None)
       None 0 0 (defaultPageSize st) 0 :: files st)
    (pRealVfs st) (defaultPageSize st).

(** The pages [vfs_tracking_get_dirty_pages] has to report for a filename. *)
Definition dirty_pages_of {F : Type} (st : VfsTrackingState F) (name : string)
  : list Z :=
  match lookup_tracker st name with
  | Some t => enumerateDirty t
  | None => []
  end.

(** What [vfs_tracking_get_dirty_pages] returns for a non-null filename and
    non-null out-parameters, as a function of the pages to report. *)
Definition dirty_pages_answer (a : Allocator) (pages : list Z)
    (count0 : Z) (pages0 : option (list Z))
  : Z * option Z * option (option (list Z)) :=
  match pages with
  | [] => (SQLITE_OK, Some 0, Some None)
  | _ :: _ =>
      if malloc_ok a
      then (SQLITE_OK, Some (Z.of_nat (length pages)), Some (Some pages))
      else (SQLITE_NOMEM, Some count0, Some pages0)
  end.

(** [clearAll]: the tracker with every word of its bitmap zeroed. *)
Definition clear_bits (t : FileTracker) : FileTracker :=
  mkFileTracker (filename t)
    (option_map (fun ws => replicate (length ws) 0) (dirtyBitmap t))
    (bitmapSize t) (totalPages t) (pageSize t) (isOpen t).

(** Two trackers that differ at most in [isOpen]. *)
Definition same_tracking (t t' : FileTracker) : Prop :=
  filename t' = filename t /\ dirtyBitmap t' = dirtyBitmap t /\
  bitmapSize t' = bitmapSize t /\ totalPages t' = totalPages t /\
  pageSize t' = pageSize t.

(** ** Test doubles: an allocator that succeeds, one that fails, and an
    in-memory backend whose file state is the file size *)

Definition alloc_ok : Allocator :=
  mkAllocator true true true true (fun _ => 3735928559).

Definition alloc_fail : Allocator :=
  mkAllocator false false false false (fun _ => 0).

Definition memfs_io : sqlite3_io_methods Z :=
  mk_io_methods Z
    (fun f => (SQLITE_OK, f))
    (fun f _ iAmt iOfst => (SQLITE_OK, Z.max f (iOfst + iAmt)))
    (fun f size => if size <? 0 then (10, f) else (SQLITE_OK, size)).

Definition memfs : sqlite3_vfs Z :=
  mk_vfs Z 8 512 (fun _ flags => (SQLITE_OK, 0, flags)) memfs_io.

Definition sqlite_memfs : Sqlite Z :=
  mk_sqlite Z
    (fun name =>
       match name with
       | Some n => if String.eqb n "memfs" then Some memfs else None
       | None => Some memfs
       end)
    SQLITE_OK 12.

(** The world after [vfs_tracking_init("memfs", 4096)]. *)
Definition world_memfs : World Z :=
  fst (vfs_tracking_init sqlite_memfs world_init (Some "memfs"%string) 4096).

(** A registry that holds one fresh tracker for "db.sqlite" with page size
    4096, as [vfs_tracking_get_file] creates it after initialization. *)
Definition tracker_db : FileTracker :=
  mkFileTracker (Some "db.sqlite"%string) None 0 0 4096 0.

Definition state_db : VfsTrackingState Z :=
  mkState [tracker_db] (Some memfs) 4096.

(** The tracker of [state_db] after 20 bytes were written at offset 4090. *)
Definition tracker_db_01 : FileTracker :=
  mkFileTracker (Some "db.sqlite"%string) (Some [3]) 1 2 4096 0.

(** An allocator that fails only in [malloc]. *)
Definition alloc_no_malloc : Allocator :=
  mkAllocator true true true false (fun _ => 0).

(** The registry after 20 bytes were written to "db.sqlite" at offset 4090:
    pages 0 and 1 are dirty. *)
Definition state_db_01 : VfsTrackingState Z :=
  mkState [tracker_db_01] (Some memfs) 4096.

(** The tracker of [state_db_01] after 10 more bytes were written at offset
    409600 (page 100). *)
Definition tracker_db_100 : FileTracker :=
  mkFileTracker (Some "db.sqlite"%string) (Some [3; 0; 0; 16]) 4 101 4096 0.

(** A handle on "db.sqlite" of [state_db], as [trackingOpen] sets it up. *)
Definition handle_db : TrackingFile Z := mkTrackingFile true 0 memfs_io (Some 0%nat).

(** A registry with trackers for "db.sqlite" (pointer 0, pages 0 and 1
    dirty) and "other.db" (pointer 1, fresh). *)
Definition state_two : VfsTrackingState Z :=
  mkState [mkFileTracker (Some "other.db"%string) None 0 0 4096 0; tracker_db_01]
    (Some memfs) 4096.

(** ** The end-to-end scenario with page size 4096
    Open "/db.sqlite", write 10 bytes at offset 0 (dirty pages [0]), write
    20 bytes at offset 4090 (dirty pages [0; 1]), close, reset (no dirty
    page), reopen under the name "db.sqlite" (still none). *)

Definition blank_handle : TrackingFile Z := mkTrackingFile false 0 memfs_io None.

Definition pages_after {A : Type} (r : outcome (VfsTrackingState Z * A))
  : outcome (Z * option Z * option (option (list Z))) :=
  x <- r ;;
  y <- vfs_tracking_get_dirty_pages alloc_ok (fst x) (Some "db.sqlite"%string)
         (Some 0) (Some None) ;;
  Ok (snd y).

Definition scenario_open : outcome (VfsTrackingState Z * TrackingFile Z) :=
  r <- trackingOpen alloc_ok (trackingVfs world_memfs) (g_state world_memfs)
         (Some "/db.sqlite"%string) blank_handle 6 ;;
  Ok (fst (fst (fst r)), snd (fst (fst r))).

Definition scenario_write (prev : outcome (VfsTrackingState Z * TrackingFile Z))
    (iAmt iOfst : Z) : outcome (VfsTrackingState Z * TrackingFile Z) :=
  x <- prev ;;
  r <- fileWrite alloc_ok (fst x) (snd x) [] iAmt iOfst ;;
  Ok (fst (fst r), snd (fst r)).

Definition scenario_close_reset
    (prev : outcome (VfsTrackingState Z * TrackingFile Z))
  : outcome (VfsTrackingState Z * Z) :=
  x <- prev ;;
  r <- fileClose (fst x) (snd x) ;;
  vfs_tracking_reset_dirty alloc_ok (fst (fst r)) (Some "/db.sqlite"%string).

Definition scenario_reopen (prev : outcome (VfsTrackingState Z * Z))
  : outcome (VfsTrackingState Z * TrackingFile Z) :=
  x <- prev ;;
  r <- trackingOpen alloc_ok (trackingVfs world_memfs) (fst x)
         (Some "db.sqlite"%string) blank_handle 6 ;;
  Ok (fst (fst (fst r)), snd (fst (fst r))).

(** ** Further definitions used by the properties beyond the claims *)

Definition INT_MAX : Z := 2 ^ 31 - 1.

(** The pages [startPage .. endPage] of the marking loop. *)
Definition in_marked_range (startPage endPage i : Z) : bool :=
  (startPage <=? i) && (i <=? endPage).

(** An allocator that fails only in [realloc]. *)
Definition alloc_no_realloc : Allocator :=
  mkAllocator true true false true (fun _ => 0).

(** [state_db] after one byte was written at offset [2^44]: the page index
    was truncated to 0. *)
Definition state_db_wrapped : VfsTrackingState Z :=
  mkState [mkFileTracker (Some "db.sqlite"%string) (Some [1]) 1 1 4096 0]
    (Some memfs) 4096.

(** The allocator that answers as [a] does, but grants every [realloc]. *)
Definition with_realloc (a : Allocator) : Allocator :=
  mkAllocator (calloc_ok a) (strdup_ok a) true (malloc_ok a) (fresh_word a).

(** The handle after a delegated call that returned the real file [real]. *)
Definition with_pReal {F : Type} (h : TrackingFile F) (real : F) : TrackingFile F :=
  mkTrackingFile (base_pMethods h) real (pReal_methods h) (pTracker h).

(** The handle [trackingOpen] sets up after a successful real open. *)
Definition opened_handle {F : Type} (pRealVfs : sqlite3_vfs F) (real : F)
    (tracker : option tracker_ptr) : TrackingFile F :=
  mkTrackingFile true real (pMethods pRealVfs) tracker.

(** An allocator whose [calloc] fails. *)
Definition alloc_no_calloc : Allocator :=
  mkAllocator false true true true (fun _ => 0).

(** An allocator whose [strdup] fails. *)
Definition alloc_no_strdup : Allocator :=
  mkAllocator true false true true (fun _ => 0).

(** ** Sequences of calls

    A client of the module is a sequence of calls to its functions and to
    the methods it installs, with arguments of the client's choice; every
    call has its own allocator oracle and [call_init] its own answer of the
    SQLite library.  [trackingOpen] is called by SQLite with the registered
    [trackingVfs].

    A tracker pointer can outlive the list it points into.  A
    [vfs_tracking_init] that gets past its two early returns sets
    [g_state.files = NULL] without freeing the nodes: they stay allocated
    and can still be used through the pointers handed out before.
    [vfs_tracking_shutdown] frees the nodes: a pointer to one of them
    dangles, and using it is undefined behaviour.  An epoch is the life of
    one list.  [dropped] keeps, for every past epoch, the nodes of its list
    that are still allocated: the list as init left it, or no node after a
    shutdown.  The address of a tracker is its epoch and its rank in the
    list of that epoch, and a file handle comes with the epoch of its
    [pTracker]. *)

Record Process (F : Type) : Type := mkProcess {
  now : World F;
  dropped : list (list FileTracker)
}.

Arguments mkProcess {F}.
Arguments now {F}.
Arguments dropped {F}.

Definition process_init {F : Type} : Process F := mkProcess world_init [].

Definition epoch {F : Type} (pr : Process F) : nat := length (dropped pr).

(** The nodes that the pointers of epoch [e] point into, as a registry:
    the registry itself for the current epoch, the nodes still allocated
    for a past epoch, none for an epoch that has not begun. *)
Definition memory_of {F : Type} (pr : Process F) (e : nat)
  : VfsTrackingState F :=
  if (e =? epoch pr)%nat then g_state (now pr)
  else mkState (default [] (dropped pr !! e))
         (pRealVfs (g_state (now pr))) (defaultPageSize (g_state (now pr))).

Definition put_state {F : Type} (pr : Process F) (st : VfsTrackingState F)
  : Process F :=
  mkProcess (mkWorld st (trackingVfs (now pr))) (dropped pr).

Definition set_memory {F : Type} (pr : Process F) (e : nat)
    (m : VfsTrackingState F) : Process F :=
  if (e =? epoch pr)%nat then put_state pr m
  else mkProcess (now pr) (<[e := files m]> (dropped pr)).

Inductive call (F : Type) : Type :=
| call_init (sq : Sqlite F) (baseVfsName : option string) (pageSize : Z)
| call_shutdown
| call_get_file (a : Allocator) (name : option string)
| call_mark_dirty (a : Allocator) (tracker : option (nat * nat))
    (offset amount : Z)
| call_get_dirty_pages (a : Allocator) (name : option string)
    (pPageCount : option Z) (ppPages : option (option (list Z)))
| call_reset_dirty (a : Allocator) (name : option string)
| call_open (a : Allocator) (zName : option string) (p : TrackingFile F)
    (flags : Z)
| call_close (e : nat) (p : TrackingFile F)
| call_write (a : Allocator) (e : nat) (p : TrackingFile F) (zBuf : list Z)
    (iAmt iOfst : Z)
| call_truncate (a : Allocator) (e : nat) (p : TrackingFile F) (size : Z).

Arguments call_init {F}.
Arguments call_shutdown {F}.
Arguments call_get_file {F}.
Arguments call_mark_dirty {F}.
Arguments call_get_dirty_pages {F}.
Arguments call_reset_dirty {F}.
Arguments call_open {F}.
Arguments call_close {F}.
Arguments call_write {F}.
Arguments call_truncate {F}.

(** [vfs_tracking_init] drops the list when it gets past both early
    returns: the module is not initialized and the base VFS is found. *)
Definition init_takes_effect {F : Type} (sq : Sqlite F) (w : World F)
    (baseVfsName : option string) : bool :=
  match pRealVfs (g_state w), sqlite3_vfs_find sq baseVfsName with
  | None, Some _ => true
  | _, _ => false
  end.

Definition run_call {F : Type} (c : call F) (pr : Process F)
  : outcome (Process F) :=
  let st := g_state (now pr) in
  match c with
  | call_init sq baseVfsName pageSize =>
      let w' := fst (vfs_tracking_init sq (now pr) baseVfsName pageSize) in
      if init_takes_effect sq (now pr) baseVfsName
      then Ok (mkProcess w' (dropped pr ++ [files st]))      (* leaked *)
      else Ok (mkProcess w' (dropped pr))
  | call_shutdown =>
      Ok (mkProcess (vfs_tracking_shutdown (now pr))
            (dropped pr ++ [[]]))                             (* freed *)
  | call_get_file a name =>
      r <- vfs_tracking_get_file a st name ;; Ok (put_state pr (fst r))
  | call_mark_dirty a tracker offset amount =>
      match tracker with
      | None =>
          st' <- vfs_tracking_mark_dirty a st None offset amount ;;
          Ok (put_state pr st')
      | Some (e, r) =>
          m <- vfs_tracking_mark_dirty a (memory_of pr e) (Some r) offset amount ;;
          Ok (set_memory pr e m)
      end
  | call_get_dirty_pages a name pPageCount ppPages =>
      r <- vfs_tracking_get_dirty_pages a st name pPageCount ppPages ;;
      Ok (put_state pr (fst r))
  | call_reset_dirty a name =>
      r <- vfs_tracking_reset_dirty a st name ;; Ok (put_state pr (fst r))
  | call_open a zName p flags =>
      r <- trackingOpen a (trackingVfs (now pr)) st zName p flags ;;
      Ok (put_state pr (fst (fst (fst r))))
  | call_close e p =>
      r <- fileClose (memory_of pr e) p ;; Ok (set_memory pr e (fst (fst r)))
  | call_write a e p zBuf iAmt iOfst =>
      r <- fileWrite a (memory_of pr e) p zBuf iAmt iOfst ;;
      Ok (set_memory pr e (fst (fst r)))
  | call_truncate a e p size =>
      r <- fileTruncate a (memory_of pr e) p size ;;
      Ok (set_memory pr e (fst (fst r)))
  end.

Fixpoint run_calls {F : Type} (cs : list (call F)) (pr : Process F)
  : outcome (Process F) :=
  match cs with
  | [] => Ok pr
  | c :: cs' => pr' <- run_call c pr ;; run_calls cs' pr'
  end.

(** Calls other than [vfs_tracking_init] and [vfs_tracking_shutdown]. *)
Definition keeps_registry {F : Type} (c : call F) : bool :=
  match c with
  | call_init _ _ _ | call_shutdown => false
  | _ => true
  end.

(** How the registry changes between init and shutdown: a tracker is
    updated in place, keeping its name and page size, or a tracker for a
    name that the search did not find is pushed in front. *)
Inductive registry_evolves {F : Type} (st : VfsTrackingState F)
  : VfsTrackingState F -> Prop :=
| evolves_refl : registry_evolves st st
| evolves_update (st1 : VfsTrackingState F) (p : nat) (t t' : FileTracker) :
    registry_evolves st st1 -> deref st1 p = Some t ->
    filename t' = filename t -> pageSize t' = pageSize t ->
    registry_evolves st (store st1 p t')
| evolves_push (st1 : VfsTrackingState F) (a : Allocator) (n : string) :
    registry_evolves st st1 -> search (files st1) n = Ok None ->
    registry_evolves st (push_fresh a st1 n).

(** No two trackers of the registry have the same name. *)
Definition names_unique {F : Type} (st : VfsTrackingState F) : Prop :=
  NoDup (map filename (files st)).

(** Every tracker has the page size of the registry. *)
Definition sizes_uniform {F : Type} (st : VfsTrackingState F) : Prop :=
  Forall (fun t => pageSize t = defaultPageSize st) (files st).

Definition registry_inv {F : Type} (w : World F) : Prop :=
  names_unique (g_state w) /\ sizes_uniform (g_state w) /\
  0 <= defaultPageSize (g_state w) /\
  forall rv, pRealVfs (g_state w) = Some rv ->
             0 < defaultPageSize (g_state w) /\
             pAppData (trackingVfs w) = Some rv.

(** A client that keeps to the types and to non-negative file offsets, in
    a run where [strdup] does not fail: [amount] is an [int]. *)
Definition well_behaved {F : Type} (c : call F) : bool :=
  match c with
  | call_init _ _ _ | call_shutdown | call_close _ _ => true
  | call_get_file a _ | call_get_dirty_pages a _ _ _ | call_reset_dirty a _
  | call_open a _ _ _ => strdup_ok a
  | call_mark_dirty _ _ offset amount => (0 <=? offset) && (amount <=? INT_MAX)
  | call_write _ _ _ _ iAmt iOfst => (0 <=? iOfst) && (iAmt <=? INT_MAX)
  | call_truncate _ _ _ size => 0 <=? size
  end.

(** A session on the in-memory backend.  Epoch 0 ends with the
    initialization.  In epoch 1 one file is opened twice, written and
    reset, a second file is opened and truncated, and a handle is closed;
    the shutdown frees both trackers.  In epoch 2 a query creates a tracker
    while the module is not initialized; the next initialization leaks it.
    In epoch 3 a tracker is created and the leaked one is marked through
    its old address. *)
Definition demo_session : list (call Z) :=
  [ call_init sqlite_memfs (Some "memfs"%string) 4096;
    call_open alloc_ok (Some "/db.sqlite"%string) blank_handle 6;
    call_write alloc_ok 1 (opened_handle memfs 0 (Some 0%nat)) [] 20 4090;
    call_open alloc_ok (Some "db.sqlite"%string) blank_handle 6;
    call_reset_dirty alloc_ok (Some "db.sqlite"%string);
    call_open alloc_ok (Some "other.db"%string) blank_handle 6;
    call_truncate alloc_ok 1 (opened_handle memfs 0 (Some 1%nat)) 8192;
    call_write alloc_ok 1 (opened_handle memfs 4110 (Some 0%nat)) [] 4096 40960;
    call_close 1 (opened_handle memfs 45056 (Some 0%nat));
    call_shutdown;
    call_get_dirty_pages alloc_ok (Some "late.db"%string) (Some 0) (Some None);
    call_init sqlite_memfs None 1024;
    call_get_file alloc_ok (Some "b.db"%string);
    call_mark_dirty alloc_ok (Some (2%nat, 0%nat)) 0 1 ].

(** The part of [demo_session] between initialization and shutdown, and
    the process it starts from. *)
Definition demo_tail : list (call Z) := take 8 (drop 1 demo_session).

Definition process_memfs : Process Z := mkProcess world_memfs [[]].

(** A SQLite library that knows "memfs" but refuses to register a VFS. *)
Definition sqlite_noreg : Sqlite Z :=
  mk_sqlite Z (sqlite3_vfs_find sqlite_memfs) SQLITE_NOMEM 12.

Definition is_init {F : Type} (c : call F) : bool :=
  match c with
  | call_init _ _ _ => true
  | _ => false
  end.

(** Every word of the bitmap is a [uint32_t] value. *)
Definition words_32bit (t : FileTracker) : Prop :=
  match dirtyBitmap t with
  | Some ws => Forall (fun w => 0 <= w < 2 ^ 32) ws
  | None => True
  end.

(** ** Bit-level lemmas *)

Lemma dirty_andb (t : FileTracker) (i : Z) :
  dirty t i = (0 <=? i) && (i <? totalPages t) && bitmap_bit (dirtyBitmap t) i.
Proof. reflexivity. Qed.


Lemma testbit_one_shifted (b c : Z) :
  0 <= b -> 0 <= c -> Z.testbit (Z.shiftl 1 b) c = (c =? b).
Proof.
  intros Hb Hc. rewrite Z.shiftl_spec by lia.
  destruct (Z.eqb_spec c b) as [->|Hne].
  - now rewrite Z.sub_diag.
  - destruct (Z.lt_ge_cases c b).
    + apply Z.testbit_neg_r. lia.
    + replace (c - b) with (Z.succ (c - b - 1)) by lia.
      change 1 with (2 * 0 + 1). rewrite Z.testbit_odd_succ by lia.
      apply Z.testbit_0_l.
Qed.

Lemma land_mask_nonzero (w b : Z) :
  0 <= b -> negb (Z.land w (Z.shiftl 1 b) =? 0) = Z.testbit w b.
Proof.
  intros Hb. destruct (Z.testbit w b) eqn:Hw.
  - apply negb_true_iff, Z.eqb_neq. intros H0.
    assert (Hbit : Z.testbit (Z.land w (Z.shiftl 1 b)) b = true).
    { rewrite Z.land_spec, Hw, testbit_one_shifted by lia.
      now rewrite Z.eqb_refl. }
    rewrite H0, Z.testbit_0_l in Hbit. discriminate.
  - apply negb_false_iff, Z.eqb_eq. apply Z.bits_inj'. intros c Hc.
    rewrite Z.land_spec, testbit_one_shifted, Z.testbit_0_l by lia.
    destruct (Z.eqb_spec c b) as [->|]; [now rewrite Hw | apply andb_false_r].
Qed.

Lemma lor_mask_testbit (w b c : Z) :
  0 <= b -> 0 <= c ->
  Z.testbit (Z.lor w (Z.shiftl 1 b)) c = Z.testbit w c || (c =? b).
Proof.
  intros Hb Hc. now rewrite Z.lor_spec, testbit_one_shifted.
Qed.

Lemma word_bit_split (i j : Z) :
  i / 32 = j / 32 -> i mod 32 = j mod 32 -> i = j.
Proof.
  intros Hq Hr. rewrite (Z.div_mod i 32), (Z.div_mod j 32) by lia. congruence.
Qed.

Lemma test_bit_in_bounds (ws : list Z) (i : Z) :
  0 <= i -> i / 32 < Z.of_nat (length ws) ->
  test_bit i (Some ws) = Ok (bit_at ws i).
Proof.
  intros Hi Hlen. unfold test_bit, bit_at.
  destruct (ws !! Z.to_nat (i / 32)) as [w|] eqn:Hw.
  - f_equal. apply land_mask_nonzero. apply Z.mod_pos_bound. lia.
  - apply lookup_ge_None in Hw.
    assert (0 <= i / 32) by (apply Z.div_pos; lia). lia.
Qed.

Lemma set_bit_in_bounds (ws : list Z) (i : Z) :
  0 <= i -> i / 32 < Z.of_nat (length ws) ->
  exists ws', set_bit i (Some ws) = Ok (Some ws') /\
    length ws' = length ws /\
    forall j, 0 <= j -> bit_at ws' j = bit_at ws j || (j =? i).
Proof.
  intros Hi Hlen. unfold set_bit.
  assert (Hq : 0 <= i / 32) by (apply Z.div_pos; lia).
  destruct (ws !! Z.to_nat (i / 32)) as [w|] eqn:Hw.
  2:{ apply lookup_ge_None in Hw. lia. }
  eexists. split; [reflexivity|]. split; [apply length_insert|].
  intros j Hj. unfold bit_at.
  assert (Hqj : 0 <= j / 32) by (apply Z.div_pos; lia).
  destruct (Z.eq_dec (j / 32) (i / 32)) as [Heq|Hne].
  - rewrite Heq, list_lookup_insert_eq, Hw by lia.
    rewrite lor_mask_testbit by (apply Z.mod_pos_bound; lia).
    f_equal. destruct (Z.eqb_spec j i) as [->|Hji].
    + apply Z.eqb_refl.
    + apply Z.eqb_neq. intros Hr. apply Hji. now apply word_bit_split.
  - rewrite list_lookup_insert_ne by lia.
    destruct (Z.eqb_spec j i) as [->|]; [congruence|].
    now rewrite orb_false_r.
Qed.

(** ** The marking loop *)

Lemma wrap32_small (z : Z) : 0 <= z < 2 ^ 32 -> wrap32 z = z.
Proof. intros H. unfold wrap32. now apply Z.mod_small. Qed.

Lemma for_u32_step {S : Type} (fuel : nat) (i : Z) (cond : Z -> bool)
    (body : Z -> S -> outcome S) (s : S) :
  for_u32 (Datatypes.S fuel) i cond body s
  = if cond i then
      s' <- body i s ;; for_u32 fuel (wrap32 (i + 1)) cond body s'
    else Ok s.
Proof. reflexivity. Qed.

Lemma bind_Ok {A B : Type} (x : A) (k : A -> outcome B) : bind (Ok x) k = k x.
Proof. reflexivity. Qed.

(** The fuel the callers pass is exact.  A loop whose condition is
    [i < bound] for a bound below [2^32] ends within [bound - i] iterations;
    a loop whose condition holds for every [uint32_t] value never ends, with
    any fuel. *)
Lemma for_u32_fuel_enough {S : Type} (cond : Z -> bool)
    (body : Z -> S -> outcome S) (bound : Z) :
  (forall j, cond j = (j <? bound)) -> bound < 2 ^ 32 ->
  (forall j s, body j s <> Diverges) ->
  forall (n : nat) (i : Z) (s : S),
    0 <= i -> bound <= i + Z.of_nat n ->
    for_u32 (Datatypes.S n) i cond body s <> Diverges.
Proof.
  intros Hcond Hbound Hbody. induction n as [|n IH]; intros i s Hi Hn;
    rewrite for_u32_step, Hcond.
  - destruct (Z.ltb_spec i bound); [lia | discriminate].
  - destruct (Z.ltb_spec i bound); [|discriminate].
    destruct (body i s) as [s'| |] eqn:Hb; [|discriminate|now apply Hbody in Hb].
    rewrite bind_Ok, wrap32_small by lia. apply IH; lia.
Qed.

Lemma for_u32_never_returns {S : Type} (cond : Z -> bool)
    (body : Z -> S -> outcome S) :
  (forall j, 0 <= j < 2 ^ 32 -> cond j = true) ->
  forall (fuel : nat) (i : Z) (s s' : S),
    0 <= i < 2 ^ 32 -> for_u32 fuel i cond body s <> Ok s'.
Proof.
  intros Hcond. induction fuel as [|fuel IH]; intros i s s' Hi; [discriminate|].
  rewrite for_u32_step, Hcond by assumption.
  destruct (body i s) as [s1| |]; [|discriminate|discriminate].
  rewrite bind_Ok. apply IH. unfold wrap32. apply Z.mod_pos_bound. lia.
Qed.

Lemma set_bit_not_Diverges (i : Z) (bm : option (list Z)) :
  set_bit i bm <> Diverges.
Proof.
  unfold set_bit. destruct bm as [ws|]; [|discriminate].
  destruct (ws !! Z.to_nat (i / 32)); discriminate.
Qed.

Lemma test_bit_not_Diverges (i : Z) (bm : option (list Z)) :
  test_bit i bm <> Diverges.
Proof.
  unfold test_bit. destruct bm as [ws|]; [|discriminate].
  destruct (ws !! Z.to_nat (i / 32)); discriminate.
Qed.

(** The marking loop, with the fuel [vfs_tracking_mark_dirty] gives it, is
    reported as diverging only for [endPage = UINT32_MAX], where
    [i <= endPage] holds for every [i] and no amount of fuel lets it end. *)
Lemma mark_loop_Diverges (startPage endPage : Z) (bm : option (list Z)) :
  0 <= startPage < 2 ^ 32 -> 0 <= endPage < 2 ^ 32 ->
  for_u32 (S (Z.to_nat (endPage - startPage + 1))) startPage
    (fun i => i <=? endPage) set_bit bm = Diverges ->
  endPage = 2 ^ 32 - 1 /\
  forall fuel bm',
    for_u32 fuel startPage (fun i => i <=? endPage) set_bit bm <> Ok bm'.
Proof.
  intros Hs He Hdiv.
  destruct (Z.eq_dec endPage (2 ^ 32 - 1)) as [->|Hne].
  - split; [reflexivity|]. intros fuel bm'.
    apply for_u32_never_returns; [|assumption].
    intros j Hj. apply Z.leb_le. lia.
  - exfalso. revert Hdiv.
    apply (for_u32_fuel_enough _ _ (endPage + 1));
      [|lia|intros j s; apply set_bit_not_Diverges|lia|lia].
    intros j. destruct (Z.leb_spec j endPage), (Z.ltb_spec j (endPage + 1));
      first [lia | reflexivity].
Qed.

(** The loops over [[0, totalPages)] diverge only for a [totalPages] that
    is not a [uint32_t]. *)
Lemma count_dirty_not_Diverges (t : FileTracker) :
  totalPages t < 2 ^ 32 -> count_dirty t <> Diverges.
Proof.
  intros Htp. unfold count_dirty.
  apply (for_u32_fuel_enough _ _ (totalPages t)); [reflexivity|lia| |lia|lia].
  intros j s. unfold count_step.
  pose proof (test_bit_not_Diverges j (dirtyBitmap t)).
  destruct (test_bit j (dirtyBitmap t)); [discriminate|discriminate|congruence].
Qed.

Lemma fill_pages_not_Diverges (t : FileTracker) (pages : list Z) :
  totalPages t < 2 ^ 32 -> fill_pages t pages <> Diverges.
Proof.
  intros Htp. unfold fill_pages.
  apply (for_u32_fuel_enough _ _ (totalPages t)); [reflexivity|lia| |lia|lia].
  intros j s. unfold fill_step.
  pose proof (test_bit_not_Diverges j (dirtyBitmap t)).
  destruct (test_bit j (dirtyBitmap t)) as [[|]| |];
    [|discriminate|discriminate|congruence].
  rewrite bind_Ok. destruct (_ <? _)%nat; discriminate.
Qed.

Lemma mark_loop_spec (endPage : Z) (n : nat) :
  forall (startPage : Z) (ws : list Z),
    0 <= startPage ->
    endPage + 1 = startPage + Z.of_nat n ->
    endPage < 2 ^ 32 - 1 ->
    (startPage <= endPage -> endPage / 32 < Z.of_nat (length ws)) ->
    exists ws',
      for_u32 (S n) startPage (fun i => i <=? endPage) set_bit (Some ws)
        = Ok (Some ws') /\
      length ws' = length ws /\
      forall j, 0 <= j ->
        bit_at ws' j = bit_at ws j || ((startPage <=? j) && (j <=? endPage)).
Proof.
  induction n as [|n IH]; intros startPage ws Hs Hn Hend Hlen.
  - exists ws. rewrite for_u32_step.
    destruct (Z.leb_spec startPage endPage); [lia|].
    split; [reflexivity|]. split; [reflexivity|].
    intros j Hj. destruct (Z.leb_spec startPage j), (Z.leb_spec j endPage);
      try lia; now rewrite orb_false_r.
  - rewrite for_u32_step.
    destruct (Z.leb_spec startPage endPage) as [Hle|]; [|lia].
    assert (Hin : startPage / 32 < Z.of_nat (length ws)).
    { specialize (Hlen Hle).
      assert (startPage / 32 <= endPage / 32) by (apply Z.div_le_mono; lia).
      lia. }
    destruct (set_bit_in_bounds ws startPage Hs Hin) as (ws1 & Hset & Hl1 & Hb1).
    rewrite Hset, bind_Ok, wrap32_small by lia.
    destruct (IH (startPage + 1) ws1) as (ws' & Hrun & Hl' & Hb'); try lia.
    exists ws'. split; [exact Hrun|]. split; [congruence|].
    intros j Hj. rewrite Hb', Hb1 by lia.
    destruct (Z.eqb_spec j startPage), (Z.leb_spec startPage j),
      (Z.leb_spec (startPage + 1) j), (Z.leb_spec j endPage);
      try lia; cbn; rewrite ?orb_false_r, ?orb_true_r; reflexivity.
Qed.

(** ** Growing the bitmap *)

Lemma bit_at_app_zeros (ws : list Z) (k : nat) (i : Z) :
  bit_at (ws ++ replicate k 0) i = bit_at ws i.
Proof.
  unfold bit_at.
  destruct (ws !! Z.to_nat (i / 32)) as [w|] eqn:Hw.
  - now rewrite (lookup_app_l_Some _ _ _ _ Hw).
  - apply lookup_ge_None in Hw. rewrite lookup_app_r by lia.
    destruct (replicate k 0 !! _) as [z|] eqn:Hz; [|reflexivity].
    apply lookup_replicate in Hz as [-> _]. apply Z.testbit_0_l.
Qed.

Lemma grow_and_zero (a : Allocator) (old : option (list Z)) (bs n : Z) :
  realloc_ok a = true ->
  Z.of_nat (length (default [] old)) = bs -> bs < n ->
  exists block,
    realloc a old n = Some block /\
    memset_zero block bs (n - bs)
      = Ok (default [] old ++ replicate (Z.to_nat (n - bs)) 0).
Proof.
  intros Hok Hlen Hlt. unfold realloc. rewrite Hok.
  eexists. split; [reflexivity|].
  set (ws := default [] old) in *.
  assert (Hfresh : length (fresh_words a (Z.to_nat n)) = Z.to_nat n).
  { unfold fresh_words. now rewrite length_map, length_seq. }
  assert (Htake : length (take (Z.to_nat n) (ws ++ fresh_words a (Z.to_nat n)))
                  = Z.to_nat n).
  { rewrite length_take, length_app. lia. }
  unfold memset_zero. rewrite Htake.
  replace (bs + (n - bs)) with n by lia.
  destruct (Z.leb_spec 0 bs), (Z.leb_spec 0 (n - bs)),
    (Z.leb_spec n (Z.of_nat (Z.to_nat n))); try lia.
  cbn [andb]. f_equal.
  rewrite take_take, Nat.min_l by lia.
  rewrite take_app_le by lia. rewrite take_ge by lia.
  rewrite drop_ge by lia. now rewrite app_nil_r.
Qed.

Lemma wf_bit_beyond (t : FileTracker) (i : Z) :
  tracker_wf t -> totalPages t <= i -> bitmap_bit (dirtyBitmap t) i = false.
Proof.
  intros (_ & _ & Hbm) Hi. unfold bitmap_bit.
  destruct (dirtyBitmap t); [now apply Hbm | reflexivity].
Qed.

Lemma ensure_capacity_spec (a : Allocator) (t : FileTracker) (req : Z) :
  tracker_wf t -> 0 < req -> req + 31 < 2 ^ 32 -> realloc_ok a = true ->
  exists t1 ws1,
    ensure_capacity a t req = Ok (Some t1) /\
    dirtyBitmap t1 = Some ws1 /\
    Z.of_nat (length ws1) = bitmapSize t1 /\
    totalPages t1 = Z.max (totalPages t) req /\
    totalPages t1 <= 32 * bitmapSize t1 /\
    (forall i, bit_at ws1 i = bitmap_bit (dirtyBitmap t) i) /\
    filename t1 = filename t /\ pageSize t1 = pageSize t /\ isOpen t1 = isOpen t.
Proof.
  intros Hwf Hreq Hfit Hok. pose proof Hwf as (Htp & Hcap & Hbm).
  unfold ensure_capacity. rewrite (wrap32_small (req + 31)) by lia.
  assert (Hnew : req <= 32 * ((req + 31) / 32))
    by (Z.to_euclidean_division_equations; lia).
  destruct (Z.ltb_spec (totalPages t) req) as [Hgrow|Hfits].
  - destruct (Z.ltb_spec (bitmapSize t) ((req + 31) / 32)) as [Hbig|Hsmall].
    + assert (Hlen : Z.of_nat (length (default [] (dirtyBitmap t))) = bitmapSize t).
      { destruct (dirtyBitmap t); cbn; [tauto | lia]. }
      destruct (grow_and_zero a (dirtyBitmap t) _ _ Hok Hlen Hbig)
        as (block & Hre & Hzero).
      rewrite Hre, Hzero, bind_Ok.
      eexists _, _. split; [reflexivity|]. cbn.
      split; [reflexivity|]. split.
      { rewrite length_app, length_replicate. lia. }
      split; [lia|]. split; [lia|]. split; [|auto].
      intros i. rewrite bit_at_app_zeros. unfold bitmap_bit.
      destruct (dirtyBitmap t); cbn; [reflexivity|].
      unfold bit_at. now rewrite lookup_nil.
    + destruct (dirtyBitmap t) as [ws|] eqn:Hws; [|lia].
      eexists _, ws. split; [reflexivity|]. cbn. rewrite ?Hws.
      repeat split; try tauto; try lia.
  - destruct (dirtyBitmap t) as [ws|] eqn:Hws; [|lia].
    exists t, ws. rewrite ?Hws. repeat split; try tauto; try lia.
Qed.

Lemma startPage_of_in_range (t : FileTracker) (offset amount : Z) :
  mark_in_range t offset amount ->
  startPage_of t offset = Ok (offset / pageSize t).
Proof.
  intros (Hps & Ho & Ha & Hmax & Hfit). unfold startPage_of, div64.
  destruct (Z.eqb_spec (pageSize t) 0); [lia|]. rewrite bind_Ok.
  rewrite Z.quot_div_nonneg by lia. f_equal. apply wrap32_small.
  assert (offset / pageSize t <= (offset + amount - 1) / pageSize t)
    by (apply Z.div_le_mono; lia).
  assert (0 <= offset / pageSize t) by (apply Z.div_pos; lia). lia.
Qed.

Lemma endPage_of_in_range (t : FileTracker) (offset amount : Z) :
  mark_in_range t offset amount ->
  endPage_of t offset amount = Ok ((offset + amount - 1) / pageSize t).
Proof.
  intros (Hps & Ho & Ha & Hmax & Hfit).
  unfold endPage_of, add64, sub64, div64, in_int64, INT64_MIN, INT64_MAX in *.
  destruct (Z.leb_spec (- 2 ^ 63) (offset + amount)),
    (Z.leb_spec (offset + amount) (2 ^ 63 - 1)); try lia.
  cbn [andb]. rewrite bind_Ok.
  destruct (Z.leb_spec (- 2 ^ 63) (offset + amount - 1)),
    (Z.leb_spec (offset + amount - 1) (2 ^ 63 - 1)); try lia.
  cbn [andb]. rewrite bind_Ok.
  destruct (Z.eqb_spec (pageSize t) 0); [lia|]. rewrite bind_Ok.
  rewrite Z.quot_div_nonneg by lia. f_equal. apply wrap32_small.
  assert (0 <= (offset + amount - 1) / pageSize t) by (apply Z.div_pos; lia).
  lia.
Qed.

Lemma mark_dirty_tracker_spec (a : Allocator) (t : FileTracker) (offset amount : Z) :
  tracker_wf t -> mark_in_range t offset amount -> realloc_ok a = true ->
  exists t',
    mark_dirty_tracker a t offset amount = Ok t' /\
    tracker_wf t' /\
    filename t' = filename t /\ pageSize t' = pageSize t /\
    isOpen t' = isOpen t /\
    totalPages t' = Z.max (totalPages t) ((offset + amount - 1) / pageSize t + 1) /\
    forall i, dirty t' i
      = dirty t i || ((offset / pageSize t <=? i)
                      && (i <=? (offset + amount - 1) / pageSize t)).
Proof.
  intros Hwf Hrange Hok. pose proof Hrange as (Hps & Ho & Ha & Hmax & Hfit).
  unfold mark_dirty_tracker.
  rewrite (startPage_of_in_range _ _ _ Hrange), bind_Ok.
  rewrite (endPage_of_in_range _ _ _ Hrange), bind_Ok.
  set (lo := offset / pageSize t). set (hi := (offset + amount - 1) / pageSize t).
  assert (Hlo : 0 <= lo) by (apply Z.div_pos; lia).
  assert (Hlh : lo <= hi) by (apply Z.div_le_mono; lia).
  fold hi in Hfit. rewrite (wrap32_small (hi + 1)) by lia.
  destruct (ensure_capacity_spec a t (hi + 1) Hwf) as
    (t1 & ws1 & Hcap & Hbm1 & Hlen1 & Htp1 & Hsz1 & Hbits1 & Hf1 & Hp1 & Ho1);
    [lia | lia | assumption |].
  rewrite Hcap, bind_Ok, Hbm1.
  destruct (mark_loop_spec hi (Z.to_nat (hi - lo + 1)) lo ws1)
    as (ws2 & Hloop & Hlen2 & Hbits2); try lia.
  { intros _. Z.to_euclidean_division_equations; lia. }
  rewrite Hloop, bind_Ok. eexists. split; [reflexivity|]. cbn.
  pose proof Hwf as (Htp & _ & _).
  split.
  { unfold tracker_wf. cbn. split; [lia|]. split; [lia|]. split; [lia|].
    intros i Hi. rewrite Hbits2, Hbits1 by lia.
    rewrite (wf_bit_beyond t i Hwf) by lia.
    destruct (Z.leb_spec lo i), (Z.leb_spec i hi); try lia; reflexivity. }
  do 4 (split; [assumption|]).
  intros i. rewrite ?dirty_andb. cbn. rewrite Htp1.
  destruct (Z.leb_spec 0 i) as [Hi|]; [|cbn;
    destruct (Z.leb_spec lo i); [lia | reflexivity]].
  rewrite Hbits2, Hbits1 by lia. cbn [andb].
  destruct (Z.ltb_spec i (Z.max (totalPages t) (hi + 1))),
    (Z.ltb_spec i (totalPages t)), (Z.leb_spec lo i), (Z.leb_spec i hi);
    try lia; cbn; rewrite ?orb_false_r, ?orb_true_r, ?andb_false_r; try reflexivity.
  now rewrite (wf_bit_beyond t i Hwf) by lia.
Qed.

(** ** The two loops of vfs_tracking_get_dirty_pages *)

Lemma seqZ_step (i : Z) (n : nat) :
  seqZ i (Z.of_nat (S n)) = i :: seqZ (i + 1) (Z.of_nat n).
Proof.
  rewrite seqZ_cons by lia. f_equal. f_equal; lia.
Qed.

Lemma filter_length_le {A : Type} (f : A -> bool) (l : list A) :
  (length (List.filter f l) <= length l)%nat.
Proof.
  induction l as [|x l IH]; cbn; [lia|]. destruct (f x); cbn; lia.
Qed.

Lemma word_index_in_bounds (i tp len : Z) :
  0 <= i -> i < tp -> tp <= 32 * len -> i / 32 < len.
Proof. intros. apply Z.div_lt_upper_bound; lia. Qed.

Lemma count_loop_spec (ws : list Z) (tp : Z) (n : nat) :
  forall (i c : Z),
    0 <= i -> i + Z.of_nat n = tp -> tp <= 32 * Z.of_nat (length ws) ->
    tp < 2 ^ 32 -> 0 <= c -> c + Z.of_nat n < 2 ^ 32 ->
    for_u32 (S n) i (fun i => i <? tp) (count_step (Some ws)) c
    = Ok (c + Z.of_nat (length (List.filter (bit_at ws) (seqZ i (Z.of_nat n))))).
Proof.
  induction n as [|n IH]; intros i c Hi Hn Hcap Htp Hc Hfit;
    rewrite for_u32_step.
  - destruct (Z.ltb_spec i tp); [lia|]. rewrite seqZ_nil by lia.
    cbn. f_equal. lia.
  - destruct (Z.ltb_spec i tp); [|lia].
    unfold count_step at 1.
    rewrite test_bit_in_bounds
      by (try (apply (word_index_in_bounds i tp)); lia).
    rewrite !bind_Ok, seqZ_step. cbn [List.filter].
    assert (Hw : wrap32 (i + 1) = i + 1) by (apply wrap32_small; lia).
    pose proof (filter_length_le (bit_at ws) (seqZ (i + 1) (Z.of_nat n))) as Hle.
    rewrite length_seqZ in Hle.
    destruct (bit_at ws i).
    + rewrite Hw, (wrap32_small (c + 1)) by lia.
      rewrite IH by lia. f_equal. cbn [length]. lia.
    + rewrite Hw, IH by lia. reflexivity.
Qed.

Lemma fill_loop_spec (ws : list Z) (tp : Z) (n : nat) :
  forall (i : Z) (done rest : list Z),
    0 <= i -> i + Z.of_nat n = tp -> tp <= 32 * Z.of_nat (length ws) ->
    tp < 2 ^ 32 -> Z.of_nat (length done) <= i ->
    let found := List.filter (bit_at ws) (seqZ i (Z.of_nat n)) in
    (length found <= length rest)%nat ->
    for_u32 (S n) i (fun i => i <? tp) (fill_step (Some ws))
      (Z.of_nat (length done), done ++ rest)
    = Ok (Z.of_nat (length done + length found),
          done ++ found ++ drop (length found) rest).
Proof.
  induction n as [|n IH]; intros i done rest Hi Hn Hcap Htp Hdone found Hlen;
    rewrite for_u32_step.
  - destruct (Z.ltb_spec i tp); [lia|]. subst found.
    rewrite seqZ_nil by lia. cbn. now rewrite Nat.add_0_r.
  - destruct (Z.ltb_spec i tp); [|lia].
    unfold fill_step at 1.
    rewrite test_bit_in_bounds
      by (try (apply (word_index_in_bounds i tp)); lia).
    rewrite bind_Ok. subst found. revert Hlen. rewrite seqZ_step.
    cbn [List.filter fst snd].
    assert (Hw : wrap32 (i + 1) = i + 1) by (apply wrap32_small; lia).
    destruct (bit_at ws i); cbn [length]; intros Hlen.
    + rewrite Nat2Z.id, length_app.
      destruct rest as [|r rest]; [cbn in Hlen; lia|].
      destruct (Nat.ltb_spec (length done) (length done + length (r :: rest)));
        [|cbn in *; lia].
      rewrite bind_Ok, Hw.
      rewrite (wrap32_small (Z.of_nat (length done) + 1)) by lia.
      rewrite insert_app_r_alt, Nat.sub_diag by lia.
      change (<[0%nat:=i]> (r :: rest)) with (i :: rest).
      replace (done ++ i :: rest) with ((done ++ [i]) ++ rest)
        by now rewrite <- app_assoc.
      replace (Z.of_nat (length done) + 1) with (Z.of_nat (length (done ++ [i])))
        by (rewrite length_app; cbn; lia).
      rewrite IH; try lia.
      * rewrite length_app. cbn [length drop]. f_equal. f_equal; [f_equal; lia|].
        now rewrite <- app_assoc.
      * rewrite length_app. cbn. lia.
      * cbn in Hlen. lia.
    + rewrite bind_Ok, Hw. apply IH; lia.
Qed.

Lemma enumerateDirty_bits (t : FileTracker) (ws : list Z) :
  dirtyBitmap t = Some ws ->
  enumerateDirty t = List.filter (bit_at ws) (seqZ 0 (totalPages t)).
Proof.
  intros Hws. unfold enumerateDirty. apply filter_ext_in. intros i Hi.
  apply list_elem_of_In, elem_of_seqZ in Hi. rewrite ?dirty_andb. rewrite Hws. cbn.
  destruct (Z.leb_spec 0 i), (Z.ltb_spec i (totalPages t)); try lia.
  reflexivity.
Qed.

Lemma count_dirty_spec (t : FileTracker) (ws : list Z) :
  tracker_wf t -> dirtyBitmap t = Some ws ->
  count_dirty t = Ok (Z.of_nat (length (enumerateDirty t))).
Proof.
  intros (Htp & Hcap & Hbm) Hws. rewrite Hws in Hbm. destruct Hbm as [Hlen _].
  unfold count_dirty. rewrite Hws, (enumerateDirty_bits t ws Hws).
  rewrite (count_loop_spec ws (totalPages t)); try lia.
  now rewrite Z2Nat.id by lia.
Qed.

Lemma fill_pages_spec (t : FileTracker) (ws pages : list Z) :
  tracker_wf t -> dirtyBitmap t = Some ws ->
  length pages = length (enumerateDirty t) ->
  fill_pages t pages
  = Ok (Z.of_nat (length (enumerateDirty t)), enumerateDirty t).
Proof.
  intros (Htp & Hcap & Hbm) Hws Hpages. rewrite Hws in Hbm.
  destruct Hbm as [Hlen _]. unfold fill_pages.
  rewrite Hws, (enumerateDirty_bits t ws Hws) in *.
  pose proof (fill_loop_spec ws (totalPages t) (Z.to_nat (totalPages t))
                0 [] pages) as Hloop.
  cbn [length app] in Hloop. change (Z.of_nat 0) with 0 in Hloop.
  rewrite Z2Nat.id in Hloop by lia.
  rewrite Hloop; try lia. cbn [Nat.add]. f_equal. f_equal.
  rewrite drop_ge by lia. apply app_nil_r.
Qed.

Lemma enumerateDirty_sorted (t : FileTracker) :
  StronglySorted Z.lt (enumerateDirty t).
Proof.
  unfold enumerateDirty. generalize 0 as m.
  destruct (Z.le_gt_cases (totalPages t) 0) as [Hneg|Hpos].
  { intros m. rewrite seqZ_nil by lia. constructor. }
  rewrite <- (Z2Nat.id (totalPages t)) by lia.
  induction (Z.to_nat (totalPages t)) as [|n IH]; intros m.
  - rewrite seqZ_nil by lia. constructor.
  - rewrite seqZ_step. cbn [List.filter].
    destruct (dirty t m); [|apply IH].
    constructor; [apply IH|].
    apply Forall_forall. intros x Hx.
    apply list_elem_of_In, filter_In in Hx as [Hx _].
    apply list_elem_of_In, elem_of_seqZ in Hx. lia.
Qed.

Lemma enumerateDirty_In (t : FileTracker) (i : Z) :
  In i (enumerateDirty t) <-> dirty t i = true.
Proof.
  unfold enumerateDirty. rewrite filter_In, <- list_elem_of_In, elem_of_seqZ.
  split; [tauto|]. intros Hd. split; [|assumption].
  rewrite dirty_andb in Hd. apply andb_true_iff in Hd as [Hd _].
  apply andb_true_iff in Hd as [H0 H1]. lia.
Qed.

(** ** The shared store *)

Lemma rev_lookup_head (t : FileTracker) (rest : list FileTracker) :
  rev (t :: rest) !! length rest = Some t.
Proof.
  cbn [rev]. rewrite lookup_app_r by (rewrite length_rev; lia).
  now rewrite length_rev, Nat.sub_diag.
Qed.

Lemma rev_lookup_tail (t : FileTracker) (rest : list FileTracker) (p : nat) :
  (p < length rest)%nat -> rev (t :: rest) !! p = rev rest !! p.
Proof.
  intros Hp. cbn [rev]. apply lookup_app_l. now rewrite length_rev.
Qed.

Lemma search_found (l : list FileTracker) (name : string) (p : tracker_ptr) :
  search l name = Ok (Some p) ->
  exists t, rev l !! p = Some t /\ List.find (name_matches name) l = Some t /\
            filename t = Some name /\ (p < length l)%nat.
Proof.
  induction l as [|t rest IH]; cbn [search List.find]; [discriminate|].
  unfold name_matches at 1. destruct (filename t) as [f|] eqn:Hf; [|discriminate].
  destruct (String.eqb_spec f name) as [->|Hne]; intros Hs.
  - injection Hs as <-. exists t. rewrite rev_lookup_head. cbn [length].
    repeat split; auto.
  - destruct (IH Hs) as (t' & Hl & Hfind & Hname & Hp). exists t'.
    rewrite rev_lookup_tail by assumption. cbn [length]. repeat split; auto.
Qed.

Lemma search_total (l : list FileTracker) (name : string) :
  Forall (fun t => filename t <> None /\ tracker_wf t) l ->
  (exists p, search l name = Ok (Some p)) \/
  (search l name = Ok None /\ List.find (name_matches name) l = None).
Proof.
  induction 1 as [|t rest [Hf _] _ IH]; cbn [search List.find]; [now right|].
  unfold name_matches at 1. destruct (filename t) as [f|]; [|congruence].
  destruct (String.eqb f name); [left; eauto | exact IH].
Qed.

Lemma deref_store_eq {F : Type} (st : VfsTrackingState F) (p : tracker_ptr)
    (t : FileTracker) :
  (p < length (files st))%nat -> deref (store st p t) p = Some t.
Proof.
  intros Hp. unfold deref, store. cbn. rewrite rev_involutive.
  apply list_lookup_insert_eq. now rewrite length_rev.
Qed.

Lemma deref_store_ne {F : Type} (st : VfsTrackingState F) (p q : tracker_ptr)
    (t : FileTracker) :
  p <> q -> deref (store st p t) q = deref st q.
Proof.
  intros Hne. unfold deref, store. cbn. rewrite rev_involutive.
  now apply list_lookup_insert_ne.
Qed.

Lemma store_length {F : Type} (st : VfsTrackingState F) (p : tracker_ptr)
    (t : FileTracker) :
  length (files (store st p t)) = length (files st).
Proof.
  unfold store. cbn. now rewrite length_rev, length_insert, length_rev.
Qed.

Lemma deref_valid {F : Type} (st : VfsTrackingState F) (p : tracker_ptr)
    (t : FileTracker) :
  deref st p = Some t -> (p < length (files st))%nat.
Proof.
  unfold deref. intros H. apply lookup_lt_Some in H. now rewrite length_rev in H.
Qed.

Lemma state_wf_deref {F : Type} (st : VfsTrackingState F) (p : tracker_ptr)
    (t : FileTracker) :
  state_wf st -> deref st p = Some t -> filename t <> None /\ tracker_wf t.
Proof.
  unfold state_wf, deref. intros Hwf Hp.
  apply list_elem_of_lookup_2, list_elem_of_In, in_rev in Hp.
  rewrite Forall_forall in Hwf. apply Hwf. now apply list_elem_of_In.
Qed.

Lemma state_wf_store {F : Type} (st : VfsTrackingState F) (p : tracker_ptr)
    (t : FileTracker) :
  state_wf st -> filename t <> None -> tracker_wf t -> state_wf (store st p t).
Proof.
  unfold state_wf, store. cbn. intros Hwf Hf Ht.
  apply Forall_rev, Forall_insert; [|auto]. now apply Forall_rev.
Qed.

(** ** vfs_tracking_get_file *)

Lemma get_file_spec {F : Type} (a : Allocator) (st : VfsTrackingState F)
    (fn : string) :
  state_wf st ->
  match lookup_tracker st fn with
  | Some t =>
      exists p, vfs_tracking_get_file a st (Some fn) = Ok (st, Some p) /\
                deref st p = Some t /\ filename t = Some (normalize fn)
  | None =>
      vfs_tracking_get_file a st (Some fn)
      = if calloc_ok a
        then Ok (push_fresh a st (normalize fn), Some (length (files st)))
        else Ok (st, None)
  end.
Proof.
  intros Hwf. unfold lookup_tracker, vfs_tracking_get_file.
  destruct (search_total (files st) (normalize fn) Hwf) as [[p Hp]|[Hs Hnone]].
  - destruct (search_found _ _ _ Hp) as (t & Hl & Hfind & Hname & _).
    rewrite Hfind, Hp, bind_Ok. eauto.
  - rewrite Hnone, Hs, bind_Ok. reflexivity.
Qed.

Lemma deref_push_old {F : Type} (a : Allocator) (st : VfsTrackingState F)
    (name : string) (q : tracker_ptr) (t : FileTracker) :
  deref st q = Some t -> deref (push_fresh a st name) q = Some t.
Proof.
  intros Hq. pose proof (deref_valid _ _ _ Hq) as Hlt.
  unfold deref, push_fresh in *. cbn [files]. now rewrite rev_lookup_tail.
Qed.

Lemma deref_push_new {F : Type} (a : Allocator) (st : VfsTrackingState F)
    (name : string) :
  deref (push_fresh a st name) (length (files st))
  = Some (mkFileTracker (if strdup_ok a then Some name else None)
            None 0 0 (defaultPageSize st) 0).
Proof. unfold deref, push_fresh. cbn [files]. apply rev_lookup_head. Qed.

Lemma enumerateDirty_no_bitmap (t : FileTracker) :
  dirtyBitmap t = None -> enumerateDirty t = [].
Proof.
  intros Hnone. unfold enumerateDirty.
  induction (seqZ 0 (totalPages t)) as [|i l IH]; [reflexivity|].
  cbn [List.filter]. rewrite dirty_andb. rewrite Hnone. cbn.
  now rewrite andb_false_r.
Qed.

Lemma get_dirty_pages_run {F : Type} (a : Allocator) (st : VfsTrackingState F)
    (fn : string) (count0 : Z) (pages0 : option (list Z)) :
  state_wf st ->
  exists st1,
    vfs_tracking_get_dirty_pages a st (Some fn) (Some count0) (Some pages0)
    = Ok (st1, dirty_pages_answer a (dirty_pages_of st fn) count0 pages0) /\
    (match lookup_tracker st fn with
     | Some _ => st1 = st
     | None => st1 = if calloc_ok a then push_fresh a st (normalize fn) else st
     end).
Proof.
  intros Hwf. pose proof (get_file_spec a st fn Hwf) as Hget.
  unfold vfs_tracking_get_dirty_pages, dirty_pages_of.
  destruct (lookup_tracker st fn) as [t|].
  - destruct Hget as (p & Hget & Hp & _). rewrite Hget, bind_Ok. cbn [fst snd].
    rewrite Hp. exists st. split; [|reflexivity].
    destruct (state_wf_deref _ _ _ Hwf Hp) as [_ Ht].
    destruct (dirtyBitmap t) as [ws|] eqn:Hws.
    2:{ now rewrite enumerateDirty_no_bitmap. }
    rewrite (count_dirty_spec t ws Ht Hws), bind_Ok.
    destruct (enumerateDirty t) as [|x l] eqn:Hpages; [reflexivity|].
    destruct (Z.eqb_spec (Z.of_nat (length (x :: l))) 0); [cbn in *; lia|].
    unfold dirty_pages_answer, malloc. destruct (malloc_ok a); [|reflexivity].
    rewrite (fill_pages_spec t ws), bind_Ok, Hpages; auto.
    unfold fresh_words. now rewrite length_map, length_seq, Hpages, Nat2Z.id.
  - rewrite Hget. destruct (calloc_ok a); rewrite bind_Ok; cbn [fst snd].
    + rewrite deref_push_new. cbn. eauto.
    + eauto.
Qed.

(** ** Marking, from the result of a returning call *)

Lemma wrap32_range (z : Z) : 0 <= wrap32 z < 2 ^ 32.
Proof. unfold wrap32. apply Z.mod_pos_bound. lia. Qed.

Lemma set_bit_Ok (i : Z) (bm bm' : option (list Z)) :
  0 <= i -> set_bit i bm = Ok bm' ->
  forall j, 0 <= j -> bitmap_bit bm' j = bitmap_bit bm j || (j =? i).
Proof.
  intros Hi Hset. destruct bm as [ws|]; [|discriminate].
  assert (Hin : i / 32 < Z.of_nat (length ws)).
  { unfold set_bit in Hset.
    destruct (ws !! Z.to_nat (i / 32)) eqn:Hw; [|discriminate].
    apply lookup_lt_Some in Hw.
    assert (0 <= i / 32) by (apply Z.div_pos; lia). lia. }
  destruct (set_bit_in_bounds ws i Hi Hin) as (ws' & Hset' & _ & Hbits).
  rewrite Hset' in Hset. injection Hset as <-. exact Hbits.
Qed.

Lemma mark_loop_Ok (endPage : Z) (n : nat) :
  forall (startPage : Z) (bm bm' : option (list Z)),
    0 <= startPage ->
    endPage + 1 = startPage + Z.of_nat n ->
    endPage < 2 ^ 32 - 1 ->
    for_u32 (S n) startPage (fun i => i <=? endPage) set_bit bm = Ok bm' ->
    forall j, 0 <= j ->
      bitmap_bit bm' j
      = bitmap_bit bm j || ((startPage <=? j) && (j <=? endPage)).
Proof.
  induction n as [|n IH]; intros startPage bm bm' Hs Hn Hend;
    rewrite for_u32_step.
  - destruct (Z.leb_spec startPage endPage); [lia|].
    intros [= <-] j Hj.
    destruct (Z.leb_spec startPage j), (Z.leb_spec j endPage);
      try lia; now rewrite orb_false_r.
  - destruct (Z.leb_spec startPage endPage) as [Hle|]; [|lia].
    destruct (set_bit startPage bm) as [bm1| |] eqn:Hset; try discriminate.
    rewrite bind_Ok, wrap32_small by lia. intros Hrun j Hj.
    rewrite (IH (startPage + 1) bm1 bm') by (assumption || lia).
    rewrite (set_bit_Ok _ _ _ Hs Hset j Hj).
    destruct (Z.eqb_spec j startPage), (Z.leb_spec startPage j),
      (Z.leb_spec (startPage + 1) j), (Z.leb_spec j endPage);
      try lia; cbn; rewrite ?orb_false_r, ?orb_true_r; reflexivity.
Qed.

Lemma ensure_capacity_Ok (a : Allocator) (t t1 : FileTracker) (req : Z) :
  tracker_wf t -> ensure_capacity a t req = Ok (Some t1) ->
  (forall i, bitmap_bit (dirtyBitmap t1) i = bitmap_bit (dirtyBitmap t) i) /\
  totalPages t1 = Z.max (totalPages t) req /\
  filename t1 = filename t /\ pageSize t1 = pageSize t /\ isOpen t1 = isOpen t.
Proof.
  intros (Htp & Hcap & Hbm). unfold ensure_capacity.
  destruct (Z.ltb_spec (totalPages t) req) as [Hgrow|Hfits].
  - destruct (Z.ltb_spec (bitmapSize t) (wrap32 (req + 31) / 32)) as [Hbig|Hsmall].
    + destruct (realloc_ok a) eqn:Hok.
      2:{ unfold realloc. rewrite Hok. discriminate. }
      assert (Hlen : Z.of_nat (length (default [] (dirtyBitmap t))) = bitmapSize t).
      { destruct (dirtyBitmap t); cbn; [tauto | lia]. }
      destruct (grow_and_zero a (dirtyBitmap t) _ _ Hok Hlen Hbig)
        as (block & Hre & Hzero).
      rewrite Hre, Hzero, bind_Ok. intros [= <-]. cbn.
      split; [|repeat split; lia].
      intros i. rewrite bit_at_app_zeros.
      destruct (dirtyBitmap t); cbn; [reflexivity|].
      unfold bit_at. now rewrite lookup_nil.
    + intros [= <-]. cbn. repeat split; lia.
  - intros [= <-]. repeat split; lia.
Qed.

Lemma startPage_of_range (t : FileTracker) (offset s : Z) :
  startPage_of t offset = Ok s -> 0 <= s < 2 ^ 32.
Proof.
  unfold startPage_of, div64. destruct (pageSize t =? 0); [discriminate|].
  rewrite bind_Ok. intros [= <-]. apply wrap32_range.
Qed.

Lemma endPage_of_range (t : FileTracker) (offset amount e : Z) :
  endPage_of t offset amount = Ok e -> 0 <= e < 2 ^ 32.
Proof.
  unfold endPage_of, add64, sub64, div64.
  destruct (in_int64 (offset + amount)); [|discriminate]. rewrite bind_Ok.
  destruct (in_int64 (offset + amount - 1)); [|discriminate]. rewrite bind_Ok.
  destruct (pageSize t =? 0); [discriminate|].
  rewrite bind_Ok. intros [= <-]. apply wrap32_range.
Qed.

(** A returning call that raised [totalPages]: the bits of the result are
    those of the old bitmap and of the marked range. *)
Lemma mark_dirty_tracker_grown (a : Allocator) (t t' : FileTracker)
    (offset amount : Z) :
  tracker_wf t -> mark_dirty_tracker a t offset amount = Ok t' ->
  totalPages t < totalPages t' ->
  exists startPage endPage,
    startPage_of t offset = Ok startPage /\
    endPage_of t offset amount = Ok endPage /\
    totalPages t' = endPage + 1 /\
    forall i, 0 <= i ->
      bitmap_bit (dirtyBitmap t') i
      = bitmap_bit (dirtyBitmap t) i || ((startPage <=? i) && (i <=? endPage)).
Proof.
  intros Hwf Hrun Hgrown. unfold mark_dirty_tracker in Hrun.
  destruct (startPage_of t offset) as [s| |] eqn:Hs; try discriminate.
  destruct (endPage_of t offset amount) as [e| |] eqn:He; try discriminate.
  rewrite !bind_Ok in Hrun.
  pose proof (startPage_of_range _ _ _ Hs) as Hsr.
  pose proof (endPage_of_range _ _ _ _ He) as Her.
  destruct (ensure_capacity a t (wrap32 (e + 1))) as [[t1|]| |] eqn:Hcap;
    try discriminate; rewrite bind_Ok in Hrun.
  2:{ injection Hrun as <-. lia. }
  destruct (ensure_capacity_Ok _ _ _ _ Hwf Hcap) as (Hbits & Htp1 & _).
  destruct (for_u32 _ s _ set_bit (dirtyBitmap t1)) as [bm| |] eqn:Hloop;
    try discriminate.
  rewrite bind_Ok in Hrun. injection Hrun as <-.
  cbn [totalPages dirtyBitmap] in *.
  assert (He1 : e < 2 ^ 32 - 1).
  { destruct (Z.eq_dec e (2 ^ 32 - 1)) as [->|]; [|lia].
    change (wrap32 (2 ^ 32 - 1 + 1)) with 0 in Htp1. destruct Hwf. lia. }
  rewrite wrap32_small in Htp1 by lia.
  exists s, e. do 2 (split; [reflexivity|]). split; [lia|].
  intros i Hi. rewrite <- Hbits.
  destruct (Z.le_gt_cases s (e + 1)) as [Hse|Hse].
  - apply (mark_loop_Ok e (Z.to_nat (e - s + 1)) s); auto; lia.
  - replace (Z.to_nat (e - s + 1)) with 0%nat in Hloop by lia.
    rewrite for_u32_step in Hloop.
    destruct (Z.leb_spec s e); [lia|]. injection Hloop as <-.
    destruct (Z.leb_spec s i), (Z.leb_spec i e); try lia;
      now rewrite orb_false_r.
Qed.

(** A returning call either gave up (failed [realloc]) and left the tracker
    as it was, or set [totalPages] to the maximum of its old value and the
    required page count. *)
Lemma mark_dirty_tracker_total (a : Allocator) (t t' : FileTracker)
    (offset amount endPage : Z) :
  endPage_of t offset amount = Ok endPage ->
  mark_dirty_tracker a t offset amount = Ok t' ->
  t' = t \/ totalPages t' = Z.max (totalPages t) (wrap32 (endPage + 1)).
Proof.
  intros He Hrun. unfold mark_dirty_tracker in Hrun.
  destruct (startPage_of t offset) as [s| |]; try discriminate.
  rewrite He, !bind_Ok in Hrun.
  destruct (ensure_capacity a t (wrap32 (endPage + 1))) as [[t1|]| |] eqn:Hcap;
    try discriminate; rewrite bind_Ok in Hrun.
  2:{ injection Hrun as <-. now left. }
  destruct (for_u32 _ s _ set_bit (dirtyBitmap t1)) as [bm| |]; try discriminate.
  rewrite bind_Ok in Hrun. injection Hrun as <-. right. cbn [totalPages].
  revert Hcap. unfold ensure_capacity.
  destruct (Z.ltb_spec (totalPages t) (wrap32 (endPage + 1))).
  - destruct (_ <? _).
    + destruct (realloc a (dirtyBitmap t) _); [|discriminate].
      destruct (memset_zero _ _ _); try discriminate.
      rewrite bind_Ok. intros [= <-]. cbn. lia.
    + intros [= <-]. cbn. lia.
  - intros [= <-]. lia.
Qed.

Lemma store_same {F : Type} (st : VfsTrackingState F) (p : tracker_ptr)
    (t : FileTracker) :
  deref st p = Some t -> store st p t = st.
Proof.
  unfold deref, store. intros Hp. rewrite list_insert_id by assumption.
  rewrite rev_involutive. now destruct st.
Qed.

Lemma mark_dirty_run {F : Type} (a : Allocator) (st : VfsTrackingState F)
    (p : tracker_ptr) (t : FileTracker) (offset amount : Z) :
  deref st p = Some t -> tracker_wf t -> mark_in_range t offset amount ->
  realloc_ok a = true ->
  exists t',
    vfs_tracking_mark_dirty a st (Some p) offset amount = Ok (store st p t') /\
    tracker_wf t' /\ filename t' = filename t /\
    totalPages t'
      = Z.max (totalPages t) ((offset + amount - 1) / pageSize t + 1) /\
    (forall i, offset / pageSize t <= i <= (offset + amount - 1) / pageSize t ->
               dirty t' i = true) /\
    (forall i, ~ (offset / pageSize t <= i <= (offset + amount - 1) / pageSize t) ->
               dirty t' i = dirty t i).
Proof.
  intros Hp Hwf Hrange Hok.
  destruct (mark_dirty_tracker_spec a t offset amount Hwf Hrange Hok) as
    (t' & Hrun & Hwf' & Hname & _ & _ & Htp & Hbits).
  exists t'. unfold vfs_tracking_mark_dirty.
  destruct Hrange as (_ & _ & Ha & _).
  destruct (Z.leb_spec amount 0); [lia|]. rewrite Hp, Hrun, bind_Ok.
  split; [reflexivity|]. do 3 (split; [assumption|]).
  split; intros i Hi; rewrite Hbits.
  - destruct (Z.leb_spec (offset / pageSize t) i),
      (Z.leb_spec i ((offset + amount - 1) / pageSize t));
      first [lia | apply orb_true_r].
  - destruct (Z.leb_spec (offset / pageSize t) i),
      (Z.leb_spec i ((offset + amount - 1) / pageSize t));
      first [lia | apply orb_false_r].
Qed.

(** ** Claims *)

(** C1 (amended).  While the registry is not yet initialized, a base
    backend name that does not resolve makes [vfs_tracking_init] return
    [SQLITE_ERROR] and leave the world as it was; a name that resolves makes
    it return [SQLITE_OK] or the non-OK code of the registration.  Once the
    registry is initialized every call returns [SQLITE_OK] and changes
    nothing, whatever the name. *)
Theorem init_status_codes {F : Type} (sq : Sqlite F) (w : World F)
    (baseVfsName : option string) (pageSize : Z) :
  (pRealVfs (g_state w) = None ->
   sqlite3_vfs_find sq baseVfsName = None ->
   vfs_tracking_init sq w baseVfsName pageSize = (w, SQLITE_ERROR)) /\
  (pRealVfs (g_state w) = None ->
   sqlite3_vfs_find sq baseVfsName <> None ->
   snd (vfs_tracking_init sq w baseVfsName pageSize) = SQLITE_OK \/
   (snd (vfs_tracking_init sq w baseVfsName pageSize) = sqlite3_vfs_register sq /\
    sqlite3_vfs_register sq <> SQLITE_OK)) /\
  (pRealVfs (g_state w) <> None ->
   vfs_tracking_init sq w baseVfsName pageSize = (w, SQLITE_OK)).
Proof.
  unfold vfs_tracking_init. repeat split.
  - intros -> ->. reflexivity.
  - intros -> Hfind. destruct (sqlite3_vfs_find sq baseVfsName); [|congruence].
    destruct (Z.eqb_spec (sqlite3_vfs_register sq) SQLITE_OK); cbn [negb snd];
      auto.
  - intros Hinit. destruct (pRealVfs (g_state w)); [reflexivity | congruence].
Qed.

Lemma init_status_codes_witness :
  vfs_tracking_init sqlite_memfs world_init (Some "nosuch"%string) 4096
    = (world_init, SQLITE_ERROR) /\
  snd (vfs_tracking_init sqlite_memfs world_init (Some "memfs"%string) 4096)
    = SQLITE_OK /\
  vfs_tracking_init sqlite_memfs world_memfs (Some "nosuch"%string) 4096
    = (world_memfs, SQLITE_OK).
Proof.
  split; [|split].
  - apply (init_status_codes sqlite_memfs world_init (Some "nosuch"%string) 4096);
      reflexivity.
  - reflexivity.
  - apply (init_status_codes sqlite_memfs world_memfs (Some "nosuch"%string) 4096).
    discriminate.
Defined.

(** C1, counterexample.  After a successful initialization over "memfs", a
    call with a name that does not resolve returns [SQLITE_OK], not the
    error code of the not-found path. *)
Lemma init_reinit_unknown_backend_ok :
  pRealVfs (g_state world_memfs) <> None /\
  sqlite3_vfs_find sqlite_memfs (Some "nosuch"%string) = None /\
  snd (vfs_tracking_init sqlite_memfs world_memfs (Some "nosuch"%string) 4096)
    = SQLITE_OK /\
  SQLITE_OK <> SQLITE_ERROR /\ SQLITE_OK <> SQLITE_NOTFOUND.
Proof. repeat split; discriminate. Qed.

Lemma fresh_tracker_wf (name : option string) (ps : Z) :
  tracker_wf (mkFileTracker name None 0 0 ps 0).
Proof. unfold tracker_wf. cbn. lia. Qed.

(** C2 (amended).  For a well-formed tracker with a positive page size,
    [offset >= 0] and [amount > 0] whose last page index
    [(offset+amount-1)/pageSize] is at most [2^32 - 33] (and [offset+amount]
    within [int64_t]), when the allocator grants the growth,
    [vfs_tracking_mark_dirty] returns and updates only that tracker: every
    page of [[offset/pageSize, (offset+amount-1)/pageSize]] reads as dirty
    and no page outside the interval changes state.  For [amount <= 0] or a
    NULL tracker the call changes nothing. *)
Theorem mark_dirty_exact_range {F : Type} (a : Allocator)
    (st : VfsTrackingState F) :
  (forall (p : tracker_ptr) (t : FileTracker) (offset amount : Z),
      deref st p = Some t -> tracker_wf t -> 0 < pageSize t ->
      0 <= offset -> 0 < amount -> offset + amount <= INT64_MAX ->
      (offset + amount - 1) / pageSize t + 32 < 2 ^ 32 ->
      realloc_ok a = true ->
      exists t',
        vfs_tracking_mark_dirty a st (Some p) offset amount
          = Ok (store st p t') /\
        tracker_wf t' /\
        (forall i, offset / pageSize t <= i <= (offset + amount - 1) / pageSize t ->
                   dirty t' i = true) /\
        (forall i, ~ (offset / pageSize t <= i <= (offset + amount - 1) / pageSize t) ->
                   dirty t' i = dirty t i)) /\
  (forall (tracker : option tracker_ptr) (offset amount : Z),
      amount <= 0 -> vfs_tracking_mark_dirty a st tracker offset amount = Ok st) /\
  (forall (offset amount : Z),
      vfs_tracking_mark_dirty a st None offset amount = Ok st).
Proof.
  split; [|split].
  - intros p t offset amount Hp Hwf Hps Ho Ha Hmax Hfit Hok.
    destruct (mark_dirty_run a st p t offset amount Hp Hwf) as
      (t' & Hrun & Hwf' & _ & _ & Hin & Hout); [unfold mark_in_range; auto|auto|].
    exists t'. auto.
  - intros tracker offset amount Ha. unfold vfs_tracking_mark_dirty.
    destruct tracker; [|reflexivity].
    destruct (Z.leb_spec amount 0); [reflexivity | lia].
  - reflexivity.
Qed.

Lemma mark_dirty_exact_range_witness :
  exists t',
    vfs_tracking_mark_dirty alloc_ok state_db (Some 0%nat) 4090 20
      = Ok (store state_db 0%nat t') /\
    tracker_wf t' /\
    (forall i, 4090 / pageSize tracker_db <= i
               <= (4090 + 20 - 1) / pageSize tracker_db ->
               dirty t' i = true) /\
    (forall i, ~ (4090 / pageSize tracker_db <= i
                  <= (4090 + 20 - 1) / pageSize tracker_db) ->
               dirty t' i = dirty tracker_db i).
Proof.
  apply (proj1 (mark_dirty_exact_range alloc_ok state_db)
           0%nat tracker_db 4090 20).
  - reflexivity.
  - apply fresh_tracker_wf.
  - reflexivity.
  - lia.
  - lia.
  - vm_compute. discriminate.
  - vm_compute. reflexivity.
  - reflexivity.
Defined.

(** C2, counterexample.  With page size 4096, one byte written at offset
    [2^44] lies in page [2^32]; the page index is truncated to 32 bits, so
    page 0, outside the interval, becomes dirty and page [2^32] does not
    read as dirty. *)
Lemma mark_dirty_page_index_wraps :
  exists t',
    vfs_tracking_mark_dirty alloc_ok state_db (Some 0%nat) (2 ^ 44) 1
      = Ok (store state_db 0%nat t') /\
    2 ^ 44 / pageSize tracker_db = 2 ^ 32 /\
    (2 ^ 44 + 1 - 1) / pageSize tracker_db = 2 ^ 32 /\
    dirty t' (2 ^ 32) = false /\
    dirty tracker_db 0 = false /\ dirty t' 0 = true.
Proof.
  exists (mkFileTracker (Some "db.sqlite"%string) (Some [1]) 1 1 4096 0).
  split; [vm_compute; reflexivity|].
  split; [reflexivity|]. split; [reflexivity|].
  split; [lazy; reflexivity|]. split; reflexivity.
Qed.

Lemma tracker_db_01_wf : tracker_wf tracker_db_01.
Proof.
  destruct (mark_dirty_tracker_spec alloc_ok tracker_db 4090 20)
    as (t' & Hrun & Hwf & _).
  - apply fresh_tracker_wf.
  - unfold mark_in_range. vm_compute. repeat split; discriminate.
  - reflexivity.
  - vm_compute in Hrun. injection Hrun as <-. exact Hwf.
Qed.

Lemma state_db_01_wf : state_wf state_db_01.
Proof.
  unfold state_wf. cbn. constructor; [|constructor].
  split; [discriminate | apply tracker_db_01_wf].
Qed.

(** C3 (amended).  In a well-formed registry, for every non-null filename
    (and non-null out-parameters) [vfs_tracking_get_dirty_pages] returns.
    The pages to report are the indices whose bit is set within
    [[0, totalPages)] of the tracker registered under the normalized name,
    in strictly ascending order, and none when there is no such tracker or
    it has no bitmap.  If there is none to report the call returns
    [SQLITE_OK] with count 0 and a NULL array; otherwise, if [malloc]
    succeeds, it returns [SQLITE_OK], that sequence and its length; and if
    [malloc] fails it returns [SQLITE_NOMEM] and leaves both out-parameters
    as they were. *)
Theorem get_dirty_pages_enumerates {F : Type} (a : Allocator)
    (st : VfsTrackingState F) (fn : string) (count0 : Z)
    (pages0 : option (list Z)) :
  state_wf st ->
  let pages := dirty_pages_of st fn in
  let call :=
    vfs_tracking_get_dirty_pages a st (Some fn) (Some count0) (Some pages0) in
  (exists st1,
      (pages = [] -> call = Ok (st1, (SQLITE_OK, Some 0, Some None))) /\
      (pages <> [] -> malloc_ok a = true ->
       call = Ok (st1, (SQLITE_OK, Some (Z.of_nat (length pages)),
                        Some (Some pages)))) /\
      (pages <> [] -> malloc_ok a = false ->
       call = Ok (st1, (SQLITE_NOMEM, Some count0, Some pages0)))) /\
  StronglySorted Z.lt pages /\
  (forall i, In i pages <->
             exists t, lookup_tracker st fn = Some t /\ dirty t i = true) /\
  (forall t, lookup_tracker st fn = Some t -> dirtyBitmap t = None -> pages = []) /\
  (lookup_tracker st fn = None -> pages = []).
Proof.
  intros Hwf pages call.
  destruct (get_dirty_pages_run a st fn count0 pages0 Hwf) as (st1 & Hrun & _).
  fold call pages in Hrun. split; [|split; [|split; [|split]]].
  - exists st1. rewrite Hrun. unfold dirty_pages_answer.
    destruct pages as [|x l]; repeat split; try congruence;
      intros _ ->; reflexivity.
  - subst pages. unfold dirty_pages_of.
    destruct (lookup_tracker st fn); [apply enumerateDirty_sorted | constructor].
  - intros i. subst pages. unfold dirty_pages_of.
    destruct (lookup_tracker st fn) as [t|].
    + rewrite enumerateDirty_In. split; [eauto|]. now intros (t' & [= <-] & Hd).
    + split; [intros [] | intros (t' & Ht & _); discriminate].
  - intros t Ht Hnone. subst pages. unfold dirty_pages_of. rewrite Ht.
    now apply enumerateDirty_no_bitmap.
  - intros Hnone. subst pages. unfold dirty_pages_of. now rewrite Hnone.
Qed.

Lemma get_dirty_pages_enumerates_witness :
  let pages := dirty_pages_of state_db_01 "/db.sqlite" in
  let call :=
    vfs_tracking_get_dirty_pages alloc_ok state_db_01 (Some "/db.sqlite"%string)
      (Some 7) (Some None) in
  (exists st1,
      (pages = [] -> call = Ok (st1, (SQLITE_OK, Some 0, Some None))) /\
      (pages <> [] -> malloc_ok alloc_ok = true ->
       call = Ok (st1, (SQLITE_OK, Some (Z.of_nat (length pages)),
                        Some (Some pages)))) /\
      (pages <> [] -> malloc_ok alloc_ok = false ->
       call = Ok (st1, (SQLITE_NOMEM, Some 7, Some None)))) /\
  StronglySorted Z.lt pages /\
  (forall i, In i pages <->
             exists t, lookup_tracker state_db_01 "/db.sqlite" = Some t /\
                       dirty t i = true) /\
  (forall t, lookup_tracker state_db_01 "/db.sqlite" = Some t ->
             dirtyBitmap t = None -> pages = []) /\
  (lookup_tracker state_db_01 "/db.sqlite" = None -> pages = []).
Proof.
  exact (get_dirty_pages_enumerates alloc_ok state_db_01 "/db.sqlite" 7 None
           state_db_01_wf).
Defined.

(** C3, counterexample.  Pages 0 and 1 of "db.sqlite" are dirty and
    [malloc] fails: the call returns [SQLITE_NOMEM], not [SQLITE_OK], and
    reports no page. *)
Lemma get_dirty_pages_nomem :
  dirty_pages_of state_db_01 "db.sqlite" = [0; 1] /\
  vfs_tracking_get_dirty_pages alloc_no_malloc state_db_01
    (Some "db.sqlite"%string) (Some 0) (Some None)
  = Ok (state_db_01, (SQLITE_NOMEM, Some 0, Some None)) /\
  SQLITE_NOMEM <> SQLITE_OK.
Proof. vm_compute. repeat split; discriminate. Qed.

(** X21.  Growth keeps the old bits where the call returns.  Let a
    marking call on a well-formed tracker need growth: its
    required page count [endPage + 1] exceeds [totalPages].  Within the
    range of the page counters and with the allocator granting the growth
    the call returns with [totalPages = endPage + 1].  Whenever the call
    returns, every page that was dirty is still dirty, every bit position at
    or above the old [totalPages] and outside the marked range
    [[startPage, endPage]] is unset, and a page is dirty afterwards only if
    it was dirty before or lies in the marked range. *)
Theorem growth_preserves_bits {F : Type} (a : Allocator)
    (st : VfsTrackingState F) (p : tracker_ptr) (t : FileTracker)
    (offset amount startPage endPage : Z) :
  deref st p = Some t -> tracker_wf t -> 0 < amount ->
  startPage_of t offset = Ok startPage ->
  endPage_of t offset amount = Ok endPage ->
  totalPages t < wrap32 (endPage + 1) ->
  (mark_in_range t offset amount -> realloc_ok a = true ->
   exists t',
     vfs_tracking_mark_dirty a st (Some p) offset amount = Ok (store st p t') /\
     totalPages t' = endPage + 1) /\
  (forall st',
     vfs_tracking_mark_dirty a st (Some p) offset amount = Ok st' ->
     exists t',
       deref st' p = Some t' /\
       (t' = t \/ totalPages t' = endPage + 1) /\
       (forall i, dirty t i = true -> dirty t' i = true) /\
       (forall i, totalPages t <= i -> ~ (startPage <= i <= endPage) ->
                  bitmap_bit (dirtyBitmap t') i = false /\ dirty t' i = false) /\
       (forall i, dirty t' i = true ->
                  dirty t i = true \/ startPage <= i <= endPage)).
Proof.
  intros Hp Hwf Ha Hs He Hneed.
  pose proof (endPage_of_range _ _ _ _ He) as Her.
  assert (He1 : wrap32 (endPage + 1) = endPage + 1).
  { destruct (Z.eq_dec endPage (2 ^ 32 - 1)) as [->|]; [|apply wrap32_small; lia].
    change (wrap32 (2 ^ 32 - 1 + 1)) with 0 in Hneed. destruct Hwf. lia. }
  rewrite He1 in Hneed. split.
  - intros Hrange Hok.
    destruct (mark_dirty_run a st p t offset amount Hp Hwf Hrange Hok)
      as (t' & Hrun & _ & _ & Htp & _).
    rewrite (endPage_of_in_range _ _ _ Hrange) in He. injection He as He.
    exists t'. split; [exact Hrun|]. lia.
  - intros st' Hrun. unfold vfs_tracking_mark_dirty in Hrun.
    destruct (Z.leb_spec amount 0); [lia|]. rewrite Hp in Hrun.
    destruct (mark_dirty_tracker a t offset amount) as [t'| |] eqn:Hmark;
      try discriminate.
    rewrite bind_Ok in Hrun. injection Hrun as <-. exists t'.
    split; [apply deref_store_eq; eapply deref_valid; eauto|].
    destruct (mark_dirty_tracker_total a t t' offset amount endPage He Hmark)
      as [->|Htp].
    { split; [now left|]. split; [auto|]. split; [|auto].
      intros i Hi _. pose proof (wf_bit_beyond t i Hwf Hi) as Hb.
      split; [exact Hb|]. rewrite ?dirty_andb. rewrite Hb. apply andb_false_r. }
    rewrite He1 in Htp. assert (Hgrown : totalPages t < totalPages t') by lia.
    destruct (mark_dirty_tracker_grown a t t' offset amount Hwf Hmark Hgrown)
      as (s & e & Hs' & He' & _ & Hbits).
    rewrite Hs in Hs'. rewrite He in He'.
    injection Hs' as <-. injection He' as <-.
    pose proof (startPage_of_range _ _ _ Hs) as Hsr.
    split; [right; lia|].
    assert (Hfalse : forall i, totalPages t <= i -> ~ (startPage <= i <= endPage) ->
                               bitmap_bit (dirtyBitmap t') i = false).
    { intros i Hi Hout. destruct Hwf as [Htp0 Hwf']. rewrite Hbits by lia.
      rewrite (wf_bit_beyond t i (conj Htp0 Hwf')) by lia.
      destruct (Z.leb_spec startPage i), (Z.leb_spec i endPage);
        first [lia | reflexivity]. }
    split; [|split].
    + intros i Hd. rewrite ?dirty_andb in *.
      apply andb_true_iff in Hd as [Hd Hb]. apply andb_true_iff in Hd as [H0 H1].
      apply Z.leb_le in H0. apply Z.ltb_lt in H1.
      rewrite Hbits, Hb by lia. cbn [orb].
      destruct (Z.leb_spec 0 i), (Z.ltb_spec i (totalPages t'));
        first [lia | reflexivity].
    + intros i Hi Hout. split; [auto|]. rewrite ?dirty_andb.
      rewrite (Hfalse i Hi Hout). apply andb_false_r.
    + intros i Hd. rewrite ?dirty_andb in *.
      apply andb_true_iff in Hd as [Hd Hb]. apply andb_true_iff in Hd as [H0 H1].
      apply Z.leb_le in H0. apply Z.ltb_lt in H1.
      rewrite Hbits in Hb by lia. apply orb_true_iff in Hb as [Hb|Hb].
      * destruct (Z.lt_ge_cases i (totalPages t)) as [Hlt|Hge].
        -- left. rewrite Hb.
           destruct (Z.leb_spec 0 i), (Z.ltb_spec i (totalPages t));
             first [lia | reflexivity].
        -- now rewrite (wf_bit_beyond t i Hwf Hge) in Hb.
      * right. apply andb_true_iff in Hb as [H2 H3].
        apply Z.leb_le in H2. apply Z.leb_le in H3. lia.
Qed.

Lemma growth_preserves_bits_witness :
  (mark_in_range tracker_db_01 409600 10 -> realloc_ok alloc_ok = true ->
   exists t',
     vfs_tracking_mark_dirty alloc_ok state_db_01 (Some 0%nat) 409600 10
       = Ok (store state_db_01 0%nat t') /\
     totalPages t' = 100 + 1) /\
  (forall st',
     vfs_tracking_mark_dirty alloc_ok state_db_01 (Some 0%nat) 409600 10 = Ok st' ->
     exists t',
       deref st' 0%nat = Some t' /\
       (t' = tracker_db_01 \/ totalPages t' = 100 + 1) /\
       (forall i, dirty tracker_db_01 i = true -> dirty t' i = true) /\
       (forall i, totalPages tracker_db_01 <= i -> ~ (100 <= i <= 100) ->
                  bitmap_bit (dirtyBitmap t') i = false /\ dirty t' i = false) /\
       (forall i, dirty t' i = true ->
                  dirty tracker_db_01 i = true \/ 100 <= i <= 100)).
Proof.
  apply (growth_preserves_bits alloc_ok state_db_01 0%nat tracker_db_01
           409600 10 100 100).
  - reflexivity.
  - apply tracker_db_01_wf.
  - lia.
  - reflexivity.
  - reflexivity.
  - vm_compute. reflexivity.
Defined.

(** C4.  Growth is skipped where the rounding wraps.  The number of
    bitmap words is [(requiredPages + 31) / 32], computed in [uint32_t].
    For a last page in [[2^32 - 32, 2^32 - 2]] the required page count
    exceeds [totalPages] but the sum wraps around and the word count comes
    out as 0: the bitmap is not grown, [totalPages] is raised all the same,
    and the marking loop writes to a word that is not there.  So for a
    well-formed tracker whose bitmap ends before the start page the call
    is undefined behaviour, where the bitmap should have grown with its
    old bits kept. *)
Theorem growth_skipped_by_wrapped_rounding {F : Type} (a : Allocator)
    (st : VfsTrackingState F) (p : tracker_ptr) (t : FileTracker)
    (offset amount startPage endPage : Z) :
  deref st p = Some t -> tracker_wf t -> 0 < amount ->
  startPage_of t offset = Ok startPage ->
  endPage_of t offset amount = Ok endPage ->
  startPage <= endPage -> 2 ^ 32 - 32 <= endPage < 2 ^ 32 - 1 ->
  32 * bitmapSize t <= startPage ->
  totalPages t < wrap32 (endPage + 1) /\
  wrap32 (wrap32 (endPage + 1) + 31) / 32 = 0 /\
  ensure_capacity a t (wrap32 (endPage + 1))
  = Ok (Some (mkFileTracker (filename t) (dirtyBitmap t) (bitmapSize t)
                (wrap32 (endPage + 1)) (pageSize t) (isOpen t))) /\
  vfs_tracking_mark_dirty a st (Some p) offset amount = Undefined.
Proof.
  intros Hp Hwf Ha Hs He Hse Hend Hbm.
  pose proof (startPage_of_range _ _ _ Hs) as Hsr.
  destruct Hwf as (Htp & Hcov & Hws).
  assert (Hreq : wrap32 (endPage + 1) = endPage + 1) by (apply wrap32_small; lia).
  assert (Hround : wrap32 (wrap32 (endPage + 1) + 31) / 32 = 0).
  { rewrite Hreq. unfold wrap32.
    replace (endPage + 1 + 31) with (endPage + 32 - 2 ^ 32 + 1 * 2 ^ 32) by lia.
    rewrite Z.mod_add by lia. rewrite Z.mod_small by lia.
    apply Z.div_small. lia. }
  assert (Hcap : ensure_capacity a t (wrap32 (endPage + 1))
                 = Ok (Some (mkFileTracker (filename t) (dirtyBitmap t)
                               (bitmapSize t) (wrap32 (endPage + 1))
                               (pageSize t) (isOpen t)))).
  { unfold ensure_capacity. rewrite Hround.
    destruct (Z.ltb_spec (totalPages t) (wrap32 (endPage + 1))); [|lia].
    destruct (Z.ltb_spec (bitmapSize t) 0); [lia|reflexivity]. }
  split; [lia|]. split; [exact Hround|]. split; [exact Hcap|].
  unfold vfs_tracking_mark_dirty. rewrite Hp.
  destruct (Z.leb_spec amount 0); [lia|].
  unfold mark_dirty_tracker. rewrite Hs, bind_Ok, He, bind_Ok, Hcap, bind_Ok.
  cbn [dirtyBitmap]. rewrite for_u32_step.
  destruct (Z.leb_spec startPage endPage); [|lia].
  assert (Hset : set_bit startPage (dirtyBitmap t) = Undefined).
  { unfold set_bit. destruct (dirtyBitmap t) as [ws|]; [|reflexivity].
    destruct Hws as [Hlen _].
    rewrite (lookup_ge_None_2 ws (Z.to_nat (startPage / 32))); [reflexivity|].
    assert (bitmapSize t <= startPage / 32)
      by (apply Z.div_le_lower_bound; lia).
    lia. }
  now rewrite Hset.
Qed.

Lemma growth_skipped_by_wrapped_rounding_witness :
  dirty tracker_db_01 0 = true /\
  totalPages tracker_db_01 < wrap32 (4294967264 + 1) /\
  wrap32 (wrap32 (4294967264 + 1) + 31) / 32 = 0 /\
  ensure_capacity alloc_ok tracker_db_01 (wrap32 (4294967264 + 1))
  = Ok (Some (mkFileTracker (filename tracker_db_01) (dirtyBitmap tracker_db_01)
                (bitmapSize tracker_db_01) (wrap32 (4294967264 + 1))
                (pageSize tracker_db_01) (isOpen tracker_db_01))) /\
  vfs_tracking_mark_dirty alloc_ok state_db_01 (Some 0%nat) 17592185913344 1
  = Undefined.
Proof.
  split; [reflexivity|].
  apply (growth_skipped_by_wrapped_rounding alloc_ok state_db_01 0%nat
           tracker_db_01 17592185913344 1 4294967264 4294967264).
  - reflexivity.
  - apply tracker_db_01_wf.
  - lia.
  - reflexivity.
  - reflexivity.
  - lia.
  - lia.
  - vm_compute. discriminate.
Defined.

(** C8.  When the marking call needs a larger bitmap (the required page
    count exceeds [totalPages] and the required word count exceeds
    [bitmapSize]) and [realloc] fails, the call returns and nothing has
    changed: the tracker, and with it the whole registry, is as before. *)
Theorem mark_dirty_alloc_failure_unchanged {F : Type} (a : Allocator)
    (st : VfsTrackingState F) (p : tracker_ptr) (t : FileTracker)
    (offset amount startPage endPage : Z) :
  deref st p = Some t -> 0 < amount ->
  startPage_of t offset = Ok startPage ->
  endPage_of t offset amount = Ok endPage ->
  totalPages t < wrap32 (endPage + 1) ->
  bitmapSize t < wrap32 (wrap32 (endPage + 1) + 31) / 32 ->
  realloc_ok a = false ->
  vfs_tracking_mark_dirty a st (Some p) offset amount = Ok st /\
  mark_dirty_tracker a t offset amount = Ok t.
Proof.
  intros Hp Ha Hs He Hgrow Hwords Hfail.
  assert (Hmark : mark_dirty_tracker a t offset amount = Ok t).
  { unfold mark_dirty_tracker. rewrite Hs, He, !bind_Ok.
    unfold ensure_capacity.
    destruct (Z.ltb_spec (totalPages t) (wrap32 (endPage + 1))); [|lia].
    destruct (Z.ltb_spec (bitmapSize t) (wrap32 (wrap32 (endPage + 1) + 31) / 32));
      [|lia].
    unfold realloc. rewrite Hfail. reflexivity. }
  split; [|exact Hmark]. unfold vfs_tracking_mark_dirty.
  destruct (Z.leb_spec amount 0); [lia|].
  rewrite Hp, Hmark, bind_Ok. f_equal. now apply store_same.
Qed.

Lemma mark_dirty_alloc_failure_unchanged_witness :
  vfs_tracking_mark_dirty alloc_fail state_db_01 (Some 0%nat) 409600 10
    = Ok state_db_01 /\
  mark_dirty_tracker alloc_fail tracker_db_01 409600 10 = Ok tracker_db_01.
Proof.
  apply (mark_dirty_alloc_failure_unchanged alloc_fail state_db_01 0%nat
           tracker_db_01 409600 10 100 100).
  - reflexivity.
  - lia.
  - reflexivity.
  - reflexivity.
  - vm_compute. reflexivity.
  - vm_compute. reflexivity.
  - reflexivity.
Defined.

(** ** Resetting *)

Lemma bit_at_zeros (n : nat) (i : Z) : bit_at (replicate n 0) i = false.
Proof.
  unfold bit_at. destruct (replicate n 0 !! _) as [w|] eqn:Hw; [|reflexivity].
  apply lookup_replicate in Hw as [-> _]. apply Z.testbit_0_l.
Qed.

Lemma clear_bits_unset (t : FileTracker) (i : Z) :
  bitmap_bit (dirtyBitmap (clear_bits t)) i = false.
Proof.
  unfold clear_bits. cbn. destruct (dirtyBitmap t); cbn; [|reflexivity].
  apply bit_at_zeros.
Qed.

Lemma clear_bits_wf (t : FileTracker) : tracker_wf t -> tracker_wf (clear_bits t).
Proof.
  intros (Htp & Hcap & Hbm). unfold tracker_wf, clear_bits. cbn.
  do 2 (split; [assumption|]).
  destruct (dirtyBitmap t) as [ws|]; cbn; [|assumption].
  rewrite length_replicate. split; [tauto|]. intros i _. apply bit_at_zeros.
Qed.

Lemma clear_bits_no_bitmap (t : FileTracker) :
  dirtyBitmap t = None -> clear_bits t = t.
Proof. intros H. destruct t. cbn in *. subst. reflexivity. Qed.

Lemma memset_zero_all (ws : list Z) :
  memset_zero ws 0 (Z.of_nat (length ws)) = Ok (replicate (length ws) 0).
Proof.
  unfold memset_zero. rewrite Z.add_0_l.
  destruct (Z.leb_spec 0 0), (Z.leb_spec 0 (Z.of_nat (length ws))),
    (Z.leb_spec (Z.of_nat (length ws)) (Z.of_nat (length ws))); try lia.
  cbn [andb]. rewrite Nat2Z.id, drop_all, app_nil_r. reflexivity.
Qed.

Lemma search_same_names (l l' : list FileTracker) (name : string) :
  filename <$> l = filename <$> l' -> search l name = search l' name.
Proof.
  revert l'. induction l as [|t l IH]; intros [|t' l'] Hnames;
    try discriminate; [reflexivity|].
  rewrite !fmap_cons in Hnames. injection Hnames as Hf Hrest.
  cbn [search]. rewrite <- Hf.
  destruct (filename t); [|reflexivity].
  rewrite (IH l' Hrest).
  apply (f_equal length) in Hrest. rewrite !length_fmap in Hrest.
  now rewrite Hrest.
Qed.

Lemma store_names {F : Type} (st : VfsTrackingState F) (p : tracker_ptr)
    (t t' : FileTracker) :
  deref st p = Some t -> filename t' = filename t ->
  filename <$> files (store st p t') = filename <$> files st.
Proof.
  unfold deref, store. cbn [files]. intros Hp Hf.
  change (filename <$> rev (<[p:=t']> (rev (files st))))
    with (map filename (rev (<[p:=t']> (rev (files st))))).
  rewrite map_rev.
  change (map filename (<[p:=t']> (rev (files st))))
    with (filename <$> <[p:=t']> (rev (files st))).
  rewrite list_fmap_insert, Hf, list_insert_id.
  - change (filename <$> rev (files st)) with (map filename (rev (files st))).
    now rewrite map_rev, rev_involutive.
  - now rewrite list_lookup_fmap, Hp.
Qed.

Lemma reset_dirty_run {F : Type} (a : Allocator) (st : VfsTrackingState F)
    (fn : string) :
  state_wf st ->
  match lookup_tracker st fn with
  | Some t =>
      exists p, deref st p = Some t /\
                search (files st) (normalize fn) = Ok (Some p) /\
                vfs_tracking_reset_dirty a st (Some fn)
                = Ok (store st p (clear_bits t), SQLITE_OK)
  | None =>
      vfs_tracking_reset_dirty a st (Some fn)
      = Ok (if calloc_ok a then push_fresh a st (normalize fn) else st,
            SQLITE_OK)
  end.
Proof.
  intros Hwf. unfold lookup_tracker, vfs_tracking_reset_dirty,
    vfs_tracking_get_file.
  destruct (search_total (files st) (normalize fn) Hwf) as [[p Hp]|[Hs Hnone]].
  - destruct (search_found _ _ _ Hp) as (t & Hl & Hfind & Hname & _).
    change (rev (files st) !! p) with (deref st p) in Hl.
    rewrite Hfind, Hp, !bind_Ok. cbn [fst snd]. exists p.
    split; [assumption|]. split; [reflexivity|]. rewrite Hl.
    destruct (state_wf_deref _ _ _ Hwf Hl) as [_ (_ & _ & Hbm)].
    destruct (dirtyBitmap t) as [ws|] eqn:Hws.
    + destruct Hbm as [Hlen _]. rewrite <- Hlen, memset_zero_all, bind_Ok.
      unfold clear_bits. rewrite Hws, Hlen. reflexivity.
    + rewrite clear_bits_no_bitmap, store_same by assumption. reflexivity.
  - rewrite Hnone, Hs, bind_Ok. destruct (calloc_ok a); rewrite bind_Ok;
      cbn [fst snd]; [|reflexivity].
    change (mkState (fresh_tracker _ _ :: files st) _ _)
      with (push_fresh a st (normalize fn)).
    rewrite deref_push_new. reflexivity.
Qed.

Lemma lookup_tracker_store {F : Type} (st : VfsTrackingState F)
    (fn : string) (p : tracker_ptr) (t t' : FileTracker) :
  deref st p = Some t -> filename t' = filename t ->
  search (files st) (normalize fn) = Ok (Some p) ->
  search (files (store st p t')) (normalize fn) = Ok (Some p) /\
  lookup_tracker (store st p t') fn = Some t'.
Proof.
  intros Hp Hf Hs.
  assert (Hs' : search (files (store st p t')) (normalize fn) = Ok (Some p)).
  { rewrite <- Hs. apply search_same_names. now apply (store_names st p t t'). }
  split; [exact Hs'|].
  destruct (search_found _ _ _ Hs') as (t'' & Hl & Hfind & _).
  change (rev (files (store st p t')) !! p) with (deref (store st p t') p) in Hl.
  rewrite deref_store_eq in Hl by (eapply deref_valid; eauto).
  injection Hl as <-. exact Hfind.
Qed.

Lemma enumerateDirty_clear (t : FileTracker) : enumerateDirty (clear_bits t) = [].
Proof.
  unfold enumerateDirty.
  induction (seqZ 0 (totalPages (clear_bits t))) as [|i l IH]; [reflexivity|].
  cbn [List.filter]. rewrite dirty_andb. rewrite clear_bits_unset.
  now rewrite andb_false_r.
Qed.

(** C5 (amended).  In a well-formed registry, for every non-null filename
    [vfs_tracking_reset_dirty] returns [SQLITE_OK].  If a tracker is
    registered under the name, it stays the same node of the registry with
    its filename, [totalPages], [pageSize], [bitmapSize], [isOpen] and the
    size of its bitmap storage unchanged, every bit of its bitmap is unset,
    and a [vfs_tracking_get_dirty_pages] that follows reports no page; if it
    has no bitmap nothing changes at all.  If no tracker is registered under
    the name, the only effect is that a fresh tracker ([totalPages = 0], no
    bitmap, not open) is pushed for it, or nothing when [calloc] fails. *)
Theorem reset_dirty_clears {F : Type} (a : Allocator)
    (st : VfsTrackingState F) (fn : string) :
  state_wf st ->
  (forall t, lookup_tracker st fn = Some t ->
     exists p t',
       deref st p = Some t /\
       vfs_tracking_reset_dirty a st (Some fn) = Ok (store st p t', SQLITE_OK) /\
       deref (store st p t') p = Some t' /\
       length (files (store st p t')) = length (files st) /\
       filename t' = filename t /\ totalPages t' = totalPages t /\
       pageSize t' = pageSize t /\ bitmapSize t' = bitmapSize t /\
       isOpen t' = isOpen t /\
       option_map (@length Z) (dirtyBitmap t') = option_map (@length Z) (dirtyBitmap t) /\
       (forall i, bitmap_bit (dirtyBitmap t') i = false) /\
       (dirtyBitmap t = None -> store st p t' = st) /\
       (forall a' count0 pages0,
          vfs_tracking_get_dirty_pages a' (store st p t') (Some fn)
            (Some count0) (Some pages0)
          = Ok (store st p t', (SQLITE_OK, Some 0, Some None)))) /\
  (lookup_tracker st fn = None ->
     vfs_tracking_reset_dirty a st (Some fn)
     = Ok (if calloc_ok a
           then mkState
                  (mkFileTracker (if strdup_ok a then Some (normalize fn) else None)
                     None 0 0 (defaultPageSize st) 0 :: files st)
                  (pRealVfs st) (defaultPageSize st)
           else st,
           SQLITE_OK)).
Proof.
  intros Hwf. pose proof (reset_dirty_run a st fn Hwf) as Hrun. split.
  - intros t Ht. rewrite Ht in Hrun. destruct Hrun as (p & Hp & Hs & Hrun).
    exists p, (clear_bits t). split; [assumption|]. split; [assumption|].
    split; [apply deref_store_eq; eapply deref_valid; eauto|].
    split; [apply store_length|]. do 5 (split; [reflexivity|]).
    split; [cbn; destruct (dirtyBitmap t); cbn;
            [now rewrite length_replicate | reflexivity]|].
    split; [apply clear_bits_unset|].
    split; [intros Hnone; rewrite clear_bits_no_bitmap by assumption;
            now apply store_same|].
    intros a' count0 pages0.
    destruct (state_wf_deref _ _ _ Hwf Hp) as [Hname Htwf].
    assert (Hwf' : state_wf (store st p (clear_bits t)))
      by (apply state_wf_store; [assumption | assumption | now apply clear_bits_wf]).
    destruct (lookup_tracker_store st fn p t (clear_bits t) Hp eq_refl Hs)
      as [_ Hlook].
    destruct (get_dirty_pages_run a' _ fn count0 pages0 Hwf')
      as (st1 & Hcall & Hst1).
    rewrite Hlook in Hst1. subst st1. rewrite Hcall.
    unfold dirty_pages_of. rewrite Hlook, enumerateDirty_clear. reflexivity.
  - intros Hnone. rewrite Hnone in Hrun. exact Hrun.
Qed.

Lemma reset_dirty_clears_witness :
  (forall t, lookup_tracker state_db_01 "db.sqlite" = Some t ->
     exists p t',
       deref state_db_01 p = Some t /\
       vfs_tracking_reset_dirty alloc_ok state_db_01 (Some "db.sqlite"%string)
         = Ok (store state_db_01 p t', SQLITE_OK) /\
       deref (store state_db_01 p t') p = Some t' /\
       length (files (store state_db_01 p t')) = length (files state_db_01) /\
       filename t' = filename t /\ totalPages t' = totalPages t /\
       pageSize t' = pageSize t /\ bitmapSize t' = bitmapSize t /\
       isOpen t' = isOpen t /\
       option_map (@length Z) (dirtyBitmap t') = option_map (@length Z) (dirtyBitmap t) /\
       (forall i, bitmap_bit (dirtyBitmap t') i = false) /\
       (dirtyBitmap t = None -> store state_db_01 p t' = state_db_01) /\
       (forall a' count0 pages0,
          vfs_tracking_get_dirty_pages a' (store state_db_01 p t')
            (Some "db.sqlite"%string) (Some count0) (Some pages0)
          = Ok (store state_db_01 p t', (SQLITE_OK, Some 0, Some None)))) /\
  (lookup_tracker state_db_01 "db.sqlite" = None ->
     vfs_tracking_reset_dirty alloc_ok state_db_01 (Some "db.sqlite"%string)
     = Ok (if calloc_ok alloc_ok
           then mkState
                  (mkFileTracker
                     (if strdup_ok alloc_ok
                      then Some (normalize "db.sqlite") else None)
                     None 0 0 (defaultPageSize state_db_01) 0
                   :: files state_db_01)
                  (pRealVfs state_db_01) (defaultPageSize state_db_01)
           else state_db_01,
           SQLITE_OK)).
Proof.
  exact (reset_dirty_clears alloc_ok state_db_01 "db.sqlite" state_db_01_wf).
Defined.

(** C5, counterexample.  On the empty registry of an initialized world,
    resetting a filename that has no tracker returns [SQLITE_OK] but is
    not a no-op: a fresh tracker has been pushed. *)
Lemma reset_dirty_inserts_tracker :
  lookup_tracker (g_state world_memfs) "db.sqlite" = None /\
  vfs_tracking_reset_dirty alloc_ok (g_state world_memfs) (Some "db.sqlite"%string)
    = Ok (state_db, SQLITE_OK) /\
  state_db <> g_state world_memfs /\
  files (g_state world_memfs) = [] /\ files state_db = [tracker_db].
Proof. vm_compute. repeat split; discriminate. Qed.

(** ** Frame lemmas for the registry *)

Lemma get_file_cases {F : Type} (a : Allocator) (st st1 : VfsTrackingState F)
    (name : option string) (r : option tracker_ptr) :
  vfs_tracking_get_file a st name = Ok (st1, r) ->
  (st1 = st /\
   (forall p, r = Some p ->
      exists fn, name = Some fn /\
                 search (files st) (normalize fn) = Ok (Some p))) \/
  (exists fn, name = Some fn /\
              search (files st) (normalize fn) = Ok None /\
              st1 = push_fresh a st (normalize fn) /\
              r = Some (length (files st))).
Proof.
  unfold vfs_tracking_get_file. destruct name as [fn|].
  2:{ intros [= <- <-]. left. split; [reflexivity | discriminate]. }
  destruct (search (files st) (normalize fn)) as [[p|]| |] eqn:Hs;
    try discriminate; rewrite bind_Ok.
  - intros [= <- <-]. left. split; [reflexivity|]. intros p' [= <-]. eauto.
  - destruct (calloc_ok a); intros [= <- <-].
    + right. exists fn. repeat split; auto.
    + left. split; [reflexivity | discriminate].
Qed.

Lemma get_file_frame {F : Type} (a : Allocator) (st st1 : VfsTrackingState F)
    (name : option string) (r : option tracker_ptr) :
  vfs_tracking_get_file a st name = Ok (st1, r) ->
  forall q t, deref st q = Some t -> deref st1 q = Some t.
Proof.
  intros Hget q t Hq.
  destruct (get_file_cases _ _ _ _ _ Hget) as [[-> _]|(fn & _ & _ & -> & _)];
    [assumption | now apply deref_push_old].
Qed.

(** The tracker a returned pointer refers to either carries the normalized
    name or is the node just pushed. *)
Lemma get_file_target {F : Type} (a : Allocator) (st st1 : VfsTrackingState F)
    (fn : string) (p : tracker_ptr) :
  vfs_tracking_get_file a st (Some fn) = Ok (st1, Some p) ->
  forall q t, deref st q = Some t -> filename t <> Some (normalize fn) -> q <> p.
Proof.
  intros Hget q t Hq Hname ->.
  destruct (get_file_cases _ _ _ _ _ Hget) as [[-> Hfound]|(fn' & _ & _ & _ & Hr)].
  - destruct (Hfound p eq_refl) as (fn' & [= <-] & Hs).
    destruct (search_found _ _ _ Hs) as (t' & Hl & _ & Hf & _).
    change (rev (files st) !! p) with (deref st p) in Hl. congruence.
  - injection Hr as ->. apply deref_valid in Hq. lia.
Qed.


Lemma get_file_Ok_search {F : Type} (a : Allocator) (st st1 : VfsTrackingState F)
    (fn : string) (p : tracker_ptr) :
  vfs_tracking_get_file a st (Some fn) = Ok (st1, Some p) -> state_wf st1 ->
  search (files st1) (normalize fn) = Ok (Some p).
Proof.
  intros Hget Hwf1.
  destruct (get_file_cases _ _ _ _ _ Hget)
    as [[-> Hfound]|(fn' & [= <-] & _ & -> & [= ->])].
  - destruct (Hfound p eq_refl) as (fn' & [= <-] & Hs). exact Hs.
  - unfold state_wf, push_fresh in Hwf1. cbn [files] in Hwf1.
    apply Forall_cons in Hwf1 as [[Hname _] _]. cbn in Hname.
    unfold push_fresh. cbn [files search filename].
    destruct (strdup_ok a); [|congruence]. now rewrite String.eqb_refl.
Qed.

(** C9.  In a well-formed registry [vfs_tracking_get_dirty_pages] returns
    for every filename (NULL or not) and every pair of out-parameters, and
    every tracker of the registry is exactly as before.  The state after the
    call is the state before, or the state before with one fresh tracker
    ([totalPages = 0], [bitmapSize = 0], no bitmap, not open) pushed for a
    filename that had none. *)
Theorem get_dirty_pages_frame {F : Type} (a : Allocator)
    (st : VfsTrackingState F) (name : option string)
    (pPageCount : option Z) (ppPages : option (option (list Z))) :
  state_wf st ->
  exists st1 out,
    vfs_tracking_get_dirty_pages a st name pPageCount ppPages = Ok (st1, out) /\
    (forall q t, deref st q = Some t -> deref st1 q = Some t) /\
    (st1 = st \/
     exists fn nm,
       name = Some fn /\ lookup_tracker st fn = None /\
       st1 = mkState (mkFileTracker nm None 0 0 (defaultPageSize st) 0 :: files st)
               (pRealVfs st) (defaultPageSize st)).
Proof.
  intros Hwf.
  destruct name as [fn|], pPageCount as [count0|], ppPages as [pages0|];
    try (eexists _, _; split; [reflexivity|]; split; [auto | now left]).
  destruct (get_dirty_pages_run a st fn count0 pages0 Hwf) as (st1 & Hrun & Hst1).
  exists st1, (dirty_pages_answer a (dirty_pages_of st fn) count0 pages0).
  split; [exact Hrun|].
  destruct (lookup_tracker st fn) as [t|] eqn:Hlook.
  - subst st1. split; [auto | now left].
  - destruct (calloc_ok a); subst st1.
    + split; [intros q t Hq; now apply deref_push_old|].
      right. eexists fn, _. repeat split; auto.
    + split; [auto | now left].
Qed.

Lemma get_dirty_pages_frame_witness :
  exists st1 out,
    vfs_tracking_get_dirty_pages alloc_ok state_db_01 (Some "other.db"%string)
      (Some 0) (Some None) = Ok (st1, out) /\
    (forall q t, deref state_db_01 q = Some t -> deref st1 q = Some t) /\
    (st1 = state_db_01 \/
     exists fn nm,
       Some "other.db"%string = Some fn /\ lookup_tracker state_db_01 fn = None /\
       st1 = mkState
               (mkFileTracker nm None 0 0 (defaultPageSize state_db_01) 0
                :: files state_db_01)
               (pRealVfs state_db_01) (defaultPageSize state_db_01)).
Proof.
  exact (get_dirty_pages_frame alloc_ok state_db_01 (Some "other.db"%string)
           (Some 0) (Some None) state_db_01_wf).
Defined.

Lemma trackingOpen_cases {F : Type} (a : Allocator) (pVfs : tracking_vfs F)
    (st st' : VfsTrackingState F) (zName : option string)
    (h h' : TrackingFile F) (flags rc fl : Z) :
  trackingOpen a pVfs st zName h flags = Ok (st', h', rc, fl) ->
  st' = st \/
  exists st1 r,
    vfs_tracking_get_file a st zName = Ok (st1, r) /\ pTracker h' = r /\
    match r with
    | None => st' = st1
    | Some q => exists t, deref st1 q = Some t /\ st' = store st1 q (set_isOpen t 1)
    end.
Proof.
  unfold trackingOpen. destruct (pAppData pVfs) as [rv|]; [|discriminate].
  destruct (xOpen rv zName flags) as [[rc0 real] fl0].
  destruct (rc0 =? SQLITE_OK); [|intros [= <- _ _ _]; now left].
  destruct zName as [fn|]; [|intros [= <- _ _ _]; now left].
  destruct (vfs_tracking_get_file a st (Some fn)) as [[st1 r]| |] eqn:Hget;
    try discriminate.
  rewrite bind_Ok. cbn [fst snd]. destruct r as [q|].
  - destruct (deref st1 q) as [t|] eqn:Hq; [|discriminate].
    intros [= <- <- _ _]. right. exists st1, (Some q). cbn. eauto.
  - intros [= <- <- _ _]. right. exists st1, None. cbn. auto.
Qed.

Lemma fileClose_cases {F : Type} (st st' : VfsTrackingState F)
    (h h' : TrackingFile F) (rc : Z) :
  fileClose st h = Ok (st', h', rc) ->
  match pTracker h with
  | None => st' = st
  | Some q => exists t, deref st q = Some t /\ st' = store st q (set_isOpen t 0)
  end.
Proof.
  unfold fileClose. destruct (xClose (pReal_methods h) (pReal h)) as [rc0 real].
  destruct (pTracker h) as [q|]; [|now intros [= <- _ _]].
  destruct (deref st q) as [t|]; [|discriminate].
  intros [= <- _ _]. eauto.
Qed.


Lemma same_tracking_set_isOpen (t : FileTracker) (v : Z) :
  same_tracking t (set_isOpen t v).
Proof. unfold same_tracking. cbn. auto. Qed.







(** C10.  Every operation on one tracker leaves the other trackers of the
    registry exactly as they were (all fields): a returning
    [vfs_tracking_mark_dirty] or [fileClose] changes no node but the one its
    pointer refers to; a returning [vfs_tracking_reset_dirty] or
    [trackingOpen] changes no existing node whose filename differs from the
    normalized name; a returning [vfs_tracking_get_file] changes no existing
    node at all. *)
Theorem trackers_isolated {F : Type} (a : Allocator) (st : VfsTrackingState F) :
  (forall p offset amount st',
      vfs_tracking_mark_dirty a st (Some p) offset amount = Ok st' ->
      forall q, q <> p -> deref st' q = deref st q) /\
  (forall fn st' rc,
      vfs_tracking_reset_dirty a st (Some fn) = Ok (st', rc) ->
      forall q t, deref st q = Some t -> filename t <> Some (normalize fn) ->
                  deref st' q = Some t) /\
  (forall pVfs zName h flags st' h' rc fl,
      trackingOpen a pVfs st zName h flags = Ok (st', h', rc, fl) ->
      forall q t, deref st q = Some t ->
                  filename t <> option_map normalize zName ->
                  deref st' q = Some t) /\
  (forall h st' h' rc,
      fileClose st h = Ok (st', h', rc) ->
      forall q, pTracker h <> Some q -> deref st' q = deref st q) /\
  (forall name st' r,
      vfs_tracking_get_file a st name = Ok (st', r) ->
      forall q t, deref st q = Some t -> deref st' q = Some t).
Proof.
  split; [|split; [|split; [|split]]].
  - intros p offset amount st'. unfold vfs_tracking_mark_dirty.
    destruct (amount <=? 0); [now intros [= <-]|].
    destruct (deref st p) as [t|]; [|discriminate].
    destruct (mark_dirty_tracker a t offset amount) as [t'| |]; try discriminate.
    rewrite bind_Ok. intros [= <-] q Hne. apply deref_store_ne. auto.
  - intros fn st' rc. unfold vfs_tracking_reset_dirty.
    destruct (vfs_tracking_get_file a st (Some fn)) as [[st1 r]| |] eqn:Hget;
      try discriminate.
    rewrite bind_Ok. cbn [fst snd]. intros Hrun q t Hq Hname.
    pose proof (get_file_frame _ _ _ _ _ Hget q t Hq) as Hq1.
    destruct r as [p|]; [|now injection Hrun as <- _].
    pose proof (get_file_target _ _ _ _ _ Hget q t Hq Hname) as Hne.
    destruct (deref st1 p) as [tp|]; [|discriminate].
    destruct (dirtyBitmap tp) as [ws|]; [|now injection Hrun as <- _].
    destruct (memset_zero ws 0 (bitmapSize tp)); try discriminate.
    rewrite bind_Ok in Hrun. injection Hrun as <- _.
    rewrite deref_store_ne by auto. exact Hq1.
  - intros pVfs zName h flags st' h' rc fl Hopen q t Hq Hname.
    destruct (trackingOpen_cases _ _ _ _ _ _ _ _ _ _ Hopen)
      as [->|(st1 & r & Hget & _ & Hr)]; [assumption|].
    pose proof (get_file_frame _ _ _ _ _ Hget q t Hq) as Hq1.
    destruct r as [p|]; [|now subst st'].
    destruct Hr as (tp & Hp & ->). destruct zName as [fn|].
    + pose proof (get_file_target _ _ _ _ _ Hget q t Hq Hname) as Hne.
      rewrite deref_store_ne by auto. exact Hq1.
    + discriminate Hget.
  - intros h st' h' rc Hclose q Hne. apply fileClose_cases in Hclose.
    destruct (pTracker h) as [p|]; [|now subst st'].
    destruct Hclose as (t & _ & ->). apply deref_store_ne. congruence.
  - intros name st' r Hget q t Hq. exact (get_file_frame _ _ _ _ _ Hget q t Hq).
Qed.

Lemma trackers_isolated_witness :
  deref (store state_two 1%nat
           (mkFileTracker (Some "other.db"%string) (Some [128]) 1 8 4096 0)) 0%nat
  = deref state_two 0%nat.
Proof.
  apply (proj1 (trackers_isolated alloc_ok state_two) 1%nat (7 * 4096) 100).
  - vm_compute. reflexivity.
  - discriminate.
Defined.

(** C7 (amended).  For a handle with a tracker whose page size is positive
    and a new size [size >= 0] whose page index [size/pageSize] is at most
    [2^32 - 33] (and [size + 1] within [int64_t]), when the real truncate
    succeeds and the allocator grants the growth, [fileTruncate] returns the
    real result, page [size/pageSize] reads as dirty, no other page of that
    tracker changes state and no other tracker changes.  When the real
    truncate fails or the handle has no tracker, the registry is
    unchanged. *)
Theorem truncate_marks_boundary_page {F : Type} (a : Allocator)
    (st : VfsTrackingState F) (h : TrackingFile F) (size : Z) :
  let rc := fst (xTruncate (pReal_methods h) (pReal h) size) in
  let h' := mkTrackingFile (base_pMethods h)
              (snd (xTruncate (pReal_methods h) (pReal h) size))
              (pReal_methods h) (pTracker h) in
  (forall p t,
      rc = SQLITE_OK -> pTracker h = Some p -> deref st p = Some t ->
      tracker_wf t -> 0 < pageSize t -> 0 <= size -> size + 1 <= INT64_MAX ->
      size / pageSize t + 32 < 2 ^ 32 -> realloc_ok a = true ->
      exists t',
        fileTruncate a st h size = Ok (store st p t', h', SQLITE_OK) /\
        dirty t' (size / pageSize t) = true /\
        (forall i, i <> size / pageSize t -> dirty t' i = dirty t i) /\
        (forall q, q <> p -> deref (store st p t') q = deref st q)) /\
  (rc <> SQLITE_OK -> fileTruncate a st h size = Ok (st, h', rc)) /\
  (pTracker h = None -> fileTruncate a st h size = Ok (st, h', rc)).
Proof.
  intros rc h'. subst rc h'. unfold fileTruncate.
  destruct (xTruncate (pReal_methods h) (pReal h) size) as [rc real].
  cbn [fst snd]. split; [|split].
  - intros p t -> Hp Hd Hwf Hps Hsz Hmax Hfit Hok.
    destruct (mark_dirty_run a st p t size 1 Hd Hwf)
      as (t' & Hrun & _ & _ & _ & Hin & Hout); auto.
    { unfold mark_in_range. rewrite Z.add_simpl_r. repeat split; auto; lia. }
    rewrite Z.add_simpl_r in Hin, Hout.
    exists t'. rewrite Hp. cbn [Z.eqb SQLITE_OK andb].
    rewrite bool_decide_eq_true_2 by discriminate.
    rewrite Hrun, bind_Ok. split; [reflexivity|].
    split; [apply Hin; lia|]. split; [intros i Hi; apply Hout; lia|].
    intros q Hne. apply deref_store_ne. auto.
  - intros Hrc. destruct (Z.eqb_spec rc SQLITE_OK); [contradiction|]. reflexivity.
  - intros ->. rewrite andb_false_r. reflexivity.
Qed.

Lemma truncate_marks_boundary_page_witness :
  exists t',
    fileTruncate alloc_ok state_db handle_db 8192
      = Ok (store state_db 0%nat t',
            mkTrackingFile true 8192 memfs_io (Some 0%nat), SQLITE_OK) /\
    dirty t' (8192 / pageSize tracker_db) = true /\
    (forall i, i <> 8192 / pageSize tracker_db -> dirty t' i = dirty tracker_db i) /\
    (forall q, q <> 0%nat -> deref (store state_db 0%nat t') q = deref state_db q).
Proof.
  apply (proj1 (truncate_marks_boundary_page alloc_ok state_db handle_db 8192)
           0%nat tracker_db).
  - reflexivity.
  - reflexivity.
  - reflexivity.
  - apply fresh_tracker_wf.
  - reflexivity.
  - lia.
  - vm_compute. discriminate.
  - vm_compute. reflexivity.
  - reflexivity.
Defined.

(** C7, counterexample.  With page size 4096, a successful truncate to
    [2^44] bytes has its boundary in page [2^32]; the page index is
    truncated to 32 bits, so page 0 becomes dirty instead and page [2^32]
    does not read as dirty. *)
Lemma truncate_page_index_wraps :
  exists t',
    fileTruncate alloc_ok state_db handle_db (2 ^ 44)
      = Ok (store state_db 0%nat t',
            mkTrackingFile true (2 ^ 44) memfs_io (Some 0%nat), SQLITE_OK) /\
    2 ^ 44 / pageSize tracker_db = 2 ^ 32 /\
    dirty t' (2 ^ 32) = false /\
    dirty tracker_db 0 = false /\ dirty t' 0 = true.
Proof.
  exists (mkFileTracker (Some "db.sqlite"%string) (Some [1]) 1 1 4096 0).
  split; [vm_compute; reflexivity|]. split; [reflexivity|].
  split; [lazy; reflexivity|]. split; reflexivity.
Qed.

(** ** The representation invariant is an invariant *)

Lemma state_wf_init {F : Type} (sq : Sqlite F) (w : World F)
    (baseVfsName : option string) (pageSize : Z) :
  state_wf (g_state w) ->
  state_wf (g_state (fst (vfs_tracking_init sq w baseVfsName pageSize))).
Proof.
  intros Hwf. unfold vfs_tracking_init.
  destruct (pRealVfs (g_state w)); [assumption|].
  destruct (sqlite3_vfs_find sq baseVfsName); [|assumption].
  destruct (negb _); constructor.
Qed.

Lemma state_wf_get_file {F : Type} (a : Allocator)
    (st st1 : VfsTrackingState F) (name : option string) (r : option tracker_ptr) :
  state_wf st -> strdup_ok a = true ->
  vfs_tracking_get_file a st name = Ok (st1, r) -> state_wf st1.
Proof.
  intros Hwf Hd Hget.
  destruct (get_file_cases _ _ _ _ _ Hget) as [[-> _]|(fn & _ & _ & -> & _)];
    [assumption|].
  unfold state_wf, push_fresh. cbn [files]. constructor; [|exact Hwf].
  rewrite Hd. split; [discriminate | apply fresh_tracker_wf].
Qed.

Lemma state_wf_mark_dirty {F : Type} (a : Allocator)
    (st : VfsTrackingState F) (p : tracker_ptr) (t : FileTracker)
    (offset amount : Z) :
  state_wf st -> deref st p = Some t -> mark_in_range t offset amount ->
  realloc_ok a = true ->
  exists st', vfs_tracking_mark_dirty a st (Some p) offset amount = Ok st' /\
              state_wf st'.
Proof.
  intros Hwf Hp Hrange Hok. destruct (state_wf_deref _ _ _ Hwf Hp) as [Hn Ht].
  destruct (mark_dirty_run a st p t offset amount Hp Ht Hrange Hok)
    as (t' & Hrun & Hwf' & Hname & _).
  eexists. split; [exact Hrun|]. apply state_wf_store; congruence.
Qed.

Lemma state_wf_reset_dirty {F : Type} (a : Allocator)
    (st : VfsTrackingState F) (fn : string) :
  state_wf st -> strdup_ok a = true ->
  exists st', vfs_tracking_reset_dirty a st (Some fn) = Ok (st', SQLITE_OK) /\
              state_wf st'.
Proof.
  intros Hwf Hd. pose proof (reset_dirty_run a st fn Hwf) as Hrun.
  destruct (lookup_tracker st fn) as [t|].
  - destruct Hrun as (p & Hp & _ & Hrun). eexists. split; [exact Hrun|].
    destruct (state_wf_deref _ _ _ Hwf Hp) as [Hn Ht].
    apply state_wf_store; [assumption | assumption | now apply clear_bits_wf].
  - eexists. split; [exact Hrun|]. destruct (calloc_ok a); [|assumption].
    unfold state_wf, push_fresh. cbn [files]. constructor; [|exact Hwf].
    rewrite Hd. split; [discriminate | apply fresh_tracker_wf].
Qed.

Lemma state_wf_trackingOpen {F : Type} (a : Allocator) (pVfs : tracking_vfs F)
    (st st' : VfsTrackingState F) (zName : option string)
    (h h' : TrackingFile F) (flags rc fl : Z) :
  state_wf st -> strdup_ok a = true ->
  trackingOpen a pVfs st zName h flags = Ok (st', h', rc, fl) -> state_wf st'.
Proof.
  intros Hwf Hd Hopen.
  destruct (trackingOpen_cases _ _ _ _ _ _ _ _ _ _ Hopen)
    as [->|(st1 & r & Hget & _ & Hr)]; [assumption|].
  pose proof (state_wf_get_file _ _ _ _ _ Hwf Hd Hget) as Hwf1.
  destruct r as [p|]; [|now subst st'].
  destruct Hr as (t & Hp & ->).
  destruct (state_wf_deref _ _ _ Hwf1 Hp) as [Hn Ht].
  apply state_wf_store; assumption.
Qed.

Lemma state_wf_fileClose {F : Type} (st st' : VfsTrackingState F)
    (h h' : TrackingFile F) (rc : Z) :
  state_wf st -> fileClose st h = Ok (st', h', rc) -> state_wf st'.
Proof.
  intros Hwf Hclose. apply fileClose_cases in Hclose.
  destruct (pTracker h) as [p|]; [|now subst st'].
  destruct Hclose as (t & Hp & ->).
  destruct (state_wf_deref _ _ _ Hwf Hp) as [Hn Ht].
  apply state_wf_store; assumption.
Qed.

(** ** The end-to-end scenario runs as expected *)

Example end_to_end :
  let w1 := scenario_write scenario_open 10 0 in
  let w2 := scenario_write w1 20 4090 in
  let r := scenario_close_reset w2 in
  let o := scenario_reopen r in
  pages_after w1 = Ok (SQLITE_OK, Some 1, Some (Some [0])) /\
  pages_after w2 = Ok (SQLITE_OK, Some 2, Some (Some [0; 1])) /\
  pages_after r = Ok (SQLITE_OK, Some 0, Some None) /\
  pages_after o = Ok (SQLITE_OK, Some 0, Some None) /\
  (exists st h, o = Ok (st, h) /\ pTracker h = Some 0%nat /\
                length (files st) = 1%nat).
Proof.
  vm_compute. repeat split. eexists _, _. repeat split.
Qed.

(** ** The effect of every returning marking call *)

Lemma mark_loop_Ok_bounds (endPage : Z) (n : nat) :
  forall (startPage : Z) (bm bm' : option (list Z)),
    0 <= startPage -> startPage <= endPage ->
    endPage + 1 = startPage + Z.of_nat n ->
    endPage < 2 ^ 32 - 1 ->
    for_u32 (S n) startPage (fun i => i <=? endPage) set_bit bm = Ok bm' ->
    exists ws ws',
      bm = Some ws /\ bm' = Some ws' /\ length ws' = length ws /\
      endPage / 32 < Z.of_nat (length ws).
Proof.
  induction n as [|n IH]; intros startPage bm bm' Hs Hle Hn Hend;
    rewrite for_u32_step; [lia|].
  destruct (Z.leb_spec startPage endPage) as [_|]; [|lia].
  destruct bm as [ws|]; [|discriminate].
  unfold set_bit at 1.
  destruct (ws !! Z.to_nat (startPage / 32)) as [w|] eqn:Hw; [|discriminate].
  rewrite bind_Ok, wrap32_small by lia. intros Hrun.
  destruct (Z.eq_dec startPage endPage) as [->|Hne].
  - replace n with 0%nat in Hrun by lia. rewrite for_u32_step in Hrun.
    destruct (Z.leb_spec (endPage + 1) endPage); [lia|].
    injection Hrun as <-. eexists _, _. split; [reflexivity|].
    split; [reflexivity|]. split; [apply length_insert|].
    apply lookup_lt_Some in Hw.
    assert (0 <= endPage / 32) by (apply Z.div_pos; lia). lia.
  - destruct (IH (startPage + 1) _ _ ltac:(lia) ltac:(lia) ltac:(lia) Hend Hrun)
      as (ws1 & ws' & [= <-] & -> & Hlen & Hin).
    rewrite length_insert in Hlen, Hin. eauto 10.
Qed.

Lemma ensure_capacity_shape (a : Allocator) (t t1 : FileTracker) (req : Z) :
  tracker_wf t -> ensure_capacity a t req = Ok (Some t1) ->
  bitmapSize t <= bitmapSize t1 /\
  match dirtyBitmap t1 with
  | Some ws1 => Z.of_nat (length ws1) = bitmapSize t1
  | None => bitmapSize t1 = 0
  end /\
  (totalPages t < req -> req + 31 < 2 ^ 32 -> req <= 32 * bitmapSize t1) /\
  (totalPages t < req -> 2 ^ 32 <= req + 31 -> req < 2 ^ 32 ->
   dirtyBitmap t1 = dirtyBitmap t /\ bitmapSize t1 = bitmapSize t) /\
  (req <= totalPages t -> t1 = t).
Proof.
  intros (Htp & Hcap & Hbm). unfold ensure_capacity.
  destruct (Z.ltb_spec (totalPages t) req) as [Hgrow|Hfits].
  - destruct (Z.ltb_spec (bitmapSize t) (wrap32 (req + 31) / 32)) as [Hbig|Hsmall].
    + destruct (realloc_ok a) eqn:Hok.
      2:{ unfold realloc. rewrite Hok. discriminate. }
      assert (Hlen : Z.of_nat (length (default [] (dirtyBitmap t))) = bitmapSize t).
      { destruct (dirtyBitmap t); cbn; [tauto | lia]. }
      destruct (grow_and_zero a (dirtyBitmap t) _ _ Hok Hlen Hbig)
        as (block & Hre & Hzero).
      rewrite Hre, Hzero, bind_Ok. intros [= <-]. cbn.
      split; [lia|]. split.
      { rewrite length_app, length_replicate. lia. }
      split; [|split; [|lia]].
      * intros _ Hfit. rewrite wrap32_small by lia.
        Z.to_euclidean_division_equations; lia.
      * intros _ Hwrap Hreq. exfalso.
        assert (wrap32 (req + 31) = req + 31 - 2 ^ 32).
        { unfold wrap32. symmetry. apply Z.mod_unique_pos with (q := 1); lia. }
        assert (wrap32 (req + 31) / 32 = 0) by (apply Z.div_small; lia).
        destruct (dirtyBitmap t); lia.
    + intros [= <-]. cbn. split; [lia|].
      split; [destruct (dirtyBitmap t); tauto|].
      split; [|split; [auto|lia]].
      intros _ Hfit. rewrite wrap32_small in Hsmall by lia.
      Z.to_euclidean_division_equations; lia.
  - intros [= <-]. split; [lia|].
    split; [destruct (dirtyBitmap t); tauto|].
    split; [lia|]. split; [lia|]. reflexivity.
Qed.

Lemma mark_dirty_tracker_fields (a : Allocator) (t t' : FileTracker)
    (offset amount : Z) :
  mark_dirty_tracker a t offset amount = Ok t' ->
  filename t' = filename t /\ pageSize t' = pageSize t /\ isOpen t' = isOpen t.
Proof.
  unfold mark_dirty_tracker.
  destruct (startPage_of t offset) as [s| |]; try discriminate.
  destruct (endPage_of t offset amount) as [e| |]; try discriminate.
  rewrite !bind_Ok.
  destruct (ensure_capacity a t (wrap32 (e + 1))) as [[t1|]| |] eqn:Hcap;
    try discriminate; rewrite bind_Ok.
  2:{ intros [= <-]. auto. }
  destruct (for_u32 _ s _ set_bit (dirtyBitmap t1)) as [bm| |]; try discriminate.
  rewrite bind_Ok. intros [= <-]. cbn.
  revert Hcap. unfold ensure_capacity.
  destruct (_ <? _); [|intros [= <-]; auto].
  destruct (_ <? _); [|intros [= <-]; auto].
  destruct (realloc a (dirtyBitmap t) _); [|discriminate].
  destruct (memset_zero _ _ _); try discriminate.
  rewrite bind_Ok. intros [= <-]. auto.
Qed.

(** What a returning call has done to the bits, without any assumption on
    the range: nothing (the early return), or it has raised [totalPages] to
    cover [endPage] and set the bits of [[startPage, endPage]]. *)
Lemma mark_dirty_tracker_effect (a : Allocator) (t t' : FileTracker)
    (offset amount startPage endPage : Z) :
  tracker_wf t ->
  startPage_of t offset = Ok startPage ->
  endPage_of t offset amount = Ok endPage ->
  mark_dirty_tracker a t offset amount = Ok t' ->
  t' = t \/
  (endPage < 2 ^ 32 - 1 /\
   totalPages t' = Z.max (totalPages t) (endPage + 1) /\
   bitmapSize t <= bitmapSize t' /\
   forall i, dirty t' i = dirty t i || in_marked_range startPage endPage i).
Proof.
  intros Hwf Hs He Hrun. unfold mark_dirty_tracker in Hrun.
  rewrite Hs, He, !bind_Ok in Hrun.
  pose proof (startPage_of_range _ _ _ Hs) as Hsr.
  pose proof (endPage_of_range _ _ _ _ He) as Her.
  destruct (ensure_capacity a t (wrap32 (endPage + 1))) as [[t1|]| |] eqn:Hcap;
    try discriminate; rewrite bind_Ok in Hrun.
  2:{ injection Hrun as <-. now left. }
  destruct (ensure_capacity_Ok _ _ _ _ Hwf Hcap) as (Hbits & Htp1 & _).
  destruct (ensure_capacity_shape _ _ _ _ Hwf Hcap) as (Hbs & _).
  destruct (for_u32 _ startPage _ set_bit (dirtyBitmap t1)) as [bm| |] eqn:Hloop;
    try discriminate.
  rewrite bind_Ok in Hrun. injection Hrun as <-. right.
  assert (He1 : endPage < 2 ^ 32 - 1).
  { destruct (Z.eq_dec endPage (2 ^ 32 - 1)) as [->|]; [|lia]. exfalso.
    revert Hloop. apply for_u32_never_returns; [|assumption].
    intros j Hj. apply Z.leb_le. lia. }
  rewrite wrap32_small in Htp1 by lia.
  cbn [totalPages bitmapSize]. do 3 (split; [assumption|]).
  assert (Hbm : forall i, 0 <= i ->
            bitmap_bit bm i
            = bitmap_bit (dirtyBitmap t) i || in_marked_range startPage endPage i).
  { intros i Hi. rewrite <- Hbits. unfold in_marked_range.
    destruct (Z.le_gt_cases startPage (endPage + 1)) as [Hse|Hse].
    - apply (mark_loop_Ok endPage (Z.to_nat (endPage - startPage + 1)) startPage);
        auto; lia.
    - replace (Z.to_nat (endPage - startPage + 1)) with 0%nat in Hloop by lia.
      rewrite for_u32_step in Hloop.
      destruct (Z.leb_spec startPage endPage); [lia|]. injection Hloop as <-.
      destruct (Z.leb_spec startPage i), (Z.leb_spec i endPage);
        first [lia | now rewrite orb_false_r]. }
  intros i. rewrite !dirty_andb. cbn [totalPages dirtyBitmap]. rewrite Htp1.
  unfold in_marked_range in *.
  destruct (Z.leb_spec 0 i) as [Hi|Hi].
  2:{ cbn. destruct (Z.leb_spec startPage i); [lia | reflexivity]. }
  rewrite (Hbm i Hi). cbn [andb].
  destruct (Z.ltb_spec i (Z.max (totalPages t) (endPage + 1))),
    (Z.ltb_spec i (totalPages t)), (Z.leb_spec startPage i),
    (Z.leb_spec i endPage);
    try lia; cbn; rewrite ?orb_false_r, ?orb_true_r, ?andb_false_r;
    try reflexivity.
  now rewrite (wf_bit_beyond t i Hwf) by lia.
Qed.

(** ** The bitmap invariant survives every returning marking call *)

Lemma quot_span (offset amount ps : Z) :
  0 <= offset -> 0 < amount -> 0 < ps ->
  0 <= offset / ps /\ offset / ps <= (offset + amount - 1) / ps /\
  (offset + amount - 1) / ps <= offset / ps + amount.
Proof.
  intros Ho Ha Hps. split; [apply Z.div_pos; lia|].
  split; [apply Z.div_le_mono; lia|].
  rewrite <- Z.div_add by lia. apply Z.div_le_mono; [lia|]. nia.
Qed.

Lemma wrap_gap (qs qe amount : Z) :
  0 <= qs -> qs <= qe -> qe <= qs + amount -> amount <= INT_MAX ->
  2 ^ 32 - 32 <= wrap32 qe -> wrap32 qe < wrap32 qs -> False.
Proof.
  unfold wrap32, INT_MAX. intros H0 H1 H2 H3 H4 H5.
  pose proof (Z.div_mod qs (2 ^ 32) ltac:(lia)) as Hs.
  pose proof (Z.div_mod qe (2 ^ 32) ltac:(lia)) as He.
  pose proof (Z.mod_pos_bound qs (2 ^ 32) ltac:(lia)).
  pose proof (Z.mod_pos_bound qe (2 ^ 32) ltac:(lia)).
  remember (qs / 2 ^ 32) as A. remember (qe / 2 ^ 32) as B.
  remember (qs mod 2 ^ 32) as s. remember (qe mod 2 ^ 32) as e. lia.
Qed.

Lemma startPage_of_div (t : FileTracker) (offset s : Z) :
  0 <= offset -> 0 <= pageSize t -> startPage_of t offset = Ok s ->
  0 < pageSize t /\ s = wrap32 (offset / pageSize t).
Proof.
  intros Ho Hps. unfold startPage_of, div64.
  destruct (Z.eqb_spec (pageSize t) 0); [discriminate|].
  rewrite bind_Ok, Z.quot_div_nonneg by lia. intros [= <-]. split; [lia | reflexivity].
Qed.

Lemma endPage_of_div (t : FileTracker) (offset amount e : Z) :
  0 <= offset -> 0 < amount -> 0 <= pageSize t ->
  endPage_of t offset amount = Ok e ->
  e = wrap32 ((offset + amount - 1) / pageSize t).
Proof.
  intros Ho Ha Hps. unfold endPage_of, add64, sub64, div64.
  destruct (in_int64 (offset + amount)); [|discriminate]. rewrite bind_Ok.
  destruct (in_int64 (offset + amount - 1)); [|discriminate]. rewrite bind_Ok.
  destruct (Z.eqb_spec (pageSize t) 0); [discriminate|].
  rewrite bind_Ok, Z.quot_div_nonneg by lia. now intros [= <-].
Qed.

Lemma mark_dirty_tracker_wf (a : Allocator) (t t' : FileTracker)
    (offset amount : Z) :
  tracker_wf t -> 0 <= pageSize t -> 0 <= offset -> 0 < amount <= INT_MAX ->
  mark_dirty_tracker a t offset amount = Ok t' -> tracker_wf t'.
Proof.
  intros Hwf Hps Ho Ha Hrun. unfold mark_dirty_tracker in Hrun.
  destruct (startPage_of t offset) as [s| |] eqn:Hs; try discriminate.
  destruct (endPage_of t offset amount) as [e| |] eqn:He; try discriminate.
  rewrite !bind_Ok in Hrun.
  pose proof (startPage_of_range _ _ _ Hs) as Hsr.
  pose proof (endPage_of_range _ _ _ _ He) as Her.
  destruct (ensure_capacity a t (wrap32 (e + 1))) as [[t1|]| |] eqn:Hcap;
    try discriminate; rewrite bind_Ok in Hrun.
  2:{ now injection Hrun as <-. }
  destruct (ensure_capacity_Ok _ _ _ _ Hwf Hcap) as (Hbits & Htp1 & _).
  destruct (ensure_capacity_shape _ _ _ _ Hwf Hcap)
    as (Hbs & Hlen1 & Hfit & Hwrap & Hsame).
  destruct (for_u32 _ s _ set_bit (dirtyBitmap t1)) as [bm| |] eqn:Hloop;
    try discriminate.
  rewrite bind_Ok in Hrun. injection Hrun as <-.
  assert (He1 : e < 2 ^ 32 - 1).
  { destruct (Z.eq_dec e (2 ^ 32 - 1)) as [->|]; [|lia]. exfalso.
    revert Hloop. apply for_u32_never_returns; [|assumption].
    intros j Hj. apply Z.leb_le. lia. }
  rewrite wrap32_small in * by lia.
  pose proof Hwf as (Htp & Hcap0 & Hbm0).
  unfold tracker_wf. cbn [totalPages bitmapSize dirtyBitmap].
  destruct (Z.le_gt_cases s e) as [Hse|Hse].
  - destruct (mark_loop_Ok_bounds e (Z.to_nat (e - s + 1)) s _ _
                ltac:(lia) Hse ltac:(lia) He1 Hloop)
      as (ws & ws' & Hws & -> & Hlen & Hin).
    rewrite Hws in Hlen1.
    assert (Hin' : e < 32 * Z.of_nat (length ws))
      by (clear - Hin; Z.to_euclidean_division_equations; lia).
    split; [lia|]. split; [lia|].
    split; [lia|]. intros i Hi.
    pose proof (mark_loop_Ok e (Z.to_nat (e - s + 1)) s _ _
                  ltac:(lia) ltac:(lia) He1 Hloop i ltac:(lia)) as Hb.
    cbn [bitmap_bit] in Hb. rewrite Hb, Hbits, (wf_bit_beyond t i Hwf) by lia.
    destruct (Z.leb_spec s i), (Z.leb_spec i e); first [lia | reflexivity].
  - replace (Z.to_nat (e - s + 1)) with 0%nat in Hloop by lia.
    rewrite for_u32_step in Hloop.
    destruct (Z.leb_spec s e); [lia|]. injection Hloop as <-.
    assert (Hsize : totalPages t1 <= 32 * bitmapSize t1).
    { destruct (Z.le_gt_cases (e + 1) (totalPages t)) as [Hold|Hnew].
      - rewrite (Hsame Hold) in *. lia.
      - destruct (Z.lt_ge_cases (e + 1 + 31) (2 ^ 32)) as [Hin|Hout];
          [specialize (Hfit Hnew Hin); lia|].
        exfalso.
        destruct (startPage_of_div _ _ _ Ho Hps Hs) as [Hps' ->].
        rewrite (endPage_of_div _ _ _ _ Ho (proj1 Ha) Hps He) in *.
        destruct (quot_span offset amount (pageSize t) Ho (proj1 Ha) Hps')
          as (Hq0 & Hq1 & Hq2).
        apply (wrap_gap (offset / pageSize t)
                 ((offset + amount - 1) / pageSize t) amount); lia. }
    split; [lia|]. split; [exact Hsize|].
    destruct (dirtyBitmap t1) as [ws1|] eqn:Hws1; [|assumption].
    split; [assumption|]. intros i Hi.
    specialize (Hbits i). cbn [bitmap_bit] in Hbits.
    rewrite Hbits. apply (wf_bit_beyond t i Hwf). lia.
Qed.

Lemma mark_dirty_state_cases {F : Type} (a : Allocator)
    (st st' : VfsTrackingState F) (p : tracker_ptr) (t : FileTracker)
    (offset amount : Z) :
  deref st p = Some t ->
  vfs_tracking_mark_dirty a st (Some p) offset amount = Ok st' ->
  (amount <= 0 /\ st' = st) \/
  (0 < amount /\ exists t', mark_dirty_tracker a t offset amount = Ok t' /\
                            st' = store st p t').
Proof.
  intros Hp. unfold vfs_tracking_mark_dirty.
  destruct (Z.leb_spec amount 0); [intros [= <-]; now left|].
  rewrite Hp.
  destruct (mark_dirty_tracker a t offset amount) as [t'| |]; try discriminate.
  rewrite bind_Ok. intros [= <-]. right. eauto.
Qed.

(** X1.  Whatever the arguments and the allocator, a returning
    [vfs_tracking_mark_dirty] on a well-formed tracker never clears a
    dirty page and never lowers [totalPages] or [bitmapSize]; filename,
    page size and [isOpen] stay.  Either the tracker is exactly as before,
    or the dirty pages are the old ones together with the pages
    [[startPage, endPage]] the code computed. *)
Theorem mark_dirty_never_clears {F : Type} (a : Allocator)
    (st st' : VfsTrackingState F) (p : tracker_ptr) (t : FileTracker)
    (offset amount : Z) :
  deref st p = Some t -> tracker_wf t ->
  vfs_tracking_mark_dirty a st (Some p) offset amount = Ok st' ->
  exists t',
    deref st' p = Some t' /\
    filename t' = filename t /\ pageSize t' = pageSize t /\
    isOpen t' = isOpen t /\
    totalPages t <= totalPages t' /\ bitmapSize t <= bitmapSize t' /\
    (forall i, dirty t i = true -> dirty t' i = true) /\
    (t' = t \/
     exists startPage endPage,
       startPage_of t offset = Ok startPage /\
       endPage_of t offset amount = Ok endPage /\
       forall i, dirty t' i = dirty t i || in_marked_range startPage endPage i).
Proof.
  intros Hp Hwf Hrun.
  destruct (mark_dirty_state_cases _ _ _ _ _ _ _ Hp Hrun)
    as [[_ ->]|(_ & t' & Hmark & ->)].
  { exists t. repeat split; auto; lia. }
  exists t'. split; [apply deref_store_eq; eapply deref_valid; eauto|].
  destruct (mark_dirty_tracker_fields _ _ _ _ _ Hmark) as (Hf & Hps & Hio).
  do 3 (split; [assumption|]).
  pose proof Hmark as Hmark'. unfold mark_dirty_tracker in Hmark'.
  destruct (startPage_of t offset) as [s| |] eqn:Hs; try discriminate.
  destruct (endPage_of t offset amount) as [e| |] eqn:He; try discriminate.
  clear Hmark'.
  destruct (mark_dirty_tracker_effect _ _ _ _ _ _ _ Hwf Hs He Hmark)
    as [->|(_ & Htp & Hbs & Hbits)].
  { repeat split; auto; lia. }
  split; [lia|]. split; [lia|]. split.
  - intros i Hd. rewrite Hbits, Hd. reflexivity.
  - right. exists s, e. auto.
Qed.

Lemma mark_dirty_never_clears_witness :
  exists t',
    deref (store state_db_01 0%nat tracker_db_100) 0%nat = Some t' /\
    filename t' = filename tracker_db_01 /\ pageSize t' = pageSize tracker_db_01 /\
    isOpen t' = isOpen tracker_db_01 /\
    totalPages tracker_db_01 <= totalPages t' /\
    bitmapSize tracker_db_01 <= bitmapSize t' /\
    (forall i, dirty tracker_db_01 i = true -> dirty t' i = true) /\
    (t' = tracker_db_01 \/
     exists startPage endPage,
       startPage_of tracker_db_01 409600 = Ok startPage /\
       endPage_of tracker_db_01 409600 10 = Ok endPage /\
       forall i, dirty t' i
                 = dirty tracker_db_01 i || in_marked_range startPage endPage i).
Proof.
  apply (mark_dirty_never_clears alloc_ok state_db_01
           (store state_db_01 0%nat tracker_db_100) 0%nat tracker_db_01 409600 10).
  - reflexivity.
  - apply tracker_db_01_wf.
  - vm_compute. reflexivity.
Defined.

(** X2.  The representation invariant of the registry survives every
    returning [vfs_tracking_mark_dirty] with a non-negative offset and an
    [int] amount, also when the page indices wrap around or [realloc] fails;
    so a following [vfs_tracking_get_dirty_pages] for any filename returns
    and never reads outside a bitmap. *)
Theorem mark_dirty_keeps_invariant {F : Type} (a : Allocator)
    (st st' : VfsTrackingState F) (p : tracker_ptr) (t : FileTracker)
    (offset amount : Z) :
  state_wf st -> deref st p = Some t -> 0 <= pageSize t ->
  0 <= offset -> amount <= INT_MAX ->
  vfs_tracking_mark_dirty a st (Some p) offset amount = Ok st' ->
  state_wf st' /\
  forall a' fn count0 pages0,
    exists st1 out,
      vfs_tracking_get_dirty_pages a' st' (Some fn) (Some count0) (Some pages0)
      = Ok (st1, out).
Proof.
  intros Hwf Hp Hps Ho Ha Hrun.
  assert (Hwf' : state_wf st').
  { destruct (mark_dirty_state_cases _ _ _ _ _ _ _ Hp Hrun)
      as [[_ ->]|(Hpos & t' & Hmark & ->)]; [assumption|].
    destruct (state_wf_deref _ _ _ Hwf Hp) as [Hn Ht].
    destruct (mark_dirty_tracker_fields _ _ _ _ _ Hmark) as (Hf & _).
    apply state_wf_store; [assumption | congruence |].
    apply (mark_dirty_tracker_wf a t t' offset amount); auto. }
  split; [exact Hwf'|]. intros a' fn count0 pages0.
  destruct (get_dirty_pages_run a' st' fn count0 pages0 Hwf') as (st1 & Hq & _).
  eauto.
Qed.

Lemma mark_dirty_keeps_invariant_witness :
  state_wf state_db_wrapped /\
  forall a' fn count0 pages0,
    exists st1 out,
      vfs_tracking_get_dirty_pages a' state_db_wrapped (Some fn)
        (Some count0) (Some pages0) = Ok (st1, out).
Proof.
  apply (mark_dirty_keeps_invariant alloc_ok state_db state_db_wrapped 0%nat
           tracker_db (2 ^ 44) 1).
  - unfold state_wf. cbn. constructor; [|constructor].
    split; [discriminate | apply fresh_tracker_wf].
  - reflexivity.
  - vm_compute. discriminate.
  - lia.
  - vm_compute. discriminate.
  - vm_compute. reflexivity.
Defined.

(** ** Marking twice, and in either order *)

Lemma mark_dirty_run_full {F : Type} (a : Allocator) (st : VfsTrackingState F)
    (p : tracker_ptr) (t : FileTracker) (offset amount : Z) :
  deref st p = Some t -> tracker_wf t -> mark_in_range t offset amount ->
  realloc_ok a = true ->
  exists t',
    vfs_tracking_mark_dirty a st (Some p) offset amount = Ok (store st p t') /\
    deref (store st p t') p = Some t' /\
    tracker_wf t' /\ filename t' = filename t /\ pageSize t' = pageSize t /\
    totalPages t'
      = Z.max (totalPages t) ((offset + amount - 1) / pageSize t + 1) /\
    forall i, dirty t' i
      = dirty t i || in_marked_range (offset / pageSize t)
                       ((offset + amount - 1) / pageSize t) i.
Proof.
  intros Hp Hwf Hrange Hok.
  destruct (mark_dirty_tracker_spec a t offset amount Hwf Hrange Hok) as
    (t' & Hrun & Hwf' & Hname & Hps & _ & Htp & Hbits).
  exists t'. unfold vfs_tracking_mark_dirty.
  destruct Hrange as (_ & _ & Ha & _).
  destruct (Z.leb_spec amount 0); [lia|]. rewrite Hp, Hrun, bind_Ok.
  split; [reflexivity|].
  split; [apply deref_store_eq; eapply deref_valid; eauto|]. auto 10.
Qed.

Lemma lor_bit_set (w b : Z) :
  0 <= b -> Z.testbit w b = true -> Z.lor w (Z.shiftl 1 b) = w.
Proof.
  intros Hb Hw. apply Z.bits_inj'. intros n Hn.
  rewrite lor_mask_testbit by lia.
  destruct (Z.eqb_spec n b) as [->|]; [now rewrite Hw | apply orb_false_r].
Qed.

Lemma set_bit_already (ws : list Z) (i : Z) :
  0 <= i -> bit_at ws i = true -> set_bit i (Some ws) = Ok (Some ws).
Proof.
  intros Hi. unfold bit_at, set_bit.
  destruct (ws !! Z.to_nat (i / 32)) as [w|] eqn:Hw; [|discriminate].
  intros Hb. rewrite lor_bit_set by (auto; apply Z.mod_pos_bound; lia).
  now rewrite list_insert_id.
Qed.

Lemma mark_loop_already (endPage : Z) (ws : list Z) (n : nat) :
  forall startPage,
    0 <= startPage -> endPage + 1 = startPage + Z.of_nat n ->
    endPage < 2 ^ 32 - 1 ->
    (forall i, startPage <= i <= endPage -> bit_at ws i = true) ->
    for_u32 (S n) startPage (fun i => i <=? endPage) set_bit (Some ws)
    = Ok (Some ws).
Proof.
  induction n as [|n IH]; intros startPage Hs Hn Hend Hset; rewrite for_u32_step.
  - destruct (Z.leb_spec startPage endPage); [lia | reflexivity].
  - destruct (Z.leb_spec startPage endPage); [|lia].
    rewrite set_bit_already, bind_Ok, wrap32_small by (auto; try apply Hset; lia).
    apply IH; try lia. intros i Hi. apply Hset. lia.
Qed.

(** A range that is already covered and dirty is marked without any change
    and without asking the allocator. *)
Lemma mark_dirty_tracker_again (a : Allocator) (t : FileTracker)
    (offset amount : Z) :
  mark_in_range t offset amount ->
  (offset + amount - 1) / pageSize t + 1 <= totalPages t ->
  (forall i, offset / pageSize t <= i <= (offset + amount - 1) / pageSize t ->
             dirty t i = true) ->
  mark_dirty_tracker a t offset amount = Ok t.
Proof.
  intros Hrange Htp Hset. pose proof Hrange as (Hps & Ho & Ha & Hmax & Hfit).
  unfold mark_dirty_tracker.
  rewrite (startPage_of_in_range _ _ _ Hrange), bind_Ok.
  rewrite (endPage_of_in_range _ _ _ Hrange), bind_Ok.
  set (lo := offset / pageSize t) in *.
  set (hi := (offset + amount - 1) / pageSize t) in *.
  assert (Hlo : 0 <= lo) by (apply Z.div_pos; lia).
  assert (Hlh : lo <= hi) by (apply Z.div_le_mono; lia).
  rewrite (wrap32_small (hi + 1)) by lia. unfold ensure_capacity.
  destruct (Z.ltb_spec (totalPages t) (hi + 1)); [lia|]. rewrite bind_Ok.
  pose proof (Hset hi ltac:(lia)) as Hhi. rewrite dirty_andb in Hhi.
  destruct (dirtyBitmap t) as [ws|] eqn:Hws;
    [|cbn in Hhi; now rewrite andb_false_r in Hhi].
  rewrite (mark_loop_already hi ws (Z.to_nat (hi - lo + 1)) lo); try lia.
  - rewrite bind_Ok, <- Hws. now destruct t.
  - intros i Hi. specialize (Hset i Hi). rewrite dirty_andb, Hws in Hset.
    apply andb_true_iff in Hset. tauto.
Qed.

(** X3.  Marking is idempotent: after an in-range marking call that got its
    allocation, repeating the call with the same byte range changes
    nothing, whatever the allocator would answer. *)
Theorem mark_dirty_idempotent {F : Type} (a : Allocator)
    (st : VfsTrackingState F) (p : tracker_ptr) (t : FileTracker)
    (offset amount : Z) :
  deref st p = Some t -> tracker_wf t -> mark_in_range t offset amount ->
  realloc_ok a = true ->
  exists st1,
    vfs_tracking_mark_dirty a st (Some p) offset amount = Ok st1 /\
    forall a', vfs_tracking_mark_dirty a' st1 (Some p) offset amount = Ok st1.
Proof.
  intros Hp Hwf Hrange Hok.
  destruct (mark_dirty_run_full a st p t offset amount Hp Hwf Hrange Hok)
    as (t' & Hrun & Hp' & Hwf' & _ & Hps & Htp & Hbits).
  eexists. split; [exact Hrun|]. intros a'.
  unfold vfs_tracking_mark_dirty.
  destruct Hrange as (H1 & H2 & Ha & H4 & H5).
  destruct (Z.leb_spec amount 0); [lia|]. rewrite Hp'.
  rewrite mark_dirty_tracker_again.
  - rewrite bind_Ok. f_equal. now apply store_same.
  - unfold mark_in_range. rewrite Hps. auto.
  - rewrite Hps. lia.
  - rewrite Hps. intros i Hi. rewrite Hbits. unfold in_marked_range.
    destruct (Z.leb_spec (offset / pageSize t) i),
      (Z.leb_spec i ((offset + amount - 1) / pageSize t));
      first [lia | apply orb_true_r].
Qed.

Lemma mark_dirty_idempotent_witness :
  exists st1,
    vfs_tracking_mark_dirty alloc_ok state_db (Some 0%nat) 4090 20 = Ok st1 /\
    forall a', vfs_tracking_mark_dirty a' st1 (Some 0%nat) 4090 20 = Ok st1.
Proof.
  apply (mark_dirty_idempotent alloc_ok state_db 0%nat tracker_db 4090 20).
  - reflexivity.
  - apply fresh_tracker_wf.
  - unfold mark_in_range. vm_compute. repeat split; discriminate.
  - reflexivity.
Defined.

Lemma mark_in_range_same_page_size (t t' : FileTracker) (offset amount : Z) :
  pageSize t' = pageSize t -> mark_in_range t offset amount ->
  mark_in_range t' offset amount.
Proof. unfold mark_in_range. now intros ->. Qed.

Lemma mark_twice_run {F : Type} (a1 a2 : Allocator) (st : VfsTrackingState F)
    (p : tracker_ptr) (t : FileTracker) (o1 n1 o2 n2 : Z) :
  deref st p = Some t -> tracker_wf t ->
  mark_in_range t o1 n1 -> mark_in_range t o2 n2 ->
  realloc_ok a1 = true -> realloc_ok a2 = true ->
  exists st12 t12,
    (st1 <- vfs_tracking_mark_dirty a1 st (Some p) o1 n1 ;;
     vfs_tracking_mark_dirty a2 st1 (Some p) o2 n2) = Ok st12 /\
    deref st12 p = Some t12 /\
    (forall q, q <> p -> deref st12 q = deref st q) /\
    totalPages t12
      = Z.max (Z.max (totalPages t) ((o1 + n1 - 1) / pageSize t + 1))
          ((o2 + n2 - 1) / pageSize t + 1) /\
    forall i, dirty t12 i
      = dirty t i
        || in_marked_range (o1 / pageSize t) ((o1 + n1 - 1) / pageSize t) i
        || in_marked_range (o2 / pageSize t) ((o2 + n2 - 1) / pageSize t) i.
Proof.
  intros Hp Hwf Hr1 Hr2 Hok1 Hok2.
  destruct (mark_dirty_run_full a1 st p t o1 n1 Hp Hwf Hr1 Hok1)
    as (t1 & Hrun1 & Hp1 & Hwf1 & _ & Hps1 & Htp1 & Hbits1).
  pose proof (mark_in_range_same_page_size t t1 o2 n2 Hps1 Hr2) as Hr2'.
  destruct (mark_dirty_run_full a2 _ p t1 o2 n2 Hp1 Hwf1 Hr2' Hok2)
    as (t2 & Hrun2 & Hp2 & _ & _ & _ & Htp2 & Hbits2).
  rewrite Hps1 in *.
  eexists _, t2. rewrite Hrun1, bind_Ok. split; [exact Hrun2|].
  split; [exact Hp2|]. split.
  { intros q Hq. now rewrite !deref_store_ne by auto. }
  split; [lia|]. intros i. now rewrite Hbits2, Hbits1.
Qed.

(** X4.  Two in-range marking calls on one tracker commute as far as
    tracking goes: in either order both runs return, the dirty pages are the
    old ones together with both ranges, [totalPages] is the same, and no
    other tracker is touched. *)
Theorem mark_dirty_order_irrelevant {F : Type} (a1 a2 b1 b2 : Allocator)
    (st : VfsTrackingState F) (p : tracker_ptr) (t : FileTracker)
    (o1 n1 o2 n2 : Z) :
  deref st p = Some t -> tracker_wf t ->
  mark_in_range t o1 n1 -> mark_in_range t o2 n2 ->
  realloc_ok a1 = true -> realloc_ok a2 = true ->
  realloc_ok b1 = true -> realloc_ok b2 = true ->
  exists st12 st21 t12 t21,
    (st1 <- vfs_tracking_mark_dirty a1 st (Some p) o1 n1 ;;
     vfs_tracking_mark_dirty a2 st1 (Some p) o2 n2) = Ok st12 /\
    (st2 <- vfs_tracking_mark_dirty b1 st (Some p) o2 n2 ;;
     vfs_tracking_mark_dirty b2 st2 (Some p) o1 n1) = Ok st21 /\
    deref st12 p = Some t12 /\ deref st21 p = Some t21 /\
    totalPages t12 = totalPages t21 /\
    (forall i, dirty t12 i = dirty t21 i) /\
    (forall i, dirty t12 i
       = dirty t i
         || in_marked_range (o1 / pageSize t) ((o1 + n1 - 1) / pageSize t) i
         || in_marked_range (o2 / pageSize t) ((o2 + n2 - 1) / pageSize t) i) /\
    (forall q, q <> p -> deref st12 q = deref st q /\ deref st21 q = deref st q).
Proof.
  intros Hp Hwf Hr1 Hr2 Ha1 Ha2 Hb1 Hb2.
  destruct (mark_twice_run a1 a2 st p t o1 n1 o2 n2 Hp Hwf Hr1 Hr2 Ha1 Ha2)
    as (st12 & t12 & Hrun12 & Hp12 & Hfr12 & Htp12 & Hd12).
  destruct (mark_twice_run b1 b2 st p t o2 n2 o1 n1 Hp Hwf Hr2 Hr1 Hb1 Hb2)
    as (st21 & t21 & Hrun21 & Hp21 & Hfr21 & Htp21 & Hd21).
  exists st12, st21, t12, t21. do 4 (split; [assumption|]).
  split; [lia|]. split.
  { intros i. rewrite Hd12, Hd21.
    destruct (dirty t i), (in_marked_range _ _ i), (in_marked_range _ _ i);
      reflexivity. }
  split; [exact Hd12|]. intros q Hq. split; auto.
Qed.

Lemma mark_dirty_order_irrelevant_witness :
  exists st12 st21 t12 t21,
    (st1 <- vfs_tracking_mark_dirty alloc_ok state_db (Some 0%nat) 0 10 ;;
     vfs_tracking_mark_dirty alloc_ok st1 (Some 0%nat) 409600 10) = Ok st12 /\
    (st2 <- vfs_tracking_mark_dirty alloc_ok state_db (Some 0%nat) 409600 10 ;;
     vfs_tracking_mark_dirty alloc_no_malloc st2 (Some 0%nat) 0 10) = Ok st21 /\
    deref st12 0%nat = Some t12 /\ deref st21 0%nat = Some t21 /\
    totalPages t12 = totalPages t21 /\
    (forall i, dirty t12 i = dirty t21 i) /\
    (forall i, dirty t12 i
       = dirty tracker_db i
         || in_marked_range (0 / pageSize tracker_db)
              ((0 + 10 - 1) / pageSize tracker_db) i
         || in_marked_range (409600 / pageSize tracker_db)
              ((409600 + 10 - 1) / pageSize tracker_db) i) /\
    (forall q, q <> 0%nat ->
       deref st12 q = deref state_db q /\ deref st21 q = deref state_db q).
Proof.
  apply (mark_dirty_order_irrelevant alloc_ok alloc_ok alloc_ok alloc_no_malloc
           state_db 0%nat tracker_db 0 10 409600 10).
  - reflexivity.
  - apply fresh_tracker_wf.
  - unfold mark_in_range. vm_compute. repeat split; discriminate.
  - unfold mark_in_range. vm_compute. repeat split; discriminate.
  - reflexivity.
  - reflexivity.
  - reflexivity.
  - reflexivity.
Defined.

(** ** fileWrite *)

Lemma ensure_capacity_alloc (a : Allocator) (t : FileTracker) (req : Z) :
  ensure_capacity a t req = Ok None \/
  ensure_capacity a t req = ensure_capacity (with_realloc a) t req.
Proof.
  unfold ensure_capacity. destruct (_ <? _); [|now right].
  destruct (_ <? _); [|now right].
  unfold realloc, with_realloc. cbn [realloc_ok fresh_words fresh_word].
  destruct (realloc_ok a); [now right | now left].
Qed.

(** In range a marking call returns for every allocator: it has marked the
    range, or, when [realloc] failed, changed nothing. *)
Lemma mark_dirty_total {F : Type} (a : Allocator) (st : VfsTrackingState F)
    (p : tracker_ptr) (t : FileTracker) (offset amount : Z) :
  deref st p = Some t -> tracker_wf t -> mark_in_range t offset amount ->
  vfs_tracking_mark_dirty a st (Some p) offset amount = Ok st \/
  exists t',
    vfs_tracking_mark_dirty a st (Some p) offset amount = Ok (store st p t') /\
    tracker_wf t' /\ filename t' = filename t /\ pageSize t' = pageSize t /\
    forall i, dirty t' i
      = dirty t i || in_marked_range (offset / pageSize t)
                       ((offset + amount - 1) / pageSize t) i.
Proof.
  intros Hp Hwf Hrange.
  destruct (mark_dirty_tracker_spec (with_realloc a) t offset amount Hwf Hrange
              eq_refl) as (t' & Hrun & Hwf' & Hname & Hps & _ & _ & Hbits).
  pose proof Hrange as (_ & _ & Ha & _).
  unfold vfs_tracking_mark_dirty.
  destruct (Z.leb_spec amount 0); [lia|]. rewrite Hp.
  unfold mark_dirty_tracker in *.
  rewrite (startPage_of_in_range _ _ _ Hrange), bind_Ok in *.
  rewrite (endPage_of_in_range _ _ _ Hrange), bind_Ok in *.
  destruct (ensure_capacity_alloc a t
              (wrap32 ((offset + amount - 1) / pageSize t + 1))) as [Hnone|Hsame].
  - left. rewrite Hnone, !bind_Ok. f_equal. now apply store_same.
  - right. exists t'. rewrite Hsame, Hrun, bind_Ok. auto.
Qed.

(** X5.  [fileWrite] returns the result of the real write.  After a
    successful real write through a handle with a well-formed tracker, in
    range and with the allocation granted, the pages
    [[iOfst/pageSize, (iOfst+iAmt-1)/pageSize]] read as dirty, no other
    page of that tracker and no other tracker changes.  A failed real write,
    a handle without tracker and a write of no bytes ([iAmt <= 0]) leave the
    registry as it is. *)
Theorem fileWrite_marks_range {F : Type} (a : Allocator)
    (st : VfsTrackingState F) (h : TrackingFile F) (zBuf : list Z)
    (iAmt iOfst : Z) :
  let rc := fst (xWrite (pReal_methods h) (pReal h) zBuf iAmt iOfst) in
  let h' := with_pReal h (snd (xWrite (pReal_methods h) (pReal h) zBuf iAmt iOfst)) in
  (forall p t,
      rc = SQLITE_OK -> pTracker h = Some p -> deref st p = Some t ->
      tracker_wf t -> mark_in_range t iOfst iAmt -> realloc_ok a = true ->
      exists t',
        fileWrite a st h zBuf iAmt iOfst = Ok (store st p t', h', SQLITE_OK) /\
        (forall i, iOfst / pageSize t <= i <= (iOfst + iAmt - 1) / pageSize t ->
                   dirty t' i = true) /\
        (forall i, ~ (iOfst / pageSize t <= i <= (iOfst + iAmt - 1) / pageSize t) ->
                   dirty t' i = dirty t i) /\
        (forall q, q <> p -> deref (store st p t') q = deref st q)) /\
  (rc <> SQLITE_OK -> fileWrite a st h zBuf iAmt iOfst = Ok (st, h', rc)) /\
  (pTracker h = None -> fileWrite a st h zBuf iAmt iOfst = Ok (st, h', rc)) /\
  (iAmt <= 0 -> fileWrite a st h zBuf iAmt iOfst = Ok (st, h', rc)).
Proof.
  intros rc h'. subst rc h'. unfold fileWrite, with_pReal.
  destruct (xWrite (pReal_methods h) (pReal h) zBuf iAmt iOfst) as [rc real].
  cbn [fst snd]. split; [|split; [|split]].
  - intros p t -> Hp Hd Hwf Hrange Hok.
    destruct (mark_dirty_run a st p t iOfst iAmt Hd Hwf Hrange Hok)
      as (t' & Hrun & _ & _ & _ & Hin & Hout).
    exists t'. rewrite Hp. cbn [Z.eqb SQLITE_OK andb].
    rewrite bool_decide_eq_true_2 by discriminate.
    rewrite Hrun, bind_Ok. split; [reflexivity|].
    split; [assumption|]. split; [assumption|].
    intros q Hne. apply deref_store_ne. auto.
  - intros Hrc. destruct (Z.eqb_spec rc SQLITE_OK); [contradiction|]. reflexivity.
  - intros ->. rewrite andb_false_r. reflexivity.
  - intros Ha. destruct ((rc =? SQLITE_OK) && _); [|reflexivity].
    unfold vfs_tracking_mark_dirty. destruct (pTracker h); [|reflexivity].
    destruct (Z.leb_spec iAmt 0); [reflexivity | lia].
Qed.

Lemma fileWrite_marks_range_witness :
  exists t',
    fileWrite alloc_ok state_db handle_db [] 20 4090
      = Ok (store state_db 0%nat t', with_pReal handle_db 4110, SQLITE_OK) /\
    (forall i, 4090 / pageSize tracker_db <= i
               <= (4090 + 20 - 1) / pageSize tracker_db -> dirty t' i = true) /\
    (forall i, ~ (4090 / pageSize tracker_db <= i
                  <= (4090 + 20 - 1) / pageSize tracker_db) ->
               dirty t' i = dirty tracker_db i) /\
    (forall q, q <> 0%nat -> deref (store state_db 0%nat t') q = deref state_db q).
Proof.
  apply (proj1 (fileWrite_marks_range alloc_ok state_db handle_db [] 20 4090)
           0%nat tracker_db).
  - reflexivity.
  - reflexivity.
  - reflexivity.
  - apply fresh_tracker_wf.
  - unfold mark_in_range. vm_compute. repeat split; discriminate.
  - reflexivity.
Defined.

(** X6.  Tracking is best effort and never alters the result of the
    forwarded call: in range, for every allocator, [fileWrite] and
    [fileTruncate] return exactly the real backend's result code and file,
    also when the bitmap cannot be grown, and the registry afterwards is
    well formed. *)
Theorem write_truncate_transparent {F : Type} (a : Allocator)
    (st : VfsTrackingState F) (h : TrackingFile F) (p : tracker_ptr)
    (t : FileTracker) (zBuf : list Z) (iAmt iOfst size : Z) :
  state_wf st -> pTracker h = Some p -> deref st p = Some t ->
  (mark_in_range t iOfst iAmt ->
   exists st',
     fileWrite a st h zBuf iAmt iOfst
     = Ok (st', with_pReal h (snd (xWrite (pReal_methods h) (pReal h) zBuf iAmt iOfst)),
           fst (xWrite (pReal_methods h) (pReal h) zBuf iAmt iOfst)) /\
     state_wf st') /\
  (mark_in_range t size 1 ->
   exists st',
     fileTruncate a st h size
     = Ok (st', with_pReal h (snd (xTruncate (pReal_methods h) (pReal h) size)),
           fst (xTruncate (pReal_methods h) (pReal h) size)) /\
     state_wf st').
Proof.
  intros Hwf Hp Hd. destruct (state_wf_deref _ _ _ Hwf Hd) as [Hn Ht].
  assert (Hmark : forall o n, mark_in_range t o n ->
            exists st', vfs_tracking_mark_dirty a st (Some p) o n = Ok st' /\
                        state_wf st').
  { intros o n Hrange.
    destruct (mark_dirty_total a st p t o n Hd Ht Hrange)
      as [Hsame|(t' & Hrun & Hwf' & Hname & _)].
    - eauto.
    - eexists. split; [exact Hrun|]. apply state_wf_store; congruence. }
  split; intros Hrange; destruct (Hmark _ _ Hrange) as (st' & Hrun & Hwf').
  - unfold fileWrite, with_pReal.
    destruct (xWrite (pReal_methods h) (pReal h) zBuf iAmt iOfst) as [rc real].
    cbn [fst snd]. destruct ((rc =? SQLITE_OK) && _); [|eauto].
    rewrite Hp, Hrun, bind_Ok. eauto.
  - unfold fileTruncate, with_pReal.
    destruct (xTruncate (pReal_methods h) (pReal h) size) as [rc real].
    cbn [fst snd]. destruct ((rc =? SQLITE_OK) && _); [|eauto].
    rewrite Hp, Hrun, bind_Ok. eauto.
Qed.

Lemma write_truncate_transparent_witness :
  (mark_in_range tracker_db 4090 20 ->
   exists st',
     fileWrite alloc_no_realloc state_db handle_db [] 20 4090
     = Ok (st', with_pReal handle_db
                  (snd (xWrite (pReal_methods handle_db) (pReal handle_db) [] 20 4090)),
           fst (xWrite (pReal_methods handle_db) (pReal handle_db) [] 20 4090)) /\
     state_wf st') /\
  (mark_in_range tracker_db 8192 1 ->
   exists st',
     fileTruncate alloc_no_realloc state_db handle_db 8192
     = Ok (st', with_pReal handle_db
                  (snd (xTruncate (pReal_methods handle_db) (pReal handle_db) 8192)),
           fst (xTruncate (pReal_methods handle_db) (pReal handle_db) 8192)) /\
     state_wf st').
Proof.
  apply (write_truncate_transparent alloc_no_realloc state_db handle_db 0%nat
           tracker_db [] 20 4090 8192).
  - unfold state_wf. cbn. constructor; [|constructor].
    split; [discriminate | apply fresh_tracker_wf].
  - reflexivity.
  - reflexivity.
Defined.

Lemma get_file_found_search {F : Type} (a : Allocator) (st : VfsTrackingState F)
    (fn : string) (p : tracker_ptr) :
  state_wf st -> vfs_tracking_get_file a st (Some fn) = Ok (st, Some p) ->
  exists t, search (files st) (normalize fn) = Ok (Some p) /\
            deref st p = Some t /\ lookup_tracker st fn = Some t.
Proof.
  intros Hwf Hget. pose proof (get_file_Ok_search _ _ _ _ _ Hget Hwf) as Hs.
  destruct (search_found _ _ _ Hs) as (t & Hl & Hfind & _). eauto.
Qed.

(** X7.  Write, then query.  Let [p] be the tracker the registry returns for
    filename [fn].  After a successful in-range [fileWrite] through a handle
    on [p], [vfs_tracking_get_dirty_pages] for [fn] returns [SQLITE_OK] with
    a strictly ascending array whose members are the pages that were dirty
    before together with the pages of the written range, and with its
    length as count. *)
Theorem write_then_query {F : Type} (a0 a a' : Allocator)
    (st : VfsTrackingState F) (h : TrackingFile F) (fn : string)
    (p : tracker_ptr) (t : FileTracker) (zBuf : list Z) (iAmt iOfst count0 : Z)
    (pages0 : option (list Z)) :
  state_wf st ->
  vfs_tracking_get_file a0 st (Some fn) = Ok (st, Some p) ->
  pTracker h = Some p -> deref st p = Some t ->
  fst (xWrite (pReal_methods h) (pReal h) zBuf iAmt iOfst) = SQLITE_OK ->
  mark_in_range t iOfst iAmt -> realloc_ok a = true -> malloc_ok a' = true ->
  exists st' pages,
    fileWrite a st h zBuf iAmt iOfst
    = Ok (st', with_pReal h (snd (xWrite (pReal_methods h) (pReal h) zBuf iAmt iOfst)),
          SQLITE_OK) /\
    vfs_tracking_get_dirty_pages a' st' (Some fn) (Some count0) (Some pages0)
    = Ok (st', (SQLITE_OK, Some (Z.of_nat (length pages)), Some (Some pages))) /\
    StronglySorted Z.lt pages /\
    forall i, In i pages <->
              In i (dirty_pages_of st fn) \/
              iOfst / pageSize t <= i <= (iOfst + iAmt - 1) / pageSize t.
Proof.
  intros Hwf Hget Hp Hd Hrc Hrange Hok Hmalloc.
  destruct (get_file_found_search _ _ _ _ Hwf Hget) as (t0 & Hs & Hd0 & Hlook).
  assert (t0 = t) as -> by congruence.
  destruct (state_wf_deref _ _ _ Hwf Hd) as [Hn Ht].
  destruct (mark_dirty_run_full a st p t iOfst iAmt Hd Ht Hrange Hok)
    as (t' & Hrun & Hd' & Hwf' & Hname & Hps & _ & Hbits).
  assert (Hwfst : state_wf (store st p t'))
    by (apply state_wf_store; congruence).
  destruct (lookup_tracker_store st fn p t t' Hd Hname Hs) as [_ Hlook'].
  exists (store st p t'), (enumerateDirty t'). split.
  { unfold fileWrite, with_pReal.
    destruct (xWrite (pReal_methods h) (pReal h) zBuf iAmt iOfst) as [rc real].
    cbn [fst snd] in *. subst rc. rewrite Hp. cbn [Z.eqb SQLITE_OK andb].
    rewrite bool_decide_eq_true_2 by discriminate.
    now rewrite Hrun, bind_Ok. }
  assert (Hmem : forall i, In i (enumerateDirty t') <->
            In i (dirty_pages_of st fn) \/
            iOfst / pageSize t <= i <= (iOfst + iAmt - 1) / pageSize t).
  { intros i. unfold dirty_pages_of. rewrite Hlook, !enumerateDirty_In, Hbits.
    unfold in_marked_range. rewrite orb_true_iff, andb_true_iff.
    rewrite !Z.leb_le. tauto. }
  split; [|split; [apply enumerateDirty_sorted | exact Hmem]].
  destruct (get_dirty_pages_run a' _ fn count0 pages0 Hwfst) as (st1 & Hq & Hst1).
  rewrite Hlook' in Hst1. subst st1. rewrite Hq. f_equal. f_equal.
  unfold dirty_pages_of. rewrite Hlook'. unfold dirty_pages_answer.
  destruct (enumerateDirty t') as [|x l] eqn:Hpages.
  - exfalso. destruct Hrange as (Hps0 & Ho & Ha & _).
    apply (proj2 (Hmem (iOfst / pageSize t))). right.
    split; [lia | apply Z.div_le_mono; lia].
  - now rewrite Hmalloc.
Qed.

Lemma write_then_query_witness :
  exists st' pages,
    fileWrite alloc_ok state_db_01 handle_db [] 10 409600
    = Ok (st', with_pReal handle_db
                 (snd (xWrite (pReal_methods handle_db) (pReal handle_db) []
                         10 409600)), SQLITE_OK) /\
    vfs_tracking_get_dirty_pages alloc_ok st' (Some "/db.sqlite"%string)
      (Some 0) (Some None)
    = Ok (st', (SQLITE_OK, Some (Z.of_nat (length pages)), Some (Some pages))) /\
    StronglySorted Z.lt pages /\
    forall i, In i pages <->
              In i (dirty_pages_of state_db_01 "/db.sqlite") \/
              409600 / pageSize tracker_db_01 <= i
              <= (409600 + 10 - 1) / pageSize tracker_db_01.
Proof.
  apply (write_then_query alloc_fail alloc_ok alloc_ok state_db_01 handle_db
           "/db.sqlite" 0%nat tracker_db_01 [] 10 409600 0 None).
  - exact state_db_01_wf.
  - reflexivity.
  - reflexivity.
  - reflexivity.
  - reflexivity.
  - unfold mark_in_range. vm_compute. repeat split; discriminate.
  - reflexivity.
  - reflexivity.
Defined.

(** ** trackingOpen and fileClose *)

Lemma store_store {F : Type} (st : VfsTrackingState F) (p : tracker_ptr)
    (t1 t2 : FileTracker) :
  store (store st p t1) p t2 = store st p t2.
Proof.
  unfold store. cbn [files pRealVfs defaultPageSize].
  now rewrite rev_involutive, list_insert_insert_eq.
Qed.

Lemma trackingOpen_named {F : Type} (a : Allocator) (pVfs : tracking_vfs F)
    (rv : sqlite3_vfs F) (st : VfsTrackingState F) (fn : string)
    (h : TrackingFile F) (flags fl : Z) (real : F) :
  state_wf st -> pAppData pVfs = Some rv ->
  xOpen rv (Some fn) flags = (SQLITE_OK, real, fl) ->
  match lookup_tracker st fn with
  | Some t0 =>
      exists p,
        deref st p = Some t0 /\
        search (files st) (normalize fn) = Ok (Some p) /\
        trackingOpen a pVfs st (Some fn) h flags
        = Ok (store st p (set_isOpen t0 1), opened_handle rv real (Some p),
              SQLITE_OK, fl)
  | None =>
      trackingOpen a pVfs st (Some fn) h flags
      = if calloc_ok a
        then Ok (store (push_fresh a st (normalize fn)) (length (files st))
                   (mkFileTracker
                      (if strdup_ok a then Some (normalize fn) else None)
                      None 0 0 (defaultPageSize st) 1),
                 opened_handle rv real (Some (length (files st))), SQLITE_OK, fl)
        else Ok (st, opened_handle rv real None, SQLITE_OK, fl)
  end.
Proof.
  intros Hwf Hrv Hopen. unfold trackingOpen. rewrite Hrv, Hopen.
  cbn [Z.eqb SQLITE_OK]. unfold lookup_tracker, vfs_tracking_get_file.
  destruct (search_total (files st) (normalize fn) Hwf) as [[p Hp]|[Hs Hnone]].
  - destruct (search_found _ _ _ Hp) as (t & Hl & Hfind & _).
    change (rev (files st) !! p) with (deref st p) in Hl.
    rewrite Hfind, Hp, !bind_Ok. cbn [fst snd]. rewrite Hl. eauto.
  - rewrite Hnone, Hs, bind_Ok. destruct (calloc_ok a); rewrite bind_Ok;
      cbn [fst snd]; [|reflexivity].
    change (mkState (fresh_tracker _ _ :: files st) _ _)
      with (push_fresh a st (normalize fn)).
    rewrite deref_push_new. reflexivity.
Qed.

(** X8.  [trackingOpen] returns the result of the real open.  If the real
    open fails, or the file has no name, the registry is untouched (and an
    anonymous handle carries no tracker).  After a successful open of a
    named file, with [calloc] and [strdup] granted, the handle refers to the
    tracker registered under the normalized name and that tracker is marked
    open; it is the tracker that existed, with its tracking state as it was,
    or a new one without dirty pages and with the default page size. *)
Theorem trackingOpen_associates_tracker {F : Type} (a : Allocator)
    (pVfs : tracking_vfs F) (rv : sqlite3_vfs F) (st : VfsTrackingState F)
    (zName : option string) (h : TrackingFile F) (flags : Z) :
  state_wf st -> pAppData pVfs = Some rv ->
  let rc := fst (fst (xOpen rv zName flags)) in
  let real := snd (fst (xOpen rv zName flags)) in
  let fl := snd (xOpen rv zName flags) in
  (rc <> SQLITE_OK ->
   trackingOpen a pVfs st zName h flags
   = Ok (st, mkTrackingFile (base_pMethods h) real (pMethods rv) (pTracker h),
         rc, fl)) /\
  (rc = SQLITE_OK -> zName = None ->
   trackingOpen a pVfs st zName h flags
   = Ok (st, opened_handle rv real None, SQLITE_OK, fl)) /\
  (forall fn,
     rc = SQLITE_OK -> zName = Some fn ->
     calloc_ok a = true -> strdup_ok a = true ->
     exists st' p t,
       trackingOpen a pVfs st zName h flags
       = Ok (st', opened_handle rv real (Some p), SQLITE_OK, fl) /\
       state_wf st' /\
       deref st' p = Some t /\ lookup_tracker st' fn = Some t /\
       isOpen t = 1 /\ filename t = Some (normalize fn) /\
       match lookup_tracker st fn with
       | Some t0 => same_tracking t0 t
       | None => totalPages t = 0 /\ bitmapSize t = 0 /\ dirtyBitmap t = None /\
                 pageSize t = defaultPageSize st
       end).
Proof.
  intros Hwf Hrv rc real fl. subst rc real fl.
  destruct (xOpen rv zName flags) as [[rc real] fl] eqn:Hopen. cbn [fst snd].
  split; [|split].
  - intros Hrc. unfold trackingOpen. rewrite Hrv, Hopen.
    destruct (Z.eqb_spec rc SQLITE_OK); [contradiction | reflexivity].
  - intros -> ->. unfold trackingOpen. rewrite Hrv, Hopen. reflexivity.
  - intros fn -> -> Hc Hd.
    pose proof (trackingOpen_named a pVfs rv st fn h flags fl real Hwf Hrv Hopen)
      as Hrun.
    destruct (lookup_tracker st fn) as [t0|] eqn:Hlook.
    + destruct Hrun as (p & Hp & Hs & Hrun).
      destruct (state_wf_deref _ _ _ Hwf Hp) as [Hn Ht].
      destruct (lookup_tracker_store st fn p t0 (set_isOpen t0 1) Hp eq_refl Hs)
        as [_ Hlook'].
      exists (store st p (set_isOpen t0 1)), p, (set_isOpen t0 1).
      split; [exact Hrun|]. split; [now apply state_wf_store|].
      split; [apply deref_store_eq; eapply deref_valid; eauto|].
      split; [exact Hlook'|]. split; [reflexivity|].
      split; [|apply same_tracking_set_isOpen].
      destruct (search_found _ _ _ Hs) as (t1 & Hl & _ & Hname & _).
      change (rev (files st) !! p) with (deref st p) in Hl. cbn. congruence.
    + rewrite Hc, Hd in Hrun.
      set (t := mkFileTracker (Some (normalize fn)) None 0 0 (defaultPageSize st) 1)
        in *.
      set (st1 := push_fresh a st (normalize fn)) in *.
      assert (Hd1 : deref st1 (length (files st))
                    = Some (mkFileTracker (Some (normalize fn)) None 0 0
                              (defaultPageSize st) 0)).
      { subst st1. rewrite deref_push_new, Hd. reflexivity. }
      assert (Hs1 : search (files st1) (normalize fn)
                    = Ok (Some (length (files st)))).
      { subst st1. unfold push_fresh. cbn [files search filename].
        now rewrite Hd, String.eqb_refl. }
      assert (Hwf1 : state_wf st1).
      { subst st1. unfold state_wf, push_fresh. cbn [files].
        constructor; [|exact Hwf]. rewrite Hd.
        split; [discriminate | apply fresh_tracker_wf]. }
      destruct (lookup_tracker_store st1 fn _ _ t Hd1 eq_refl Hs1) as [_ Hlook'].
      exists (store st1 (length (files st)) t), (length (files st)), t.
      split; [exact Hrun|].
      split; [apply state_wf_store; [assumption | discriminate |];
              unfold tracker_wf; cbn; lia|].
      split; [apply deref_store_eq; eapply deref_valid; eauto|].
      split; [exact Hlook'|]. cbn. auto 10.
Qed.

Lemma trackingOpen_associates_tracker_witness :
  exists st' p t,
    trackingOpen alloc_ok (trackingVfs world_memfs) state_db_01
      (Some "/db.sqlite"%string) blank_handle 6
    = Ok (st', opened_handle memfs
                 (snd (fst (xOpen memfs (Some "/db.sqlite"%string) 6))) (Some p),
          SQLITE_OK, snd (xOpen memfs (Some "/db.sqlite"%string) 6)) /\
    state_wf st' /\
    deref st' p = Some t /\ lookup_tracker st' "/db.sqlite" = Some t /\
    isOpen t = 1 /\ filename t = Some (normalize "/db.sqlite") /\
    match lookup_tracker state_db_01 "/db.sqlite" with
    | Some t0 => same_tracking t0 t
    | None => totalPages t = 0 /\ bitmapSize t = 0 /\ dirtyBitmap t = None /\
              pageSize t = defaultPageSize state_db_01
    end.
Proof.
  apply (proj2 (proj2 (trackingOpen_associates_tracker alloc_ok
                         (trackingVfs world_memfs) memfs state_db_01
                         (Some "/db.sqlite"%string) blank_handle 6
                         state_db_01_wf eq_refl))
           "/db.sqlite"%string); reflexivity.
Defined.

Lemma fileClose_run {F : Type} (st : VfsTrackingState F) (h : TrackingFile F)
    (p : tracker_ptr) (t : FileTracker) :
  pTracker h = Some p -> deref st p = Some t ->
  fileClose st h
  = Ok (store st p (set_isOpen t 0),
        with_pReal h (snd (xClose (pReal_methods h) (pReal h))),
        fst (xClose (pReal_methods h) (pReal h))).
Proof.
  intros Hp Hd. unfold fileClose, with_pReal.
  destruct (xClose (pReal_methods h) (pReal h)) as [rc real].
  now rewrite Hp, Hd.
Qed.

Lemma set_isOpen_twice (t : FileTracker) (v w : Z) :
  set_isOpen (set_isOpen t v) w = set_isOpen t w.
Proof. reflexivity. Qed.

Lemma set_isOpen_same (t : FileTracker) : set_isOpen t (isOpen t) = t.
Proof. now destruct t. Qed.

(** X9.  Open, then close.  For a named file whose tracker exists, a
    successful [trackingOpen] followed by [fileClose] on the handle it set
    up returns the result of the real close, whatever it is, and leaves the
    registry as it was before the open except that the tracker is marked
    closed: no tracker is removed and no dirty page is lost.  If the tracker
    was closed before, the registry is exactly restored. *)
Theorem open_close_round_trip {F : Type} (a : Allocator)
    (pVfs : tracking_vfs F) (rv : sqlite3_vfs F) (st : VfsTrackingState F)
    (fn : string) (h : TrackingFile F) (flags fl : Z) (real : F)
    (t0 : FileTracker) :
  state_wf st -> pAppData pVfs = Some rv ->
  xOpen rv (Some fn) flags = (SQLITE_OK, real, fl) ->
  lookup_tracker st fn = Some t0 ->
  exists p st1 h1,
    deref st p = Some t0 /\
    trackingOpen a pVfs st (Some fn) h flags = Ok (st1, h1, SQLITE_OK, fl) /\
    pTracker h1 = Some p /\
    fileClose st1 h1
    = Ok (store st p (set_isOpen t0 0),
          with_pReal h1 (snd (xClose (pMethods rv) real)),
          fst (xClose (pMethods rv) real)) /\
    (forall i, dirty (set_isOpen t0 0) i = dirty t0 i) /\
    (isOpen t0 = 0 -> store st p (set_isOpen t0 0) = st).
Proof.
  intros Hwf Hrv Hopen Hlook.
  pose proof (trackingOpen_named a pVfs rv st fn h flags fl real Hwf Hrv Hopen)
    as Hrun.
  rewrite Hlook in Hrun. destruct Hrun as (p & Hp & _ & Hrun).
  exists p, (store st p (set_isOpen t0 1)), (opened_handle rv real (Some p)).
  split; [exact Hp|]. split; [exact Hrun|]. split; [reflexivity|].
  split.
  - rewrite (fileClose_run _ _ p (set_isOpen t0 1)); [|reflexivity|].
    + now rewrite store_store, set_isOpen_twice.
    + apply deref_store_eq. eapply deref_valid; eauto.
  - split; [reflexivity|]. intros H0. rewrite <- H0, set_isOpen_same.
    now apply store_same.
Qed.

Lemma open_close_round_trip_witness :
  exists p st1 h1,
    deref state_db_01 p = Some tracker_db_01 /\
    trackingOpen alloc_fail (trackingVfs world_memfs) state_db_01
      (Some "/db.sqlite"%string) blank_handle 6 = Ok (st1, h1, SQLITE_OK, 6) /\
    pTracker h1 = Some p /\
    fileClose st1 h1
    = Ok (store state_db_01 p (set_isOpen tracker_db_01 0),
          with_pReal h1 (snd (xClose (pMethods memfs) 0)),
          fst (xClose (pMethods memfs) 0)) /\
    (forall i, dirty (set_isOpen tracker_db_01 0) i = dirty tracker_db_01 i) /\
    (isOpen tracker_db_01 = 0 ->
     store state_db_01 p (set_isOpen tracker_db_01 0) = state_db_01).
Proof.
  apply (open_close_round_trip alloc_fail (trackingVfs world_memfs) memfs
           state_db_01 "/db.sqlite" blank_handle 6 6 0 tracker_db_01).
  - exact state_db_01_wf.
  - reflexivity.
  - reflexivity.
  - reflexivity.
Defined.

(** X10.  [isOpen] is a flag, not a count.  When the same named file is
    opened twice and the first handle is closed, the tracker is marked
    closed although the second handle still refers to it; both handles
    share the one tracker, and its tracking state is as it was. *)
Theorem isOpen_is_not_counted {F : Type} (a1 a2 : Allocator)
    (pVfs : tracking_vfs F) (rv : sqlite3_vfs F) (st : VfsTrackingState F)
    (fn : string) (h h0 : TrackingFile F) (flags fl1 fl2 : Z) (real1 real2 : F)
    (t0 : FileTracker) :
  state_wf st -> pAppData pVfs = Some rv ->
  xOpen rv (Some fn) flags = (SQLITE_OK, real1, fl1) ->
  xOpen rv (Some ("/" ++ fn)%string) flags = (SQLITE_OK, real2, fl2) ->
  lookup_tracker st fn = Some t0 -> normalize fn = fn ->
  exists p st1 h1 st2 h2 st3 h1' rc,
    trackingOpen a1 pVfs st (Some fn) h flags = Ok (st1, h1, SQLITE_OK, fl1) /\
    trackingOpen a2 pVfs st1 (Some ("/" ++ fn)%string) h0 flags
      = Ok (st2, h2, SQLITE_OK, fl2) /\
    fileClose st2 h1 = Ok (st3, h1', rc) /\
    pTracker h1 = Some p /\ pTracker h2 = Some p /\
    deref st2 p = Some (set_isOpen t0 1) /\
    deref st3 p = Some (set_isOpen t0 0) /\
    st3 = store st p (set_isOpen t0 0).
Proof.
  intros Hwf Hrv Hopen1 Hopen2 Hlook Hnorm.
  pose proof (trackingOpen_named a1 pVfs rv st fn h flags fl1 real1 Hwf Hrv Hopen1)
    as Hrun1.
  rewrite Hlook in Hrun1. destruct Hrun1 as (p & Hp & Hs & Hrun1).
  destruct (state_wf_deref _ _ _ Hwf Hp) as [Hn Ht].
  set (st1 := store st p (set_isOpen t0 1)) in *.
  assert (Hwf1 : state_wf st1) by (now apply state_wf_store).
  assert (Hnorm2 : normalize ("/" ++ fn) = normalize fn) by (now rewrite Hnorm).
  destruct (lookup_tracker_store st fn p t0 (set_isOpen t0 1) Hp eq_refl Hs)
    as [Hs1 Hlook1].
  pose proof (trackingOpen_named a2 pVfs rv st1 ("/" ++ fn) h0 flags fl2 real2
                Hwf1 Hrv Hopen2) as Hrun2.
  assert (Hlook2 : lookup_tracker st1 ("/" ++ fn) = Some (set_isOpen t0 1)).
  { unfold lookup_tracker in *. now rewrite Hnorm2. }
  rewrite Hlook2, Hnorm2 in Hrun2.
  destruct Hrun2 as (p2 & Hp2 & Hs2 & Hrun2).
  assert (p2 = p) as -> by (subst st1; congruence).
  assert (Hst2 : store st1 p (set_isOpen (set_isOpen t0 1) 1) = st1).
  { rewrite set_isOpen_twice. subst st1. now rewrite store_store. }
  rewrite Hst2 in Hrun2.
  eexists p, st1, _, st1, _, _, _, _.
  split; [exact Hrun1|]. split; [exact Hrun2|].
  split; [apply (fileClose_run st1 _ p (set_isOpen t0 1)); [reflexivity|exact Hp2]|].
  split; [reflexivity|]. split; [reflexivity|]. split; [exact Hp2|].
  rewrite set_isOpen_twice. subst st1. rewrite store_store.
  split; [|reflexivity]. apply deref_store_eq. eapply deref_valid; eauto.
Qed.

Lemma isOpen_is_not_counted_witness :
  exists p st1 h1 st2 h2 st3 h1' rc,
    trackingOpen alloc_ok (trackingVfs world_memfs) state_db_01
      (Some "db.sqlite"%string) blank_handle 6 = Ok (st1, h1, SQLITE_OK, 6) /\
    trackingOpen alloc_ok (trackingVfs world_memfs) st1
      (Some ("/" ++ "db.sqlite")%string) blank_handle 6
      = Ok (st2, h2, SQLITE_OK, 6) /\
    fileClose st2 h1 = Ok (st3, h1', rc) /\
    pTracker h1 = Some p /\ pTracker h2 = Some p /\
    deref st2 p = Some (set_isOpen tracker_db_01 1) /\
    deref st3 p = Some (set_isOpen tracker_db_01 0) /\
    st3 = store state_db_01 p (set_isOpen tracker_db_01 0).
Proof.
  apply (isOpen_is_not_counted alloc_ok alloc_ok (trackingVfs world_memfs) memfs
           state_db_01 "db.sqlite" blank_handle blank_handle 6 6 6 0 0
           tracker_db_01).
  - exact state_db_01_wf.
  - reflexivity.
  - reflexivity.
  - reflexivity.
  - reflexivity.
  - reflexivity.
Defined.

(** X11.  Tracking is best effort at open time too.  If [calloc] fails when
    a file without tracker is opened, the open still returns the result of
    the real open; the handle carries no tracker and the registry is
    unchanged, and every later write or truncate through that handle leaves
    the registry unchanged whatever the real backend answers. *)
Theorem open_without_memory_is_untracked {F : Type} (a a' : Allocator)
    (pVfs : tracking_vfs F) (rv : sqlite3_vfs F) (st : VfsTrackingState F)
    (fn : string) (h : TrackingFile F) (flags fl : Z) (real : F) :
  state_wf st -> pAppData pVfs = Some rv ->
  xOpen rv (Some fn) flags = (SQLITE_OK, real, fl) ->
  lookup_tracker st fn = None -> calloc_ok a = false ->
  exists h1,
    trackingOpen a pVfs st (Some fn) h flags = Ok (st, h1, SQLITE_OK, fl) /\
    pTracker h1 = None /\
    (forall real1 zBuf iAmt iOfst,
       fileWrite a' st (with_pReal h1 real1) zBuf iAmt iOfst
       = Ok (st, with_pReal h1 (snd (xWrite (pMethods rv) real1 zBuf iAmt iOfst)),
             fst (xWrite (pMethods rv) real1 zBuf iAmt iOfst))) /\
    (forall real1 size,
       fileTruncate a' st (with_pReal h1 real1) size
       = Ok (st, with_pReal h1 (snd (xTruncate (pMethods rv) real1 size)),
             fst (xTruncate (pMethods rv) real1 size))).
Proof.
  intros Hwf Hrv Hopen Hlook Hc.
  pose proof (trackingOpen_named a pVfs rv st fn h flags fl real Hwf Hrv Hopen)
    as Hrun.
  rewrite Hlook, Hc in Hrun. exists (opened_handle rv real None).
  split; [exact Hrun|]. split; [reflexivity|]. split.
  - intros real1 zBuf iAmt iOfst. unfold fileWrite, with_pReal, opened_handle.
    cbn [pReal pReal_methods pTracker base_pMethods].
    destruct (xWrite (pMethods rv) real1 zBuf iAmt iOfst) as [rc r].
    now rewrite andb_false_r.
  - intros real1 size. unfold fileTruncate, with_pReal, opened_handle.
    cbn [pReal pReal_methods pTracker base_pMethods].
    destruct (xTruncate (pMethods rv) real1 size) as [rc r].
    now rewrite andb_false_r.
Qed.

Lemma open_without_memory_is_untracked_witness :
  exists h1,
    trackingOpen alloc_no_calloc (trackingVfs world_memfs) state_db_01
      (Some "other.db"%string) blank_handle 6
    = Ok (state_db_01, h1, SQLITE_OK, 6) /\
    pTracker h1 = None /\
    (forall real1 zBuf iAmt iOfst,
       fileWrite alloc_ok state_db_01 (with_pReal h1 real1) zBuf iAmt iOfst
       = Ok (state_db_01,
             with_pReal h1 (snd (xWrite (pMethods memfs) real1 zBuf iAmt iOfst)),
             fst (xWrite (pMethods memfs) real1 zBuf iAmt iOfst))) /\
    (forall real1 size,
       fileTruncate alloc_ok state_db_01 (with_pReal h1 real1) size
       = Ok (state_db_01,
             with_pReal h1 (snd (xTruncate (pMethods memfs) real1 size)),
             fst (xTruncate (pMethods memfs) real1 size))).
Proof.
  apply (open_without_memory_is_untracked alloc_no_calloc alloc_ok
           (trackingVfs world_memfs) memfs state_db_01 "other.db" blank_handle
           6 6 0).
  - exact state_db_01_wf.
  - reflexivity.
  - reflexivity.
  - reflexivity.
  - reflexivity.
Defined.

(** ** The registry under sequences of calls *)

Lemma bind_Ok_inv {A B : Type} (m : outcome A) (k : A -> outcome B) (y : B) :
  bind m k = Ok y -> exists x, m = Ok x /\ k x = Ok y.
Proof. destruct m as [x| |]; cbn; [eauto|discriminate|discriminate]. Qed.

Lemma registry_evolves_trans {F : Type} (st st1 st2 : VfsTrackingState F) :
  registry_evolves st st1 -> registry_evolves st1 st2 -> registry_evolves st st2.
Proof.
  intros H1 H2. induction H2.
  - exact H1.
  - eapply evolves_update; eauto.
  - eapply evolves_push; eauto.
Qed.

Lemma evolves_update1 {F : Type} (st : VfsTrackingState F) (p : nat)
    (t t' : FileTracker) :
  deref st p = Some t -> filename t' = filename t -> pageSize t' = pageSize t ->
  registry_evolves st (store st p t').
Proof. intros. eapply evolves_update; eauto using evolves_refl. Qed.

Lemma get_file_evolves {F : Type} (a : Allocator) (st st1 : VfsTrackingState F)
    (name : option string) (r : option nat) :
  vfs_tracking_get_file a st name = Ok (st1, r) -> registry_evolves st st1.
Proof.
  intros H. destruct (get_file_cases _ _ _ _ _ H) as [[-> _]|(fn & _ & Hs & -> & _)].
  - apply evolves_refl.
  - apply evolves_push; [apply evolves_refl|exact Hs].
Qed.

Lemma mark_dirty_evolves {F : Type} (a : Allocator) (st st' : VfsTrackingState F)
    (tracker : option nat) (offset amount : Z) :
  vfs_tracking_mark_dirty a st tracker offset amount = Ok st' ->
  registry_evolves st st'.
Proof.
  intros H. destruct tracker as [p|]; [|injection H as <-; apply evolves_refl].
  destruct (deref st p) as [t|] eqn:Hd.
  - destruct (mark_dirty_state_cases _ _ _ _ _ _ _ Hd H)
      as [[_ ->]|(_ & t' & Ht' & ->)]; [apply evolves_refl|].
    destruct (mark_dirty_tracker_fields _ _ _ _ _ Ht') as (Hn & Hps & _).
    now apply (evolves_update1 st p t t').
  - unfold vfs_tracking_mark_dirty in H. rewrite Hd in H.
    destruct (amount <=? 0); [injection H as <-; apply evolves_refl|discriminate].
Qed.

Lemma reset_dirty_evolves {F : Type} (a : Allocator)
    (st st' : VfsTrackingState F) (name : option string) (rc : Z) :
  vfs_tracking_reset_dirty a st name = Ok (st', rc) -> registry_evolves st st'.
Proof.
  intros H. unfold vfs_tracking_reset_dirty in H.
  destruct name as [fn|]; [|injection H as <- _; apply evolves_refl].
  apply bind_Ok_inv in H. destruct H as ([st1 r] & Hg & H). cbn [fst snd] in H.
  pose proof (get_file_evolves _ _ _ _ _ Hg) as He.
  destruct r as [p|]; [|injection H as <- _; exact He].
  destruct (deref st1 p) as [t|] eqn:Hd; [|discriminate].
  destruct (dirtyBitmap t) as [ws|]; [|injection H as <- _; exact He].
  apply bind_Ok_inv in H. destruct H as (z & _ & H). injection H as <- _.
  now apply (evolves_update st st1 p t).
Qed.

Lemma get_dirty_pages_evolves {F : Type} (a : Allocator)
    (st st' : VfsTrackingState F) (name : option string)
    (pPageCount : option Z) (ppPages : option (option (list Z)))
    (out : Z * option Z * option (option (list Z))) :
  vfs_tracking_get_dirty_pages a st name pPageCount ppPages = Ok (st', out) ->
  registry_evolves st st'.
Proof.
  intros H. unfold vfs_tracking_get_dirty_pages in H.
  destruct name as [fn|]; [|injection H as <- _; apply evolves_refl].
  destruct pPageCount as [c|]; [|injection H as <- _; apply evolves_refl].
  destruct ppPages as [pg|]; [|injection H as <- _; apply evolves_refl].
  apply bind_Ok_inv in H. destruct H as ([st1 r] & Hg & H). cbn [fst snd] in H.
  pose proof (get_file_evolves _ _ _ _ _ Hg) as He.
  destruct r as [p|]; [|injection H as <- _; exact He].
  destruct (deref st1 p) as [t|]; [|discriminate].
  destruct (dirtyBitmap t); [|injection H as <- _; exact He].
  apply bind_Ok_inv in H. destruct H as (n & _ & H).
  destruct (n =? 0); [injection H as <- _; exact He|].
  destruct (malloc a n); [|injection H as <- _; exact He].
  apply bind_Ok_inv in H. destruct H as (f & _ & H). injection H as <- _.
  exact He.
Qed.

Lemma trackingOpen_evolves {F : Type} (a : Allocator) (pVfs : tracking_vfs F)
    (st st' : VfsTrackingState F) (zName : option string)
    (h h' : TrackingFile F) (flags rc fl : Z) :
  trackingOpen a pVfs st zName h flags = Ok (st', h', rc, fl) ->
  registry_evolves st st'.
Proof.
  intros H. destruct (trackingOpen_cases _ _ _ _ _ _ _ _ _ _ H)
    as [->|(st1 & r & Hg & _ & Hr)]; [apply evolves_refl|].
  pose proof (get_file_evolves _ _ _ _ _ Hg) as He.
  destruct r as [q|]; [|now subst].
  destruct Hr as (t & Hd & ->). now apply (evolves_update st st1 q t).
Qed.

Lemma fileClose_evolves {F : Type} (st st' : VfsTrackingState F)
    (h h' : TrackingFile F) (rc : Z) :
  fileClose st h = Ok (st', h', rc) -> registry_evolves st st'.
Proof.
  intros H. apply fileClose_cases in H.
  destruct (pTracker h) as [q|]; [|subst; apply evolves_refl].
  destruct H as (t & Hd & ->). now apply (evolves_update1 st q t).
Qed.

Lemma fileWrite_evolves {F : Type} (a : Allocator) (st st' : VfsTrackingState F)
    (h h' : TrackingFile F) (zBuf : list Z) (iAmt iOfst rc : Z) :
  fileWrite a st h zBuf iAmt iOfst = Ok (st', h', rc) -> registry_evolves st st'.
Proof.
  unfold fileWrite. destruct (xWrite _ _ _ _ _) as [rc0 real].
  destruct (_ && _); intros H; [|injection H as <- _ _; apply evolves_refl].
  apply bind_Ok_inv in H. destruct H as (st1 & Hm & H). injection H as <- _ _.
  eapply mark_dirty_evolves; eauto.
Qed.

Lemma fileTruncate_evolves {F : Type} (a : Allocator)
    (st st' : VfsTrackingState F) (h h' : TrackingFile F) (size rc : Z) :
  fileTruncate a st h size = Ok (st', h', rc) -> registry_evolves st st'.
Proof.
  unfold fileTruncate. destruct (xTruncate _ _ _) as [rc0 real].
  destruct (_ && _); intros H; [|injection H as <- _ _; apply evolves_refl].
  apply bind_Ok_inv in H. destruct H as (st1 & Hm & H). injection H as <- _ _.
  eapply mark_dirty_evolves; eauto.
Qed.

Lemma set_memory_cases {F : Type} (pr : Process F) (e : nat)
    (m : VfsTrackingState F) :
  (memory_of pr e = g_state (now pr) /\ set_memory pr e m = put_state pr m) \/
  (now (set_memory pr e m) = now pr /\ epoch (set_memory pr e m) = epoch pr).
Proof.
  unfold memory_of, set_memory. destruct (e =? epoch pr)%nat; [now left|].
  right. split; [reflexivity|]. unfold epoch. cbn [dropped].
  apply length_insert.
Qed.

(** A call through a pointer changes the registry only when the pointer is
    of the current epoch. *)
Lemma set_memory_current {F : Type} (P : VfsTrackingState F -> Prop)
    (pr : Process F) (e : nat) (m : VfsTrackingState F) :
  P (g_state (now pr)) -> (memory_of pr e = g_state (now pr) -> P m) ->
  P (g_state (now (set_memory pr e m))).
Proof.
  intros H0 Hm. destruct (set_memory_cases pr e m) as [[Hmem ->]|[-> _]];
    [apply Hm, Hmem|exact H0].
Qed.

Lemma set_memory_frame {F : Type} (pr : Process F) (e : nat)
    (m : VfsTrackingState F) :
  trackingVfs (now (set_memory pr e m)) = trackingVfs (now pr) /\
  epoch (set_memory pr e m) = epoch pr.
Proof.
  destruct (set_memory_cases pr e m) as [[_ ->]|[-> ->]]; split; reflexivity.
Qed.

Lemma set_memory_evolves {F : Type} (pr : Process F) (e : nat)
    (m : VfsTrackingState F) :
  registry_evolves (memory_of pr e) m ->
  registry_evolves (g_state (now pr)) (g_state (now (set_memory pr e m))) /\
  trackingVfs (now (set_memory pr e m)) = trackingVfs (now pr) /\
  epoch (set_memory pr e m) = epoch pr.
Proof.
  intros He. split; [|apply set_memory_frame].
  apply (set_memory_current (registry_evolves (g_state (now pr))));
    [apply evolves_refl|]. intros <-. exact He.
Qed.

(** Every call that is not init or shutdown evolves the registry and leaves
    the static [trackingVfs] and the epoch alone. *)
Lemma run_call_evolves {F : Type} (c : call F) (pr pr' : Process F) :
  keeps_registry c = true -> run_call c pr = Ok pr' ->
  registry_evolves (g_state (now pr)) (g_state (now pr')) /\
  trackingVfs (now pr') = trackingVfs (now pr) /\ epoch pr' = epoch pr.
Proof.
  intros Hk H. destruct c; try discriminate Hk; cbn [run_call] in H.
  - apply bind_Ok_inv in H. destruct H as ([st1 r] & Hr & H). injection H as <-.
    split; [|now split]. eapply get_file_evolves; eauto.
  - destruct tracker as [[e r]|]; apply bind_Ok_inv in H;
      destruct H as (m & Hr & H); injection H as <-.
    + apply set_memory_evolves. eapply mark_dirty_evolves; eauto.
    + split; [|now split]. eapply mark_dirty_evolves; eauto.
  - apply bind_Ok_inv in H. destruct H as ([st1 r] & Hr & H). injection H as <-.
    split; [|now split]. eapply get_dirty_pages_evolves; eauto.
  - apply bind_Ok_inv in H. destruct H as ([st1 r] & Hr & H). injection H as <-.
    split; [|now split]. eapply reset_dirty_evolves; eauto.
  - apply bind_Ok_inv in H. destruct H as ([[[st1 h1] rc] fl] & Hr & H).
    injection H as <-. split; [|now split]. eapply trackingOpen_evolves; eauto.
  - apply bind_Ok_inv in H. destruct H as ([[st1 h1] rc] & Hr & H).
    injection H as <-. apply set_memory_evolves. eapply fileClose_evolves; eauto.
  - apply bind_Ok_inv in H. destruct H as ([[st1 h1] rc] & Hr & H).
    injection H as <-. apply set_memory_evolves. eapply fileWrite_evolves; eauto.
  - apply bind_Ok_inv in H. destruct H as ([[st1 h1] rc] & Hr & H).
    injection H as <-. apply set_memory_evolves.
    eapply fileTruncate_evolves; eauto.
Qed.

Lemma search_None_fresh (l : list FileTracker) (n : string) :
  search l n = Ok None ->
  ~ In None (map filename l) /\ ~ In (Some n) (map filename l).
Proof.
  induction l as [|t l IH]; cbn [search map]; intros H.
  - split; intros [].
  - destruct (filename t) as [f|]; [|discriminate].
    destruct (String.eqb f n) eqn:E; [discriminate|].
    apply String.eqb_neq in E. destruct (IH H) as [H1 H2].
    split; intros [H0|H0]; try discriminate; try tauto. congruence.
Qed.

Lemma store_map_filename {F : Type} (st : VfsTrackingState F) (p : nat)
    (t t' : FileTracker) :
  deref st p = Some t -> filename t' = filename t ->
  map filename (files (store st p t')) = map filename (files st).
Proof. intros Hd Hn. exact (store_names st p t t' Hd Hn). Qed.

Lemma Forall_store {F : Type} (P : FileTracker -> Prop)
    (st : VfsTrackingState F) (p : nat) (t : FileTracker) :
  Forall P (files st) -> P t -> Forall P (files (store st p t)).
Proof.
  intros H Ht. cbn [store files]. apply Forall_rev, Forall_insert; [|exact Ht].
  now apply Forall_rev.
Qed.

Lemma deref_In {F : Type} (st : VfsTrackingState F) (p : nat) (t : FileTracker) :
  deref st p = Some t -> In t (files st).
Proof.
  unfold deref. intros H. apply in_rev, list_elem_of_In.
  eapply list_elem_of_lookup_2; eauto.
Qed.

Lemma registry_evolves_inv {F : Type} (st st' : VfsTrackingState F) :
  registry_evolves st st' ->
  pRealVfs st' = pRealVfs st /\ defaultPageSize st' = defaultPageSize st /\
  (names_unique st -> names_unique st') /\
  (sizes_uniform st -> sizes_uniform st') /\
  (length (files st) <= length (files st'))%nat /\
  forall q t, deref st q = Some t ->
    exists t', deref st' q = Some t' /\ filename t' = filename t /\
               pageSize t' = pageSize t.
Proof.
  induction 1 as [|st1 p t t' He IH Hd Hn Hps|st1 a n He IH Hs].
  - repeat split; auto. eauto.
  - destruct IH as (Hr & Hdp & Hu & Hz & Hl & Hfr).
    split; [exact Hr|]. split; [exact Hdp|]. split; [|split; [|split]].
    + intros H0. unfold names_unique. rewrite (store_map_filename st1 p t t' Hd Hn).
      now apply Hu.
    + intros H0. specialize (Hz H0). unfold sizes_uniform in *.
      change (defaultPageSize (store st1 p t')) with (defaultPageSize st1).
      apply Forall_store; [exact Hz|]. rewrite Hps.
      rewrite Forall_forall in Hz. apply Hz. rewrite list_elem_of_In.
      eapply deref_In; eauto.
    + now rewrite store_length.
    + intros q t0 Hq. destruct (Hfr q t0 Hq) as (t1 & Hq1 & Hn1 & Hp1).
      destruct (decide (p = q)) as [->|Hne].
      * exists t'. split; [apply deref_store_eq; eapply deref_valid; eauto|].
        rewrite Hd in Hq1. injection Hq1 as ->. split; congruence.
      * exists t1. now rewrite deref_store_ne.
  - destruct IH as (Hr & Hdp & Hu & Hz & Hl & Hfr).
    split; [exact Hr|]. split; [exact Hdp|]. split; [|split; [|split]].
    + intros H0. specialize (Hu H0). unfold names_unique in *.
      cbn [push_fresh files map filename]. apply NoDup_cons_2; [|exact Hu].
      rewrite list_elem_of_In. destruct (search_None_fresh _ _ Hs).
      now destruct (strdup_ok a).
    + intros H0. specialize (Hz H0). unfold sizes_uniform in *.
      cbn [push_fresh files defaultPageSize]. constructor; [reflexivity|exact Hz].
    + cbn [push_fresh files length]. lia.
    + intros q t0 Hq. destruct (Hfr q t0 Hq) as (t1 & Hq1 & Hn1 & Hp1).
      exists t1. split; [now apply deref_push_old|]. now split.
Qed.

Lemma init_registry_inv {F : Type} (sq : Sqlite F) (w : World F)
    (baseVfsName : option string) (pageSize : Z) :
  registry_inv w ->
  registry_inv (fst (vfs_tracking_init sq w baseVfsName pageSize)).
Proof.
  intros Hw. unfold vfs_tracking_init.
  destruct (pRealVfs (g_state w)); [exact Hw|].
  destruct (sqlite3_vfs_find sq baseVfsName) as [real|]; [|exact Hw].
  assert (Hps : 0 < (if 0 <? pageSize then pageSize else DEFAULT_PAGE_SIZE)).
  { destruct (0 <? pageSize) eqn:E; [lia|reflexivity]. }
  destruct (negb _); cbn [fst]; unfold registry_inv, names_unique, sizes_uniform;
    cbn [g_state trackingVfs files map defaultPageSize pRealVfs pAppData];
    (split; [constructor|]); (split; [constructor|]); (split; [lia|]);
    intros rv [= <-]; (split; [exact Hps|reflexivity]).
Qed.

Lemma shutdown_registry_inv {F : Type} (w : World F) :
  registry_inv w -> registry_inv (vfs_tracking_shutdown w).
Proof.
  intros (_ & _ & H0 & _). unfold registry_inv, names_unique, sizes_uniform.
  cbn. split; [constructor|]. split; [constructor|]. split; [exact H0|].
  discriminate.
Qed.

Lemma run_call_registry_inv {F : Type} (c : call F) (pr pr' : Process F) :
  registry_inv (now pr) -> run_call c pr = Ok pr' -> registry_inv (now pr').
Proof.
  intros Hw H. destruct (keeps_registry c) eqn:Hk.
  - destruct (run_call_evolves c pr pr' Hk H) as (He & Htv & _).
    destruct (registry_evolves_inv _ _ He) as (Hr & Hd & Hu & Hz & _).
    destruct Hw as (H1 & H2 & H3 & H4). unfold registry_inv.
    rewrite Hr, Hd, Htv. auto.
  - destruct c; try discriminate Hk; cbn [run_call] in H.
    + destruct (init_takes_effect _ _ _); injection H as <-;
        now apply init_registry_inv.
    + injection H as <-. now apply shutdown_registry_inv.
Qed.

Lemma run_calls_app {F : Type} (cs1 cs2 : list (call F)) (pr : Process F) :
  run_calls (cs1 ++ cs2) pr = (pr1 <- run_calls cs1 pr ;; run_calls cs2 pr1).
Proof.
  revert pr. induction cs1 as [|c cs1 IH]; intros pr; [reflexivity|].
  cbn [run_calls app]. destruct (run_call c pr); cbn [bind]; auto.
Qed.

Lemma world_init_registry_inv {F : Type} : registry_inv (@world_init F).
Proof.
  unfold registry_inv, names_unique, sizes_uniform. cbn.
  split; [constructor|]. split; [constructor|]. split; [lia|discriminate].
Qed.

Lemma run_calls_registry_inv {F : Type} (cs : list (call F))
    (pr pr' : Process F) :
  registry_inv (now pr) -> run_calls cs pr = Ok pr' -> registry_inv (now pr').
Proof.
  revert pr. induction cs as [|c cs IH]; intros pr Hw H; cbn [run_calls] in H.
  - now injection H as <-.
  - apply bind_Ok_inv in H. destruct H as (pr1 & H1 & H).
    eapply IH; [|exact H]. eapply run_call_registry_inv; eauto.
Qed.

Lemma names_unique_pointer {F : Type} (st : VfsTrackingState F) (p q : nat)
    (t1 t2 : FileTracker) :
  names_unique st -> deref st p = Some t1 -> deref st q = Some t2 ->
  filename t1 = filename t2 -> p = q.
Proof.
  unfold names_unique, deref. intros Hu Hp Hq Hn.
  rewrite (Permutation_rev (map filename (files st))), <- map_rev in Hu.
  apply (NoDup_lookup (map filename (rev (files st))) p q (filename t1) Hu).
  - change (map filename (rev (files st))) with (filename <$> rev (files st)).
    now rewrite list_lookup_fmap, Hp.
  - change (map filename (rev (files st))) with (filename <$> rev (files st)).
    now rewrite list_lookup_fmap, Hq, Hn.
Qed.

(** X12.  Invariants of the registry.  After any sequence of calls to the
    module from the initial state that returns, with any arguments, any
    allocation failures and any use of trackers of earlier lists: no two
    trackers of the registry have the same name, so a name leads to at most
    one of them; every tracker of the registry has the page size of the
    registry; and while the module is initialized that page size is
    positive and [trackingVfs.pAppData] is the real VFS. *)
Theorem registry_invariants {F : Type} (cs : list (call F)) (pr : Process F) :
  run_calls cs process_init = Ok pr ->
  registry_inv (now pr) /\
  (forall p q t1 t2,
     deref (g_state (now pr)) p = Some t1 ->
     deref (g_state (now pr)) q = Some t2 ->
     filename t1 = filename t2 -> p = q) /\
  (forall p t, deref (g_state (now pr)) p = Some t ->
               pageSize t = defaultPageSize (g_state (now pr))).
Proof.
  intros H.
  pose proof (run_calls_registry_inv cs process_init pr world_init_registry_inv H)
    as Hinv.
  split; [exact Hinv|]. destruct Hinv as (Hu & Hz & _). split.
  - intros p q t1 t2. now apply names_unique_pointer.
  - intros p t Hp. unfold sizes_uniform in Hz. rewrite Forall_forall in Hz.
    apply Hz. rewrite list_elem_of_In. eapply deref_In; eauto.
Qed.

Lemma registry_invariants_witness :
  exists pr,
    run_calls demo_session process_init = Ok pr /\
    registry_inv (now pr) /\
    (forall p q t1 t2,
       deref (g_state (now pr)) p = Some t1 ->
       deref (g_state (now pr)) q = Some t2 ->
       filename t1 = filename t2 -> p = q) /\
    (forall p t, deref (g_state (now pr)) p = Some t ->
                 pageSize t = defaultPageSize (g_state (now pr))).
Proof.
  eexists. split; [vm_compute; reflexivity|].
  apply (registry_invariants demo_session). vm_compute. reflexivity.
Defined.

Lemma run_calls_evolves {F : Type} (cs : list (call F)) (pr pr' : Process F) :
  Forall (fun c => keeps_registry c = true) cs -> run_calls cs pr = Ok pr' ->
  registry_evolves (g_state (now pr)) (g_state (now pr')) /\
  trackingVfs (now pr') = trackingVfs (now pr) /\ epoch pr' = epoch pr.
Proof.
  intros Hk. revert pr. induction Hk as [|c cs Hc _ IH]; intros pr H;
    cbn [run_calls] in H.
  - injection H as <-. split; [apply evolves_refl|now split].
  - apply bind_Ok_inv in H. destruct H as (pr1 & H1 & H).
    destruct (run_call_evolves c pr pr1 Hc H1) as (He1 & Hv1 & Hp1).
    destruct (IH pr1 H) as (He2 & Hv2 & Hp2). split; [|split; congruence].
    eapply registry_evolves_trans; eauto.
Qed.

(** X13.  Tracker pointers are stable.  Between initialization and
    shutdown no call removes, moves or renames a tracker: after any
    sequence of calls other than [vfs_tracking_init] and
    [vfs_tracking_shutdown] that returns, a pointer that referred to a
    tracker of the registry still refers to a tracker of the same name and
    page size, so the [pTracker] of an open handle stays valid; the real
    VFS, the default page size, [trackingVfs] and the epoch are unchanged. *)
Theorem tracker_pointers_stable {F : Type} (cs : list (call F))
    (pr pr' : Process F) :
  Forall (fun c => keeps_registry c = true) cs -> run_calls cs pr = Ok pr' ->
  (forall q t, deref (g_state (now pr)) q = Some t ->
     exists t', deref (g_state (now pr')) q = Some t' /\
                filename t' = filename t /\ pageSize t' = pageSize t) /\
  (length (files (g_state (now pr))) <= length (files (g_state (now pr'))))%nat /\
  pRealVfs (g_state (now pr')) = pRealVfs (g_state (now pr)) /\
  defaultPageSize (g_state (now pr')) = defaultPageSize (g_state (now pr)) /\
  trackingVfs (now pr') = trackingVfs (now pr) /\
  epoch pr' = epoch pr.
Proof.
  intros Hk H. destruct (run_calls_evolves cs pr pr' Hk H) as (He & Hv & Hp).
  destruct (registry_evolves_inv _ _ He) as (Hr & Hd & _ & _ & Hl & Hfr).
  auto 7.
Qed.

Lemma tracker_pointers_stable_witness :
  exists pr',
    run_calls demo_tail process_memfs = Ok pr' /\
    (forall q t, deref (g_state (now process_memfs)) q = Some t ->
       exists t', deref (g_state (now pr')) q = Some t' /\
                  filename t' = filename t /\ pageSize t' = pageSize t) /\
    (length (files (g_state (now process_memfs)))
     <= length (files (g_state (now pr'))))%nat /\
    pRealVfs (g_state (now pr')) = pRealVfs (g_state (now process_memfs)) /\
    defaultPageSize (g_state (now pr'))
      = defaultPageSize (g_state (now process_memfs)) /\
    trackingVfs (now pr') = trackingVfs (now process_memfs) /\
    epoch pr' = epoch process_memfs.
Proof.
  eexists. split; [vm_compute; reflexivity|].
  apply (tracker_pointers_stable demo_tail process_memfs).
  - repeat constructor.
  - vm_compute. reflexivity.
Defined.

Lemma state_wf_mark_dirty_returns {F : Type} (a : Allocator)
    (st st' : VfsTrackingState F) (tracker : option nat) (offset amount : Z) :
  state_wf st -> sizes_uniform st -> 0 <= defaultPageSize st ->
  0 <= offset -> amount <= INT_MAX ->
  vfs_tracking_mark_dirty a st tracker offset amount = Ok st' -> state_wf st'.
Proof.
  intros Hwf Hz Hdp Ho Ha Hrun.
  destruct tracker as [p|]; [|now injection Hrun as <-].
  destruct (deref st p) as [t|] eqn:Hp.
  - destruct (mark_dirty_state_cases _ _ _ _ _ _ _ Hp Hrun)
      as [[_ ->]|(Hpos & t' & Hmark & ->)]; [assumption|].
    destruct (state_wf_deref _ _ _ Hwf Hp) as [Hn Ht].
    destruct (mark_dirty_tracker_fields _ _ _ _ _ Hmark) as (Hf & _).
    apply state_wf_store; [assumption | congruence |].
    apply (mark_dirty_tracker_wf a t t' offset amount); auto.
    unfold sizes_uniform in Hz. rewrite Forall_forall in Hz.
    rewrite (Hz t); [exact Hdp|]. rewrite list_elem_of_In.
    eapply deref_In; eauto.
  - unfold vfs_tracking_mark_dirty in Hrun. rewrite Hp in Hrun.
    destruct (amount <=? 0); [now injection Hrun as <-|discriminate].
Qed.

Lemma state_wf_reset_returns {F : Type} (a : Allocator)
    (st st' : VfsTrackingState F) (name : option string) (rc : Z) :
  state_wf st -> strdup_ok a = true ->
  vfs_tracking_reset_dirty a st name = Ok (st', rc) -> state_wf st'.
Proof.
  intros Hwf Hs H. destruct name as [fn|]; [|now injection H as <- _].
  destruct (state_wf_reset_dirty a st fn Hwf Hs) as (st1 & H1 & Hwf1).
  rewrite H1 in H. now injection H as <- _.
Qed.

Lemma state_wf_get_dirty_pages {F : Type} (a : Allocator)
    (st st' : VfsTrackingState F) (name : option string)
    (pPageCount : option Z) (ppPages : option (option (list Z)))
    (out : Z * option Z * option (option (list Z))) :
  state_wf st -> strdup_ok a = true ->
  vfs_tracking_get_dirty_pages a st name pPageCount ppPages = Ok (st', out) ->
  state_wf st'.
Proof.
  intros Hwf Hs H. unfold vfs_tracking_get_dirty_pages in H.
  destruct name as [fn|]; [|now injection H as <- _].
  destruct pPageCount as [c|]; [|now injection H as <- _].
  destruct ppPages as [pg|]; [|now injection H as <- _].
  apply bind_Ok_inv in H. destruct H as ([st1 r] & Hg & H). cbn [fst snd] in H.
  pose proof (state_wf_get_file _ _ _ _ _ Hwf Hs Hg) as He.
  destruct r as [p|]; [|injection H as <- _; exact He].
  destruct (deref st1 p) as [t|]; [|discriminate].
  destruct (dirtyBitmap t); [|injection H as <- _; exact He].
  apply bind_Ok_inv in H. destruct H as (n & _ & H).
  destruct (n =? 0); [injection H as <- _; exact He|].
  destruct (malloc a n); [|injection H as <- _; exact He].
  apply bind_Ok_inv in H. destruct H as (f & _ & H). injection H as <- _.
  exact He.
Qed.

Lemma run_call_state_wf {F : Type} (c : call F) (pr pr' : Process F) :
  well_behaved c = true -> registry_inv (now pr) -> state_wf (g_state (now pr)) ->
  run_call c pr = Ok pr' -> state_wf (g_state (now pr')).
Proof.
  intros Hb (_ & Hz & Hdp & _) Hwf H.
  destruct c; cbn [run_call well_behaved] in H, Hb.
  - destruct (init_takes_effect _ _ _); injection H as <-;
      now apply state_wf_init.
  - injection H as <-. constructor.
  - apply bind_Ok_inv in H. destruct H as ([st1 r] & Hr & H). injection H as <-.
    eapply state_wf_get_file; eauto.
  - apply andb_true_iff in Hb. destruct Hb as [Ho Ha].
    apply Z.leb_le in Ho, Ha.
    destruct tracker as [[e r]|]; apply bind_Ok_inv in H;
      destruct H as (m & Hr & H); injection H as <-.
    + apply (set_memory_current state_wf); [exact Hwf|]. intros Hmem.
      rewrite Hmem in Hr.
      exact (state_wf_mark_dirty_returns a _ _ (Some r) offset amount
               Hwf Hz Hdp Ho Ha Hr).
    + exact (state_wf_mark_dirty_returns a _ _ None offset amount
               Hwf Hz Hdp Ho Ha Hr).
  - apply bind_Ok_inv in H. destruct H as ([st1 r] & Hr & H). injection H as <-.
    eapply state_wf_get_dirty_pages; eauto.
  - apply bind_Ok_inv in H. destruct H as ([st1 r] & Hr & H). injection H as <-.
    eapply state_wf_reset_returns; eauto.
  - apply bind_Ok_inv in H. destruct H as ([[[st1 h1] rc] fl] & Hr & H).
    injection H as <-. eapply state_wf_trackingOpen; eauto.
  - apply bind_Ok_inv in H. destruct H as ([[st1 h1] rc] & Hr & H).
    injection H as <-. apply (set_memory_current state_wf); [exact Hwf|].
    intros Hmem. rewrite Hmem in Hr. eapply state_wf_fileClose; eauto.
  - apply bind_Ok_inv in H. destruct H as ([[st1 h1] rc] & Hr & H).
    injection H as <-. apply (set_memory_current state_wf); [exact Hwf|].
    intros Hmem. rewrite Hmem in Hr. cbn [fst].
    apply andb_true_iff in Hb. destruct Hb as [Ho Ha].
    unfold fileWrite in Hr. destruct (xWrite _ _ _ _ _) as [rc0 real].
    destruct (_ && _); [|now injection Hr as <- _ _].
    apply bind_Ok_inv in Hr. destruct Hr as (st2 & Hm & Hr).
    injection Hr as <- _ _. apply Z.leb_le in Ho, Ha.
    exact (state_wf_mark_dirty_returns a _ _ (pTracker p) iOfst iAmt
             Hwf Hz Hdp Ho Ha Hm).
  - apply bind_Ok_inv in H. destruct H as ([[st1 h1] rc] & Hr & H).
    injection H as <-. apply (set_memory_current state_wf); [exact Hwf|].
    intros Hmem. rewrite Hmem in Hr. cbn [fst].
    unfold fileTruncate in Hr. destruct (xTruncate _ _ _) as [rc0 real].
    destruct (_ && _); [|now injection Hr as <- _ _].
    apply bind_Ok_inv in Hr. destruct Hr as (st2 & Hm & Hr).
    injection Hr as <- _ _. apply Z.leb_le in Hb.
    refine (state_wf_mark_dirty_returns a _ _ (pTracker p) size 1
              Hwf Hz Hdp Hb _ Hm).
    unfold INT_MAX. lia.
Qed.

Lemma run_calls_state_wf {F : Type} (cs : list (call F)) (pr pr' : Process F) :
  Forall (fun c => well_behaved c = true) cs ->
  registry_inv (now pr) -> state_wf (g_state (now pr)) ->
  run_calls cs pr = Ok pr' -> state_wf (g_state (now pr')).
Proof.
  intros Hb. revert pr. induction Hb as [|c cs Hc _ IH]; intros pr Hinv Hwf H;
    cbn [run_calls] in H.
  - now injection H as <-.
  - apply bind_Ok_inv in H. destruct H as (pr1 & H1 & H).
    apply (IH pr1); [| |exact H].
    + eapply run_call_registry_inv; eauto.
    + eapply run_call_state_wf; eauto.
Qed.

(** X14.  The bitmap invariant holds for every client that keeps to the
    types.  After any sequence of calls from the initial state that
    returns, in which file offsets are non-negative, amounts are [int]s and
    [strdup] did not fail, every tracker of the registry has a name and a
    bitmap that covers [totalPages] with no bit set beyond it; a query for
    any file then returns, so it neither reads outside the bitmap nor loops
    forever. *)
Theorem well_behaved_clients_keep_bitmaps_valid {F : Type}
    (cs : list (call F)) (pr : Process F) :
  Forall (fun c => well_behaved c = true) cs ->
  run_calls cs process_init = Ok pr ->
  state_wf (g_state (now pr)) /\
  forall a fn count0 pages0,
    exists st1,
      vfs_tracking_get_dirty_pages a (g_state (now pr)) (Some fn) (Some count0)
        (Some pages0)
      = Ok (st1, dirty_pages_answer a (dirty_pages_of (g_state (now pr)) fn)
                   count0 pages0).
Proof.
  intros Hb H.
  assert (Hwf : state_wf (g_state (now pr))).
  { apply (run_calls_state_wf cs process_init pr Hb world_init_registry_inv);
      [constructor|exact H]. }
  split; [exact Hwf|]. intros a fn count0 pages0.
  destruct (get_dirty_pages_run a (g_state (now pr)) fn count0 pages0 Hwf)
    as (st1 & Hq & _).
  eauto.
Qed.

Lemma well_behaved_clients_keep_bitmaps_valid_witness :
  exists pr,
    run_calls demo_session process_init = Ok pr /\
    state_wf (g_state (now pr)) /\
    forall a fn count0 pages0,
      exists st1,
        vfs_tracking_get_dirty_pages a (g_state (now pr)) (Some fn)
          (Some count0) (Some pages0)
        = Ok (st1, dirty_pages_answer a (dirty_pages_of (g_state (now pr)) fn)
                     count0 pages0).
Proof.
  eexists. split; [vm_compute; reflexivity|].
  apply (well_behaved_clients_keep_bitmaps_valid demo_session).
  - repeat constructor.
  - vm_compute. reflexivity.
Defined.

(** The trackers of [demo_session] at its end: the mark through the old
    address reached the tracker that the second initialization leaked, and
    the tracker created after it is clean. *)
Example demo_session_marks_the_leaked_tracker :
  exists pr,
    run_calls demo_session process_init = Ok pr /\
    files (g_state (now pr))
      = [mkFileTracker (Some "b.db"%string) None 0 0 1024 0] /\
    dropped pr
      = [[]; [];
         [mkFileTracker (Some "late.db"%string) (Some [1]) 1 1 4096 0]] /\
    run_call (call_mark_dirty alloc_ok (Some (1%nat, 0%nat)) 0 1) pr = Undefined.
Proof.
  eexists. split; [vm_compute; reflexivity|]. repeat split.
Qed.

(** ** Initialization and shutdown *)

(** X15.  What [vfs_tracking_init] leaves behind.  When the module is not
    initialized and the base VFS is found, the registry is set up before
    the registration with SQLite is attempted: whatever the registration
    answers, and it is what the call returns, the real VFS is recorded,
    trackers created earlier are dropped, and the page size is the
    argument, or 4096 for 0.  So after a failed registration every further
    [vfs_tracking_init] returns [SQLITE_OK] without registering anything,
    until [vfs_tracking_shutdown] is called. *)
Theorem init_sets_up_before_registering {F : Type} (sq : Sqlite F) (w : World F)
    (baseVfsName : option string) (pageSize : Z) (real : sqlite3_vfs F) :
  pRealVfs (g_state w) = None -> sqlite3_vfs_find sq baseVfsName = Some real ->
  let w1 := fst (vfs_tracking_init sq w baseVfsName pageSize) in
  snd (vfs_tracking_init sq w baseVfsName pageSize) = sqlite3_vfs_register sq /\
  pRealVfs (g_state w1) = Some real /\
  (forall p, deref (g_state w1) p = None) /\
  (0 < pageSize -> defaultPageSize (g_state w1) = pageSize) /\
  (pageSize <= 0 -> defaultPageSize (g_state w1) = DEFAULT_PAGE_SIZE) /\
  pAppData (trackingVfs w1) = Some real /\
  (forall sq2 name2 pageSize2,
     vfs_tracking_init sq2 w1 name2 pageSize2 = (w1, SQLITE_OK)) /\
  (forall sq2 name2 pageSize2,
     sqlite3_vfs_find sq2 name2 = None ->
     vfs_tracking_init sq2 (vfs_tracking_shutdown w1) name2 pageSize2
     = (vfs_tracking_shutdown w1, SQLITE_ERROR)).
Proof.
  intros Hn Hf. unfold vfs_tracking_init at 1 2. rewrite Hn, Hf.
  assert (Hw1 : forall rc : Z,
            fst (if negb (rc =? SQLITE_OK)
                 then (mkWorld (mkState [] (Some real)
                         (if 0 <? pageSize then pageSize else DEFAULT_PAGE_SIZE))
                         (mk_tracking_vfs (sizeof_TrackingFile sq + szOsFile real)
                            (mxPathname real) (Some real)), rc)
                 else (mkWorld (mkState [] (Some real)
                         (if 0 <? pageSize then pageSize else DEFAULT_PAGE_SIZE))
                         (mk_tracking_vfs (sizeof_TrackingFile sq + szOsFile real)
                            (mxPathname real) (Some real)), SQLITE_OK))
            = mkWorld (mkState [] (Some real)
                         (if 0 <? pageSize then pageSize else DEFAULT_PAGE_SIZE))
                (mk_tracking_vfs (sizeof_TrackingFile sq + szOsFile real)
                   (mxPathname real) (Some real))).
  { intros rc. now destruct (negb _). }
  cbv zeta. rewrite Hw1. cbn [g_state trackingVfs pRealVfs files defaultPageSize
                              pAppData].
  split.
  { destruct (sqlite3_vfs_register sq =? SQLITE_OK) eqn:E; cbn [negb snd];
      [apply Z.eqb_eq in E; congruence|reflexivity]. }
  split; [reflexivity|]. split; [intros p; now destruct p|].
  split; [intros Hp; apply Z.ltb_lt in Hp; now rewrite Hp|].
  split; [intros Hp; destruct (0 <? pageSize) eqn:E;
          [apply Z.ltb_lt in E; lia|reflexivity]|].
  split; [reflexivity|]. split; [reflexivity|].
  intros sq2 name2 pageSize2 Hf2. unfold vfs_tracking_init.
  cbn [vfs_tracking_shutdown g_state pRealVfs]. now rewrite Hf2.
Qed.

Lemma init_sets_up_before_registering_witness :
  let w1 := fst (vfs_tracking_init sqlite_noreg world_init (Some "memfs"%string) 0) in
  snd (vfs_tracking_init sqlite_noreg world_init (Some "memfs"%string) 0)
    = sqlite3_vfs_register sqlite_noreg /\
  pRealVfs (g_state w1) = Some memfs /\
  (forall p, deref (g_state w1) p = None) /\
  (0 < 0 -> defaultPageSize (g_state w1) = 0) /\
  (0 <= 0 -> defaultPageSize (g_state w1) = DEFAULT_PAGE_SIZE) /\
  pAppData (trackingVfs w1) = Some memfs /\
  (forall sq2 name2 pageSize2,
     vfs_tracking_init sq2 w1 name2 pageSize2 = (w1, SQLITE_OK)) /\
  (forall sq2 name2 pageSize2,
     sqlite3_vfs_find sq2 name2 = None ->
     vfs_tracking_init sq2 (vfs_tracking_shutdown w1) name2 pageSize2
     = (vfs_tracking_shutdown w1, SQLITE_ERROR)).
Proof.
  apply (init_sets_up_before_registering sqlite_noreg world_init
           (Some "memfs"%string) 0 memfs); reflexivity.
Defined.

Lemma deref_empty {F : Type} (st : VfsTrackingState F) (p : nat) :
  files st = [] -> deref st p = None.
Proof. unfold deref. intros ->. now destruct p. Qed.

Lemma mark_dirty_dangling {F : Type} (a : Allocator) (st : VfsTrackingState F)
    (p : nat) (offset amount : Z) :
  deref st p = None -> 0 < amount ->
  vfs_tracking_mark_dirty a st (Some p) offset amount = Undefined.
Proof.
  intros Hd Ha. unfold vfs_tracking_mark_dirty. rewrite Hd.
  destruct (amount <=? 0) eqn:E; [apply Z.leb_le in E; lia|reflexivity].
Qed.

(** X16.  [vfs_tracking_shutdown] frees every tracker of the registry,
    also of files that are still open.  Afterwards the registry is empty
    and uninitialized, with the default page size and [trackingVfs] as they
    were, and a second shutdown changes nothing.  A handle whose tracker
    was in the registry keeps its [pTracker], which now dangles: closing
    it, writing through it or truncating it (where the real method reports
    success) is undefined behaviour.  A query for any file returns no dirty
    pages. *)
Theorem shutdown_frees_trackers_of_open_files {F : Type} (w : World F) :
  let w' := vfs_tracking_shutdown w in
  files (g_state w') = [] /\ pRealVfs (g_state w') = None /\
  defaultPageSize (g_state w') = defaultPageSize (g_state w) /\
  trackingVfs w' = trackingVfs w /\
  vfs_tracking_shutdown w' = w' /\
  (forall (h : TrackingFile F) p t,
     pTracker h = Some p -> deref (g_state w) p = Some t ->
     fileClose (g_state w') h = Undefined /\
     (forall a zBuf iAmt iOfst,
        fst (xWrite (pReal_methods h) (pReal h) zBuf iAmt iOfst) = SQLITE_OK ->
        0 < iAmt ->
        fileWrite a (g_state w') h zBuf iAmt iOfst = Undefined) /\
     (forall a size,
        fst (xTruncate (pReal_methods h) (pReal h) size) = SQLITE_OK ->
        fileTruncate a (g_state w') h size = Undefined)) /\
  (forall a fn count0 pages0,
     exists st1,
       vfs_tracking_get_dirty_pages a (g_state w') (Some fn) (Some count0)
         (Some pages0)
       = Ok (st1, (SQLITE_OK, Some 0, Some None))).
Proof.
  cbv zeta. split; [reflexivity|]. split; [reflexivity|]. split; [reflexivity|].
  split; [reflexivity|]. split; [reflexivity|]. split.
  - intros h p t Hp _. split; [|split].
    + unfold fileClose. destruct (xClose _ _) as [rc real]. now rewrite Hp.
    + intros a zBuf iAmt iOfst Hrc Ha. unfold fileWrite.
      destruct (xWrite _ _ _ _ _) as [rc real]. cbn [fst] in Hrc. subst rc.
      rewrite Hp. cbn [Z.eqb SQLITE_OK andb].
      rewrite bool_decide_eq_true_2 by discriminate.
      rewrite (mark_dirty_dangling a _ p iOfst iAmt); [reflexivity| |exact Ha].
      now apply deref_empty.
    + intros a size Hrc. unfold fileTruncate.
      destruct (xTruncate _ _ _) as [rc real]. cbn [fst] in Hrc. subst rc.
      rewrite Hp. cbn [Z.eqb SQLITE_OK andb].
      rewrite bool_decide_eq_true_2 by discriminate.
      rewrite (mark_dirty_dangling a _ p size 1); [reflexivity| |lia].
      now apply deref_empty.
  - intros a fn count0 pages0.
    assert (Hwf : state_wf (g_state (vfs_tracking_shutdown w))) by constructor.
    destruct (get_dirty_pages_run a _ fn count0 pages0 Hwf) as (st1 & Hq & _).
    exists st1. rewrite Hq. reflexivity.
Qed.

Lemma shutdown_frees_trackers_of_open_files_witness :
  let w' := vfs_tracking_shutdown (mkWorld state_db_01 (trackingVfs world_memfs)) in
  deref state_db_01 0%nat = Some tracker_db_01 /\
  files (g_state w') = [] /\ pRealVfs (g_state w') = None /\
  defaultPageSize (g_state w') = 4096 /\
  trackingVfs w' = trackingVfs world_memfs /\
  vfs_tracking_shutdown w' = w' /\
  (forall (h : TrackingFile Z) p t,
     pTracker h = Some p -> deref state_db_01 p = Some t ->
     fileClose (g_state w') h = Undefined /\
     (forall a zBuf iAmt iOfst,
        fst (xWrite (pReal_methods h) (pReal h) zBuf iAmt iOfst) = SQLITE_OK ->
        0 < iAmt ->
        fileWrite a (g_state w') h zBuf iAmt iOfst = Undefined) /\
     (forall a size,
        fst (xTruncate (pReal_methods h) (pReal h) size) = SQLITE_OK ->
        fileTruncate a (g_state w') h size = Undefined)) /\
  (forall a fn count0 pages0,
     exists st1,
       vfs_tracking_get_dirty_pages a (g_state w') (Some fn) (Some count0)
         (Some pages0)
       = Ok (st1, (SQLITE_OK, Some 0, Some None))).
Proof.
  split; [reflexivity|].
  exact (shutdown_frees_trackers_of_open_files
           (mkWorld state_db_01 (trackingVfs world_memfs))).
Defined.

Lemma run_calls_no_init {F : Type} (cs : list (call F)) (pr pr' : Process F) :
  Forall (fun c => is_init c = false) cs -> run_calls cs pr = Ok pr' ->
  defaultPageSize (g_state (now pr')) = defaultPageSize (g_state (now pr)).
Proof.
  intros Hk. revert pr. induction Hk as [|c cs Hc _ IH]; intros pr H;
    cbn [run_calls] in H.
  - now injection H as <-.
  - apply bind_Ok_inv in H. destruct H as (pr1 & H1 & H).
    rewrite (IH pr1 H). destruct (keeps_registry c) eqn:Hkr.
    + destruct (run_call_evolves c pr pr1 Hkr H1) as [He _].
      now destruct (registry_evolves_inv _ _ He) as (_ & Hd & _).
    + destruct c; try discriminate; cbn [run_call] in H1.
      now injection H1 as <-.
Qed.

(** X17.  Tracking before the first [vfs_tracking_init] divides by zero.
    As long as [vfs_tracking_init] has not been called, every tracker that
    the other functions create has page size 0, and marking a positive
    amount of bytes dirty on it is undefined behaviour. *)
Theorem tracking_before_init_divides_by_zero {F : Type} (cs : list (call F))
    (pr : Process F) (a : Allocator) (p : nat) (t : FileTracker)
    (offset amount : Z) :
  Forall (fun c => is_init c = false) cs -> run_calls cs process_init = Ok pr ->
  deref (g_state (now pr)) p = Some t -> 0 < amount ->
  pageSize t = 0 /\
  vfs_tracking_mark_dirty a (g_state (now pr)) (Some p) offset amount = Undefined.
Proof.
  intros Hk H Hp Ha.
  pose proof (run_calls_no_init cs process_init pr Hk H) as Hd.
  destruct (run_calls_registry_inv cs process_init pr world_init_registry_inv H)
    as (_ & Hz & _).
  assert (Hps : pageSize t = 0).
  { unfold sizes_uniform in Hz. rewrite Forall_forall in Hz.
    rewrite (Hz t); [exact Hd|]. rewrite list_elem_of_In. eapply deref_In; eauto. }
  split; [exact Hps|]. unfold vfs_tracking_mark_dirty. rewrite Hp.
  destruct (amount <=? 0) eqn:E; [apply Z.leb_le in E; lia|].
  unfold mark_dirty_tracker, startPage_of, div64. now rewrite Hps.
Qed.

Lemma tracking_before_init_divides_by_zero_witness :
  exists pr : Process Z,
    run_calls [call_get_file alloc_ok (Some "early.db"%string)] process_init
      = Ok pr /\
    deref (g_state (now pr)) 0%nat
      = Some (mkFileTracker (Some "early.db"%string) None 0 0 0 0) /\
    pageSize (mkFileTracker (Some "early.db"%string) None 0 0 0 0) = 0 /\
    vfs_tracking_mark_dirty alloc_ok (g_state (now pr)) (Some 0%nat) 0 1
      = Undefined.
Proof.
  eexists. split; [vm_compute; reflexivity|]. split; [reflexivity|].
  apply (tracking_before_init_divides_by_zero (F := Z)
           [call_get_file alloc_ok (Some "early.db"%string)] _ alloc_ok 0%nat
           (mkFileTracker (Some "early.db"%string) None 0 0 0 0) 0 1).
  - repeat constructor.
  - vm_compute. reflexivity.
  - reflexivity.
  - lia.
Defined.

(** X18.  An unchecked [strdup].  When a tracker is created and [strdup]
    fails, the tracker is linked in front without a name.  From then on
    every lookup by name compares against the NULL name first: any
    [vfs_tracking_get_file], query, reset or successful open with a
    non-NULL file name is undefined behaviour. *)
Theorem failed_strdup_breaks_every_lookup {F : Type} (a : Allocator)
    (st : VfsTrackingState F) (fn : string) :
  search (files st) (normalize fn) = Ok None ->
  calloc_ok a = true -> strdup_ok a = false ->
  exists st1 p t,
    vfs_tracking_get_file a st (Some fn) = Ok (st1, Some p) /\
    deref st1 p = Some t /\ filename t = None /\
    forall a' fn',
      vfs_tracking_get_file a' st1 (Some fn') = Undefined /\
      (forall count0 pages0,
         vfs_tracking_get_dirty_pages a' st1 (Some fn') (Some count0)
           (Some pages0) = Undefined) /\
      vfs_tracking_reset_dirty a' st1 (Some fn') = Undefined /\
      (forall pVfs rv h flags,
         pAppData pVfs = Some rv ->
         fst (fst (xOpen rv (Some fn') flags)) = SQLITE_OK ->
         trackingOpen a' pVfs st1 (Some fn') h flags = Undefined).
Proof.
  intros Hs Hc Hd.
  exists (push_fresh a st (normalize fn)), (length (files st)),
    (mkFileTracker None None 0 0 (defaultPageSize st) 0).
  split.
  { unfold vfs_tracking_get_file. rewrite Hs, bind_Ok, Hc, Hd.
    unfold push_fresh, fresh_tracker. now rewrite Hd. }
  split; [rewrite deref_push_new; now rewrite Hd|]. split; [reflexivity|].
  intros a' fn'.
  assert (Hg : vfs_tracking_get_file a' (push_fresh a st (normalize fn)) (Some fn')
               = Undefined).
  { unfold vfs_tracking_get_file, push_fresh. cbn [files search filename].
    now rewrite Hd. }
  split; [exact Hg|]. split; [|split].
  - intros count0 pages0. unfold vfs_tracking_get_dirty_pages. now rewrite Hg.
  - unfold vfs_tracking_reset_dirty. now rewrite Hg.
  - intros pVfs rv h flags Hrv Hrc. unfold trackingOpen. rewrite Hrv.
    destruct (xOpen rv (Some fn') flags) as [[rc real] fl]. cbn [fst] in Hrc.
    subst rc. cbn [Z.eqb SQLITE_OK]. now rewrite Hg.
Qed.

Lemma failed_strdup_breaks_every_lookup_witness :
  exists st1 p t,
    vfs_tracking_get_file alloc_no_strdup state_db_01 (Some "other.db"%string)
      = Ok (st1, Some p) /\
    deref st1 p = Some t /\ filename t = None /\
    forall a' fn',
      vfs_tracking_get_file a' st1 (Some fn') = Undefined /\
      (forall count0 pages0,
         vfs_tracking_get_dirty_pages a' st1 (Some fn') (Some count0)
           (Some pages0) = Undefined) /\
      vfs_tracking_reset_dirty a' st1 (Some fn') = Undefined /\
      (forall pVfs rv h flags,
         pAppData pVfs = Some rv ->
         fst (fst (xOpen rv (Some fn') flags)) = SQLITE_OK ->
         trackingOpen a' pVfs st1 (Some fn') h flags = Undefined).
Proof.
  apply (failed_strdup_breaks_every_lookup alloc_no_strdup state_db_01 "other.db");
    reflexivity.
Defined.

(** ** A synchronization cycle *)

Lemma dirty_clear_bits (t : FileTracker) (i : Z) : dirty (clear_bits t) i = false.
Proof. unfold dirty. rewrite clear_bits_unset. now destruct (_ && _). Qed.

(** X19.  A synchronization cycle.  After [vfs_tracking_reset_dirty] for
    a tracked file, a write of a byte range that the page arithmetic can
    represent, and a query, the query reports exactly the pages that the
    write touched, in ascending order: nothing from before the reset
    remains and nothing of the write is missed. *)
Theorem sync_cycle_reports_writes_since_reset {F : Type}
    (a0 a1 a a' : Allocator) (st : VfsTrackingState F) (fn : string)
    (t : FileTracker) (offset amount count0 : Z) (pages0 : option (list Z)) :
  state_wf st -> lookup_tracker st fn = Some t ->
  mark_in_range t offset amount -> realloc_ok a = true ->
  exists p st1 st2 pages,
    vfs_tracking_reset_dirty a0 st (Some fn) = Ok (st1, SQLITE_OK) /\
    vfs_tracking_get_file a1 st1 (Some fn) = Ok (st1, Some p) /\
    vfs_tracking_mark_dirty a st1 (Some p) offset amount = Ok st2 /\
    vfs_tracking_get_dirty_pages a' st2 (Some fn) (Some count0) (Some pages0)
    = Ok (st2, dirty_pages_answer a' pages count0 pages0) /\
    pages <> [] /\ StronglySorted Z.lt pages /\
    forall i, In i pages <->
              offset / pageSize t <= i <= (offset + amount - 1) / pageSize t.
Proof.
  intros Hwf Hlook Hr Hre.
  pose proof (reset_dirty_run a0 st fn Hwf) as Hreset. rewrite Hlook in Hreset.
  destruct Hreset as (p & Hp & Hs & Hreset).
  destruct (state_wf_deref _ _ _ Hwf Hp) as [Hn Ht].
  set (st1 := store st p (clear_bits t)) in *.
  assert (Hwf1 : state_wf st1)
    by (apply state_wf_store; [assumption|exact Hn|now apply clear_bits_wf]).
  destruct (lookup_tracker_store st fn p t (clear_bits t) Hp eq_refl Hs)
    as [Hs1 Hlook1]. fold st1 in Hs1, Hlook1.
  assert (Hp1 : deref st1 p = Some (clear_bits t))
    by (apply deref_store_eq; eapply deref_valid; eauto).
  destruct (mark_dirty_run_full a st1 p (clear_bits t) offset amount Hp1
              (clear_bits_wf t Ht) Hr Hre)
    as (t' & Hmark & Hp2 & Ht' & Hn' & _ & _ & Hdirty).
  set (st2 := store st1 p t') in *.
  assert (Hwf2 : state_wf st2)
    by (apply state_wf_store; [assumption|rewrite Hn'; exact Hn|assumption]).
  destruct (lookup_tracker_store st1 fn p (clear_bits t) t' Hp1 Hn' Hs1)
    as [_ Hlook2]. fold st2 in Hlook2.
  destruct (get_dirty_pages_run a' st2 fn count0 pages0 Hwf2) as (st3 & Hq & Hst3).
  rewrite Hlook2 in Hst3. subst st3.
  assert (Hpages : dirty_pages_of st2 fn = enumerateDirty t')
    by (unfold dirty_pages_of; now rewrite Hlook2).
  rewrite Hpages in Hq.
  assert (Hin : forall i, In i (enumerateDirty t') <->
            offset / pageSize t <= i <= (offset + amount - 1) / pageSize t).
  { intros i. rewrite enumerateDirty_In, Hdirty, dirty_clear_bits.
    cbn [orb pageSize clear_bits]. unfold in_marked_range.
    rewrite andb_true_iff, Z.leb_le, Z.leb_le. tauto. }
  exists p, st1, st2, (enumerateDirty t').
  split; [exact Hreset|]. split.
  { unfold vfs_tracking_get_file. now rewrite Hs1. }
  split; [exact Hmark|]. split; [exact Hq|]. split; [|split].
  - intros Hnil. destruct Hr as (Hps & Ho & Ha & _).
    assert (Hle : offset / pageSize t <= (offset + amount - 1) / pageSize t)
      by (apply Z.div_le_mono; lia).
    pose proof (proj2 (Hin (offset / pageSize t)) ltac:(lia)) as Habs.
    rewrite Hnil in Habs. destruct Habs.
  - apply enumerateDirty_sorted.
  - exact Hin.
Qed.

Lemma sync_cycle_reports_writes_since_reset_witness :
  exists p st1 st2 pages,
    vfs_tracking_reset_dirty alloc_fail state_db_01 (Some "/db.sqlite"%string)
      = Ok (st1, SQLITE_OK) /\
    vfs_tracking_get_file alloc_fail st1 (Some "/db.sqlite"%string)
      = Ok (st1, Some p) /\
    vfs_tracking_mark_dirty alloc_ok st1 (Some p) 40960 4097 = Ok st2 /\
    vfs_tracking_get_dirty_pages alloc_ok st2 (Some "/db.sqlite"%string)
      (Some 0) (Some None)
    = Ok (st2, dirty_pages_answer alloc_ok pages 0 None) /\
    pages <> [] /\ StronglySorted Z.lt pages /\
    forall i, In i pages <->
              40960 / pageSize tracker_db_01 <= i
              <= (40960 + 4097 - 1) / pageSize tracker_db_01.
Proof.
  apply (sync_cycle_reports_writes_since_reset alloc_fail alloc_fail alloc_ok
           alloc_ok state_db_01 "/db.sqlite" tracker_db_01 40960 4097 0 None).
  - exact state_db_01_wf.
  - reflexivity.
  - unfold mark_in_range. vm_compute. repeat split; discriminate.
  - reflexivity.
Defined.

(** ** The bitmap words *)

Lemma for_u32_invariant {S : Type} (P : S -> Prop) (cond : Z -> bool)
    (body : Z -> S -> outcome S) (fuel : nat) (i : Z) (s s' : S) :
  (forall j x y, P x -> body j x = Ok y -> P y) -> P s ->
  for_u32 fuel i cond body s = Ok s' -> P s'.
Proof.
  intros Hbody. revert i s. induction fuel as [|fuel IH]; intros i s Hs H;
    cbn [for_u32] in H; [discriminate|].
  destruct (cond i); [|now injection H as <-].
  apply bind_Ok_inv in H. destruct H as (s1 & H1 & H).
  eapply IH; [|exact H]. eapply Hbody; eauto.
Qed.

Lemma lor_bit_32 (w b : Z) :
  0 <= w < 2 ^ 32 -> 0 <= b < 32 -> 0 <= Z.lor w (Z.shiftl 1 b) < 2 ^ 32.
Proof.
  intros Hw Hb.
  assert (Hm : 0 < Z.shiftl 1 b < 2 ^ 32).
  { rewrite Z.shiftl_1_l. split; [apply Z.pow_pos_nonneg; lia|].
    apply Z.pow_lt_mono_r; lia. }
  assert (Hnn : 0 <= Z.lor w (Z.shiftl 1 b)) by (apply Z.lor_nonneg; lia).
  split; [exact Hnn|].
  assert (Hpos : 0 < Z.lor w (Z.shiftl 1 b)).
  { destruct (Z.eq_dec (Z.lor w (Z.shiftl 1 b)) 0) as [E|E]; [|lia].
    apply Z.lor_eq_0_iff in E. lia. }
  apply Z.log2_lt_pow2; [exact Hpos|].
  rewrite Z.log2_lor by lia.
  apply Z.max_lub_lt.
  - destruct (Z.eq_dec w 0) as [->|]; [cbn; lia|].
    apply Z.log2_lt_pow2; lia.
  - apply Z.log2_lt_pow2; lia.
Qed.

Lemma set_bit_32 (i : Z) (bm bm' : option (list Z)) :
  match bm with Some ws => Forall (fun w => 0 <= w < 2 ^ 32) ws | None => True end ->
  set_bit i bm = Ok bm' ->
  match bm' with Some ws => Forall (fun w => 0 <= w < 2 ^ 32) ws | None => True end.
Proof.
  unfold set_bit. destruct bm as [ws|]; [|discriminate].
  destruct (ws !! Z.to_nat (i / 32)) as [w|] eqn:E; [|discriminate].
  intros Hws [= <-]. apply Forall_insert; [exact Hws|].
  apply lor_bit_32; [|apply Z.mod_pos_bound; lia].
  rewrite Forall_forall in Hws. apply Hws. eapply list_elem_of_lookup_2; eauto.
Qed.

Lemma fresh_words_32 (a : Allocator) (n : nat) :
  Forall (fun w => 0 <= w < 2 ^ 32) (fresh_words a n).
Proof.
  unfold fresh_words. apply Forall_forall. intros w Hw.
  apply list_elem_of_In, in_map_iff in Hw. destruct Hw as (k & <- & _).
  unfold wrap32. apply Z.mod_pos_bound. lia.
Qed.

Lemma memset_zero_32 (ws ws' : list Z) (from count : Z) :
  Forall (fun w => 0 <= w < 2 ^ 32) ws -> memset_zero ws from count = Ok ws' ->
  Forall (fun w => 0 <= w < 2 ^ 32) ws'.
Proof.
  unfold memset_zero. intros Hws. destruct (_ && _); [|discriminate].
  intros [= <-]. apply Forall_app. split; [now apply Forall_take|].
  apply Forall_app. split; [|now apply Forall_drop].
  apply Forall_replicate. lia.
Qed.

Lemma ensure_capacity_32 (a : Allocator) (t t1 : FileTracker) (n : Z) :
  words_32bit t -> ensure_capacity a t n = Ok (Some t1) -> words_32bit t1.
Proof.
  unfold ensure_capacity, words_32bit. intros Ht.
  destruct (totalPages t <? n); [|now intros [= <-]].
  destruct (bitmapSize t <? _); [|now intros [= <-]].
  unfold realloc. destruct (realloc_ok a); [|discriminate].
  intros H. apply bind_Ok_inv in H. destruct H as (z & Hz & H).
  injection H as <-. cbn [dirtyBitmap]. eapply memset_zero_32; [|exact Hz].
  apply Forall_take, Forall_app. split; [|apply fresh_words_32].
  destruct (dirtyBitmap t); [exact Ht|constructor].
Qed.

Lemma mark_dirty_tracker_32 (a : Allocator) (t t' : FileTracker)
    (offset amount : Z) :
  words_32bit t -> mark_dirty_tracker a t offset amount = Ok t' -> words_32bit t'.
Proof.
  intros Ht H. unfold mark_dirty_tracker in H.
  apply bind_Ok_inv in H. destruct H as (s & _ & H).
  apply bind_Ok_inv in H. destruct H as (e & _ & H).
  apply bind_Ok_inv in H. destruct H as (g & Hg & H).
  destruct g as [t1|]; [|now injection H as <-].
  apply bind_Ok_inv in H. destruct H as (bm & Hbm & H). injection H as <-.
  unfold words_32bit. cbn [dirtyBitmap].
  refine (for_u32_invariant
            (fun bm => match bm with
                       | Some ws => Forall (fun w => 0 <= w < 2 ^ 32) ws
                       | None => True
                       end) _ _ _ _ _ _ _ _ Hbm).
  - intros j x y Hx Hy. eapply set_bit_32; eauto.
  - exact (ensure_capacity_32 a t t1 _ Ht Hg).
Qed.

(** X20.  The bitmap stays an array of 32-bit words.  If every word of
    every bitmap is a [uint32_t] value, it still is after any
    [vfs_tracking_mark_dirty] and any [vfs_tracking_reset_dirty] that
    returns: setting a bit shifts by less than 32 and never carries out of
    its word, and grown storage is filled with words. *)
Theorem bitmap_words_stay_32_bit {F : Type} (a : Allocator)
    (st : VfsTrackingState F) :
  Forall words_32bit (files st) ->
  (forall tracker offset amount st',
     vfs_tracking_mark_dirty a st tracker offset amount = Ok st' ->
     Forall words_32bit (files st')) /\
  (forall name st' rc,
     vfs_tracking_reset_dirty a st name = Ok (st', rc) ->
     Forall words_32bit (files st')).
Proof.
  intros Hst. split.
  - intros tracker offset amount st' H.
    destruct tracker as [p|]; [|now injection H as <-].
    destruct (deref st p) as [t|] eqn:Hp.
    + destruct (mark_dirty_state_cases _ _ _ _ _ _ _ Hp H)
        as [[_ ->]|(_ & t' & Hmark & ->)]; [assumption|].
      apply Forall_store; [assumption|].
      apply (mark_dirty_tracker_32 a t t' offset amount); [|exact Hmark].
      rewrite Forall_forall in Hst. apply Hst. rewrite list_elem_of_In.
      eapply deref_In; eauto.
    + unfold vfs_tracking_mark_dirty in H. rewrite Hp in H.
      destruct (amount <=? 0); [now injection H as <-|discriminate].
  - intros name st' rc H. unfold vfs_tracking_reset_dirty in H.
    destruct name as [fn|]; [|now injection H as <- _].
    apply bind_Ok_inv in H. destruct H as ([st1 r] & Hg & H). cbn [fst snd] in H.
    assert (Hst1 : Forall words_32bit (files st1)).
    { destruct (get_file_cases _ _ _ _ _ Hg) as [[-> _]|(f & _ & _ & -> & _)];
        [assumption|].
      cbn [push_fresh files]. constructor; [exact I|assumption]. }
    destruct r as [p|]; [|now injection H as <- _].
    destruct (deref st1 p) as [t|] eqn:Hd; [|discriminate].
    destruct (dirtyBitmap t) as [ws|] eqn:Hbm; [|now injection H as <- _].
    apply bind_Ok_inv in H. destruct H as (z & Hz & H). injection H as <- _.
    apply Forall_store; [assumption|]. unfold words_32bit. cbn [dirtyBitmap].
    eapply memset_zero_32; [|exact Hz].
    rewrite Forall_forall in Hst1.
    pose proof (Hst1 t) as Ht. unfold words_32bit in Ht. rewrite Hbm in Ht.
    apply Ht. rewrite list_elem_of_In. eapply deref_In; eauto.
Qed.

Lemma bitmap_words_stay_32_bit_witness :
  Forall words_32bit (files state_db_01) /\
  (forall tracker offset amount st',
     vfs_tracking_mark_dirty alloc_ok state_db_01 tracker offset amount = Ok st' ->
     Forall words_32bit (files st')) /\
  (forall name st' rc,
     vfs_tracking_reset_dirty alloc_ok state_db_01 name = Ok (st', rc) ->
     Forall words_32bit (files st')).
Proof.
  assert (H : Forall words_32bit (files state_db_01)).
  { repeat constructor; vm_compute; discriminate. }
  split; [exact H|]. exact (bitmap_words_stay_32_bit alloc_ok state_db_01 H).
Defined.
